(** * repo-to-claude-skill: repository analysis, prompt assembly and
      response parsing, embedded from the Python sources

    The development follows the layout of the repository:
    - [PyStr], [Py], [PyPath] : the Python [str] operations, results
      (a value or a raised exception) and paths the sources use;
    - [Json]   : JSON values as [json.loads] produces them, and a decoder;
    - [UrlLib] : the decomposition of a URL done by [urllib.parse.urlparse];
    - [Evidence] : the analysis dict exchanged between analyzer and
      generator;
    - [AiGenerator]  : [src/ai_generator.py] (BaseSkillGenerator);
    - [Locator], [RepoAnalyzer] : [src/repo_analyzer.py];
    - [App] : [generate_skill_workflow] of [app.py];
    - [Spec], [Examples] : the vocabulary of the specification and
      concrete inputs;
    then the properties, one group per component.

    Characters are 8-bit code points ([ascii]); a Python [str] is a list of
    them.  [json.loads] and [urlparse] belong to the Python library: the
    embedded functions take them as parameters, and the properties that
    quantify over them hold for every such function. *)

From Stdlib Require Import List Ascii ZArith NArith Lia Bool Arith.
From Stdlib Require String DecimalString.
Import ListNotations String.StringSyntax.

(** String literals stand for lists of characters. *)
Coercion String.list_ascii_of_string : String.string >-> list.
Set Warnings "-abstract-large-number".
Open Scope string_scope.
Open Scope list_scope.

(* ================================================================= *)
(** ** Python strings *)

Module PyStr.

Definition str := list ascii.

Definition chr (n : nat) : ascii := ascii_of_nat n.
Definition ord (c : ascii) : nat := nat_of_ascii c.

(** The line feed, tab and carriage return characters. *)
Definition LF : ascii := chr 10.
Definition TAB : ascii := chr 9.
Definition CR : ascii := chr 13.

(** [a == b] on strings. *)
Fixpoint str_eqb (a b : str) : bool :=
  match a, b with
  | [], [] => true
  | x :: a', y :: b' => Ascii.eqb x y && str_eqb a' b'
  | _, _ => false
  end.

(** [s.startswith(pre)]. *)
Fixpoint startswith (s pre : str) : bool :=
  match pre, s with
  | [], _ => true
  | _ :: _, [] => false
  | p :: pre', c :: s' => Ascii.eqb p c && startswith s' pre'
  end.

(** [sub in s]. *)
Fixpoint contains (sub s : str) : bool :=
  startswith s sub ||
  match s with
  | [] => false
  | _ :: t => contains sub t
  end.

(** [s.find(sub)]: lowest index of an occurrence, [-1] when there is none. *)
Fixpoint find_from (i : Z) (sub s : str) : Z :=
  if startswith s sub then i
  else match s with
       | [] => (-1)%Z
       | _ :: t => find_from (i + 1) sub t
       end.

Definition find (s sub : str) : Z := find_from 0 sub s.

(** [s.rfind(sub)]: highest index of an occurrence, [-1] when there is
    none. *)
Fixpoint rfind_from (i : Z) (sub s : str) : Z :=
  match s with
  | [] => if startswith [] sub then i else (-1)%Z
  | _ :: t =>
      let r := rfind_from (i + 1) sub t in
      if (0 <=? r)%Z then r
      else if startswith s sub then i else (-1)%Z
  end.

Definition rfind (s sub : str) : Z := rfind_from 0 sub s.

(** Python's treatment of one slice bound: negative bounds count from the
    end, and every bound is clamped to [0 .. len]. *)
Definition slice_bound (len i : Z) : Z :=
  if (i <? 0)%Z then Z.max 0 (i + len) else Z.min i len.

(** [s[a:b]]. *)
Definition slice (s : str) (a b : Z) : str :=
  let n := Z.of_nat (length s) in
  let a' := slice_bound n a in
  let b' := slice_bound n b in
  firstn (Z.to_nat (b' - a')) (skipn (Z.to_nat a') s).

(** [s[a:]] and [s[:b]]. *)
Definition slice_from (s : str) (a : Z) : str :=
  slice s a (Z.of_nat (length s)).
Definition slice_to (s : str) (b : Z) : str := slice s 0 b.

(** [s.find(sub, start)] for [0 <= start]. *)
Definition find_at (s sub : str) (start : Z) : Z :=
  let r := find (slice_from s start) sub in
  if (r <? 0)%Z then (-1)%Z else (r + Z.min start (Z.of_nat (length s)))%Z.

(** [s[:n]] for a literal [n >= 0]. *)
Definition take (n : nat) (s : str) : str := firstn n s.

(** [str.isspace] on one character (code points below 256). *)
Definition isspace (c : ascii) : bool :=
  let n := ord c in
  ((9 <=? n) && (n <=? 13)) || ((28 <=? n) && (n <=? 32))
  || (n =? 133) || (n =? 160).

Fixpoint lstrip_by (f : ascii -> bool) (s : str) : str :=
  match s with
  | [] => []
  | c :: t => if f c then lstrip_by f t else s
  end.

Definition rstrip_by (f : ascii -> bool) (s : str) : str :=
  rev (lstrip_by f (rev s)).

Definition strip_by (f : ascii -> bool) (s : str) : str :=
  rstrip_by f (lstrip_by f s).

(** [s.strip()]. *)
Definition strip (s : str) : str := strip_by isspace s.

Definition char_in (chars : str) (c : ascii) : bool :=
  existsb (Ascii.eqb c) chars.

(** [s.strip(chars)] and [s.lstrip(chars)]. *)
Definition strip_chars (chars s : str) : str := strip_by (char_in chars) s.
Definition lstrip_chars (chars s : str) : str := lstrip_by (char_in chars) s.

(** [s.split(sep)] for a one-character separator. *)
Fixpoint split (sep : ascii) (s : str) : list str :=
  match s with
  | [] => [[]]
  | c :: t =>
      if Ascii.eqb c sep then [] :: split sep t
      else match split sep t with
           | w :: ws => (c :: w) :: ws
           | [] => [[c]]
           end
  end.

(** [s.split(sep, 1)] for a one-character separator that occurs in [s]:
    the text before and after its first occurrence. *)
Fixpoint split_once (sep : ascii) (s : str) : str * str :=
  match s with
  | [] => ([], [])
  | c :: t =>
      if Ascii.eqb c sep then ([], t)
      else let '(a, b) := split_once sep t in (c :: a, b)
  end.

(** [s.replace(old, new)] for a non-empty [old]: occurrences are replaced
    from the left and do not overlap.  [skip] counts the characters of an
    occurrence that are still to be dropped. *)
Fixpoint replace_from (skip : nat) (old new s : str) : str :=
  match s with
  | [] => []
  | c :: t =>
      match skip with
      | S k => replace_from k old new t
      | O =>
          if startswith s old
          then new ++ replace_from (length old - 1) old new t
          else c :: replace_from 0 old new t
      end
  end.

Definition replace (s old new : str) : str := replace_from 0 old new s.

(** [str.lower] on one character (code points below 256). *)
Definition lower_char (c : ascii) : ascii :=
  let n := ord c in
  if ((65 <=? n) && (n <=? 90))
     || ((192 <=? n) && (n <=? 222) && negb (n =? 215))
  then chr (n + 32) else c.

Definition lower (s : str) : str := map lower_char s.

(** [sep.join(parts)]. *)
Fixpoint join (sep : str) (parts : list str) : str :=
  match parts with
  | [] => []
  | [p] => p
  | p :: ps => p ++ sep ++ join sep ps
  end.

Definition is_ascii_alpha (c : ascii) : bool :=
  let n := ord c in
  ((65 <=? n) && (n <=? 90)) || ((97 <=? n) && (n <=? 122)).

Definition is_ascii_digit (c : ascii) : bool :=
  let n := ord c in (48 <=? n) && (n <=? 57).

End PyStr.
Import PyStr.

(* ================================================================= *)
(** ** Python results: a returned value or a raised exception *)

Module Py.

Inductive exn : Type :=
| TypeError | AttributeError | KeyError | ValueError | OSError
| IndexError | JSONDecodeError | GitCommandError.

Inductive res (A : Type) : Type :=
| Ok (a : A)
| Raise (e : exn).
Arguments Ok {A} a.
Arguments Raise {A} e.

Definition bind {A B : Type} (m : res A) (k : A -> res B) : res B :=
  match m with
  | Ok a => k a
  | Raise e => Raise e
  end.

(** [try: m  except Exception: h]. *)
Definition try_except {A : Type} (m : res A) (h : exn -> res A) : res A :=
  match m with
  | Ok a => Ok a
  | Raise e => h e
  end.

End Py.
Import Py.

Declare Scope py_scope.
Delimit Scope py_scope with py.
Notation "x <- m ;; k" := (Py.bind m (fun x => k))
  (at level 61, m at next level, right associativity) : py_scope.
Open Scope py_scope.

(* ================================================================= *)
(** ** JSON values *)

Module Json.

Set Warnings "-register-all".

(** The value [json.loads] returns: [None], a [bool], a number (kept as
    its literal), a [str], a [list] or a [dict] (keys in insertion
    order). *)
Inductive json : Type :=
| JNull
| JBool (b : bool)
| JNum (lit : str)
| JStr (s : str)
| JList (l : list json)
| JDict (d : list (str * json)).

Definition isinstance_dict (v : json) : bool :=
  match v with JDict _ => true | _ => false end.

Definition isinstance_list (v : json) : bool :=
  match v with JList _ => true | _ => false end.

Fixpoint dict_get (d : list (str * json)) (k : str) : option json :=
  match d with
  | [] => None
  | (k', v) :: d' => if str_eqb k' k then Some v else dict_get d' k
  end.

Definition dict_has (d : list (str * json)) (k : str) : bool :=
  match dict_get d k with Some _ => true | None => false end.

(** [d[k] = v]: an existing key keeps its place. *)
Fixpoint dict_set (d : list (str * json)) (k : str) (v : json)
  : list (str * json) :=
  match d with
  | [] => [(k, v)]
  | (k', v') :: d' =>
      if str_eqb k' k then (k', v) :: d' else (k', v') :: dict_set d' k v
  end.

(** [x == key] for a string [key]. *)
Definition eq_str (key : str) (x : json) : bool :=
  match x with JStr s => str_eqb s key | _ => false end.

(** [key in v]: key membership in a dict, element membership in a list,
    substring test in a str; [TypeError] for every other value. *)
Definition py_in (key : str) (v : json) : res bool :=
  match v with
  | JDict d => Ok (dict_has d key)
  | JList l => Ok (existsb (eq_str key) l)
  | JStr s => Ok (contains key s)
  | _ => Raise TypeError
  end.

(** [v.get(key, default)]: only a dict has the method. *)
Definition py_get (v : json) (key : str) (default : json) : res json :=
  match v with
  | JDict d =>
      Ok (match dict_get d key with Some x => x | None => default end)
  | _ => Raise AttributeError
  end.

(** *** A decoder for JSON text

    [json.loads] is the Python library's; the functions of the generator
    take the decoder as a parameter.  [loads] below is a decoder for JSON
    text over 8-bit characters, used to run them on concrete texts; a
    [\u] escape of a code point above 255 is not representable and is
    refused. *)

Definition DQUOTE : ascii := chr 34.
Definition BACKSLASH : ascii := chr 92.

Definition is_json_ws (c : ascii) : bool :=
  let n := ord c in (n =? 32) || (n =? 9) || (n =? 10) || (n =? 13).

Definition skip_ws (s : str) : str := lstrip_by is_json_ws s.

Definition unescape (e : ascii) : option ascii :=
  let n := ord e in
  if n =? 34 then Some DQUOTE
  else if n =? 92 then Some BACKSLASH
  else if n =? 47 then Some (chr 47)
  else if n =? 98 then Some (chr 8)
  else if n =? 102 then Some (chr 12)
  else if n =? 110 then Some LF
  else if n =? 114 then Some CR
  else if n =? 116 then Some TAB
  else None.

Definition hex_digit (c : ascii) : option nat :=
  let n := ord c in
  if (48 <=? n) && (n <=? 57) then Some (n - 48)
  else if (65 <=? n) && (n <=? 70) then Some (n - 55)
  else if (97 <=? n) && (n <=? 102) then Some (n - 87)
  else None.

Definition hex4 (a b c d : ascii) : option nat :=
  match hex_digit a, hex_digit b, hex_digit c, hex_digit d with
  | Some x, Some y, Some z, Some w => Some (((x * 16 + y) * 16 + z) * 16 + w)
  | _, _, _, _ => None
  end.

Definition cons_char (c : ascii) (r : option (str * str)) : option (str * str) :=
  match r with
  | Some (x, rest) => Some (c :: x, rest)
  | None => None
  end.

(** The body of a string literal, after its opening quote. *)
Fixpoint scan_string (s : str) : option (str * str) :=
  match s with
  | [] => None
  | c :: t =>
      if Ascii.eqb c DQUOTE then Some ([], t)
      else if Ascii.eqb c BACKSLASH then
        match t with
        | [] => None
        | e :: t' =>
            match unescape e with
            | Some ch => cons_char ch (scan_string t')
            | None =>
                if Ascii.eqb e "u" then
                  match t' with
                  | h1 :: h2 :: h3 :: h4 :: t'' =>
                      match hex4 h1 h2 h3 h4 with
                      | Some n =>
                          if n <? 256 then cons_char (chr n) (scan_string t'')
                          else None
                      | None => None
                      end
                  | _ => None
                  end
                else None
            end
        end
      else if ord c <? 32 then None
      else cons_char c (scan_string t)
  end.

Fixpoint span_digits (s : str) : str * str :=
  match s with
  | c :: t =>
      if is_ascii_digit c then let '(a, b) := span_digits t in (c :: a, b)
      else ([], s)
  | [] => ([], [])
  end.

(** A number literal: an optional minus sign, then 0 or a digit string
    without leading zero, then an optional fraction (a dot and digits) and
    an optional exponent (e or E, an optional sign, digits). *)
Definition scan_number (s : str) : option (str * str) :=
  let '(sign, s1) :=
    match s with
    | c :: t => if Ascii.eqb c "-" then ([c], t) else ([], s)
    | [] => ([], s)
    end in
  let int_part :=
    match s1 with
    | c :: t =>
        if Ascii.eqb c "0" then Some ([c], t)
        else if is_ascii_digit c then Some (span_digits s1)
        else None
    | [] => None
    end in
  match int_part with
  | None => None
  | Some (ip, s2) =>
      let '(fp, s3) :=
        match s2 with
        | c :: t =>
            if Ascii.eqb c "." then
              match span_digits t with
              | ([], _) => ([], s2)
              | (ds, r) => (c :: ds, r)
              end
            else ([], s2)
        | [] => ([], s2)
        end in
      let '(ep, s4) :=
        match s3 with
        | c :: t =>
            if Ascii.eqb c "e" || Ascii.eqb c "E" then
              let '(sg, t1) :=
                match t with
                | d :: t' =>
                    if Ascii.eqb d "-" || Ascii.eqb d "+" then ([d], t')
                    else ([], t)
                | [] => ([], t)
                end in
              match span_digits t1 with
              | ([], _) => ([], s3)
              | (ds, r) => (c :: sg ++ ds, r)
              end
            else ([], s3)
        | [] => ([], s3)
        end in
      Some (sign ++ ip ++ fp ++ ep, s4)
  end.

(** A literal word at the head of the text. *)
Definition scan_word (w : str) (v : json) (s : str) : option (json * str) :=
  if startswith s w then Some (v, skipn (length w) s) else None.

Definition first_some {A : Type} (a b : option A) : option A :=
  match a with Some _ => a | None => b end.

Fixpoint parse_value (fuel : nat) (s : str) {struct fuel} : option (json * str) :=
  match fuel with
  | O => None
  | S n =>
      match s with
      | [] => None
      | c :: t =>
          if Ascii.eqb c DQUOTE then
            match scan_string t with
            | Some (x, r) => Some (JStr x, r)
            | None => None
            end
          else if Ascii.eqb c "{" then
            match skip_ws t with
            | [] => None
            | c' :: r =>
                if Ascii.eqb c' "}" then Some (JDict [], r)
                else parse_members n [] (c' :: r)
            end
          else if Ascii.eqb c "[" then
            match skip_ws t with
            | [] => None
            | c' :: r =>
                if Ascii.eqb c' "]" then Some (JList [], r)
                else parse_items n [] (c' :: r)
            end
          else
            first_some (scan_word "null" JNull s)
            (first_some (scan_word "true" (JBool true) s)
            (first_some (scan_word "false" (JBool false) s)
            (first_some
               (match scan_number s with
                | Some (lit, r) => Some (JNum lit, r)
                | None => None
                end)
            (first_some (scan_word "NaN" (JNum "NaN") s)
            (first_some (scan_word "Infinity" (JNum "Infinity") s)
                        (scan_word "-Infinity" (JNum "-Infinity") s))))))
      end
  end
with parse_items (fuel : nat) (acc : list json) (s : str) {struct fuel}
  : option (json * str) :=
  match fuel with
  | O => None
  | S n =>
      match parse_value n s with
      | None => None
      | Some (v, r) =>
          match skip_ws r with
          | [] => None
          | c :: r' =>
              if Ascii.eqb c "," then parse_items n (acc ++ [v]) (skip_ws r')
              else if Ascii.eqb c "]" then Some (JList (acc ++ [v]), r')
              else None
          end
      end
  end
with parse_members (fuel : nat) (acc : list (str * json)) (s : str)
  {struct fuel} : option (json * str) :=
  match fuel with
  | O => None
  | S n =>
      match s with
      | [] => None
      | q :: t =>
          if negb (Ascii.eqb q DQUOTE) then None
          else
            match scan_string t with
            | None => None
            | Some (k, r) =>
                match skip_ws r with
                | [] => None
                | c :: r1 =>
                    if negb (Ascii.eqb c ":") then None
                    else
                      match parse_value n (skip_ws r1) with
                      | None => None
                      | Some (v, r2) =>
                          match skip_ws r2 with
                          | [] => None
                          | c' :: r3 =>
                              if Ascii.eqb c' ","
                              then parse_members n (dict_set acc k v) (skip_ws r3)
                              else if Ascii.eqb c' "}"
                              then Some (JDict (dict_set acc k v), r3)
                              else None
                          end
                      end
                end
            end
      end
  end.

(** [json.loads(text)]; [None] stands for a raised [JSONDecodeError]. *)
Definition loads (text : str) : option json :=
  match parse_value (2 * length text + 2) (skip_ws text) with
  | Some (v, rest) =>
      match skip_ws rest with
      | [] => Some v
      | _ :: _ => None
      end
  | None => None
  end.

End Json.
Import Json.

(* ================================================================= *)
(** ** The data exchanged between the analyzer and the generator *)

Module Evidence.

(** One entry of [code_samples]: the dict with keys [file], [language]
    and [content]. *)
Record sample : Type := {
  file : str;
  language : str;
  content : str
}.

(** The [analysis] dict.  A field is [None] when the key is not in the
    dict; [analyze_repository] sets every key. *)
Record analysis : Type := {
  readme_content : option str;
  file_structure : option (list (str * str));
  code_samples : option (list sample);
  repo_type : option str;
  languages : option (list str);
  has_documentation : option bool;
  total_files : option nat
}.

(** The [description] entry of the repository metadata returned by the
    GitHub API: the key may be missing, and its value is a string or
    [null]. *)
Inductive description_field : Type :=
| DescMissing
| DescNull
| DescText (s : str).

End Evidence.
Import Evidence.

(* ================================================================= *)
(** ** src/ai_generator.py: BaseSkillGenerator *)

Module AiGenerator.

(** *** [str.format] on the prompt template

    The template file [templates/skill_prompt.txt] is not part of the
    sources; it is taken as a parameter, already cut into literal text and
    named replacement fields.  Only plain named fields are represented: a
    positional field, a conversion, a format specification, an attribute
    or index lookup and a stray brace, for which [str.format] raises other
    exceptions than [KeyError], are outside this type. *)
Inductive piece : Type :=
| Lit (s : str)
| Field (name : str).

Definition template := list piece.

Fixpoint kwargs_get (kwargs : list (str * str)) (name : str) : option str :=
  match kwargs with
  | [] => None
  | (k, v) :: rest => if str_eqb k name then Some v else kwargs_get rest name
  end.

(** [template.format] applied to keyword arguments: a field that is not among the keyword
    arguments raises [KeyError]. *)
Fixpoint format (t : template) (kwargs : list (str * str)) : res str :=
  match t with
  | [] => Ok []
  | Lit s :: t' => r <- format t' kwargs ;; Ok (s ++ r)
  | Field name :: t' =>
      match kwargs_get kwargs name with
      | None => Raise KeyError
      | Some v => r <- format t' kwargs ;; Ok (v ++ r)
      end
  end.

(** The decimal rendering of a number in an f-string. *)
Definition str_of_nat (n : nat) : str :=
  String.list_ascii_of_string (DecimalString.NilEmpty.string_of_uint (Nat.to_uint n)).

(** The loop [for i, sample in enumerate(samples, 1)] that builds
    [code_samples_text]. *)
Fixpoint format_samples (i : nat) (samples : list sample) : str :=
  match samples with
  | [] => []
  | sample :: rest =>
      (LF :: "## Sample " ++ str_of_nat i ++ ": " ++ file sample ++ [LF; LF])
      ++ ("```" ++ language sample ++ [LF] ++ content sample ++ [LF]
          ++ "```" ++ [LF])
      ++ format_samples (S i) rest
  end.

(** The loop that builds [file_structure_text]. *)
Fixpoint format_structure (items : list (str * str)) : str :=
  match items with
  | [] => []
  | (name, type_info) :: rest =>
      ("- " ++ name ++ " (" ++ type_info ++ ")" ++ [LF])
      ++ format_structure rest
  end.

Definition code_samples_text (a : analysis) : str :=
  match code_samples a with
  | Some (s :: l) => format_samples 1 (firstn 3 (s :: l))
  | _ => "No code samples available"
  end.

Definition file_structure_text (a : analysis) : str :=
  match file_structure a with
  | Some (e :: l) => format_structure (firstn 20 (e :: l))
  | _ => "File structure not available"
  end.

Definition get_or {A : Type} (v : option A) (default : A) : A :=
  match v with Some x => x | None => default end.

(** [repo_metadata.get('description', 'No description available')] as
    [str.format] renders it. *)
Definition repo_description (d : description_field) : str :=
  match d with
  | DescMissing => "No description available"
  | DescNull => "None"
  | DescText s => s
  end.

(** The keyword arguments passed to [self.prompt_template.format]. *)
Definition prompt_kwargs (repo_name repo_url : str)
    (repo_metadata : description_field) (a : analysis) : list (str * str) :=
  [ ("repo_name" : str, repo_name);
    ("repo_url" : str, repo_url);
    ("repo_type" : str, get_or (repo_type a) "unknown");
    ("languages" : str, join ", " (get_or (languages a) ["Unknown" : str]));
    ("repo_description" : str, repo_description repo_metadata);
    ("readme_content" : str,
      take 8000 (get_or (readme_content a) "README not found"));
    ("file_structure" : str, file_structure_text a);
    ("code_samples" : str, code_samples_text a) ].

Definition _prepare_prompt (prompt_template : template)
    (repo_name repo_url : str) (repo_metadata : description_field)
    (a : analysis) : res str :=
  format prompt_template (prompt_kwargs repo_name repo_url repo_metadata a).

(** *** Validation of the decoded document *)

Definition required_keys : list str :=
  ["skill_md" : str; "references" : str; "templates" : str].

(** [all(key in data for key in keys)]. *)
Fixpoint all_in (keys : list str) (data : json) : res bool :=
  match keys with
  | [] => Ok true
  | key :: rest =>
      b <- py_in key data ;;
      if b then all_in rest data else Ok false
  end.

(** [k1 not in v or k2 not in v]. *)
Definition not_in_or (k1 k2 : str) (v : json) : res bool :=
  a <- py_in k1 v ;;
  if negb a then Ok true
  else b <- py_in k2 v ;; Ok (negb b).

Definition _validate_skill_data (data : json) : res bool :=
  present <- all_in required_keys data ;;
  if negb present then Ok false else
  skill_md <- py_get data "skill_md" (JDict []) ;;
  if negb (isinstance_dict skill_md) then Ok false else
  missing <- not_in_or "frontmatter" "content" skill_md ;;
  if missing then Ok false else
  frontmatter <- py_get skill_md "frontmatter" (JDict []) ;;
  missing' <- not_in_or "name" "description" frontmatter ;;
  if missing' then Ok false else
  references <- py_get data "references" JNull ;;
  if negb (isinstance_list references) then Ok false else
  templates <- py_get data "templates" JNull ;;
  if negb (isinstance_list templates) then Ok false else
  Ok true.

(** *** Extraction and parsing of the model's answer *)

(** The local [json_text] of [_parse_response]. *)
Definition json_text (response_text : str) : str :=
  if contains "```json" response_text then
    let start := (find response_text "```json" + 7)%Z in
    let end_ := rfind response_text "```" in
    strip (slice response_text start end_)
  else if contains "```" response_text then
    let start := (find response_text "```" + 3)%Z in
    let end_ := rfind response_text "```" in
    strip (slice response_text start end_)
  else strip response_text.

Section Parser.

(** [json.loads]; [None] when it raises [JSONDecodeError]. *)
Variable json_loads : str -> option json.

(** [_parse_response]: [Ok None] is the returned [None]; an exception
    other than [JSONDecodeError] is not caught here. *)
Definition _parse_response (response_text : str) : res (option json) :=
  let json_text := json_text response_text in
  match json_loads json_text with
  | None => Ok None
  | Some skill_data =>
      valid <- _validate_skill_data skill_data ;;
      if negb valid then Ok None else Ok (Some skill_data)
  end.

(** [_call_ai_api] of the concrete generator: the raw text or [None]. *)
Variable _call_ai_api : str -> option str.

Variable prompt_template : template.

(** [generate_skill]: the prompt is prepared outside the [try]; every
    exception raised inside it is caught and gives [None]. *)
Definition generate_skill (repo_name repo_url : str)
    (repo_metadata : description_field) (a : analysis) : res (option json) :=
  prompt <- _prepare_prompt prompt_template repo_name repo_url repo_metadata a ;;
  try_except
    (match _call_ai_api prompt with
     | None | Some [] => Ok None
     | Some response_text => _parse_response response_text
     end)
    (fun _ => Ok None).

End Parser.

End AiGenerator.
Import AiGenerator.

(* ================================================================= *)
(** ** urllib.parse.urlparse *)

(** [urlparse] is the Python library's; the functions of the analyzer take
    it as a parameter.  [urlparse] below follows CPython's [urlsplit] and
    [urlparse] on [str] input, and is used to run them on concrete URLs:
    leading control characters and spaces are dropped, tab, carriage return
    and line feed are removed everywhere, then the scheme, the network
    location, the fragment, the query and the parameters of the last path
    segment are cut off in that order.  A network location with an
    unmatched square bracket raises [ValueError]. *)
Module UrlLib.

Record ParseResult : Type := {
  scheme : str;
  netloc : str;
  path : str;
  params : str;
  query : str;
  fragment : str
}.

Definition is_c0_control_or_space (c : ascii) : bool := ord c <=? 32.

Definition is_unsafe_url_byte (c : ascii) : bool :=
  Ascii.eqb c TAB || Ascii.eqb c CR || Ascii.eqb c LF.

Definition is_scheme_char (c : ascii) : bool :=
  is_ascii_alpha c || is_ascii_digit c || char_in "+-." c.

Definition uses_params : list str :=
  ["" : str; "ftp" : str; "hdl" : str; "prospero" : str; "http" : str;
   "imap" : str; "https" : str; "shttp" : str; "rtsp" : str; "rtsps" : str;
   "rtspu" : str; "sip" : str; "sips" : str; "mms" : str; "sftp" : str;
   "tel" : str].

(** The scheme, when the text before the first colon is one, and the rest
    of the URL. *)
Definition split_scheme (url : str) : str * str :=
  let i := find url ":" in
  if (0 <? i)%Z
     && match url with c :: _ => is_ascii_alpha c | [] => false end
     && forallb is_scheme_char (slice_to url i)
  then (lower (slice_to url i), slice_from url (i + 1))
  else ([], url).

(** [_splitnetloc(url, 2)]: the network location ends at the first of
    [/], [?] and [#]. *)
Definition _splitnetloc (url : str) : str * str :=
  let cut (delim : Z) (c : str) : Z :=
    let wdelim := find_at url c 2 in
    if (0 <=? wdelim)%Z then Z.min delim wdelim else delim in
  let delim := cut (cut (cut (Z.of_nat (length url)) "/") "?") "#" in
  (slice url 2 delim, slice_from url delim).

(** Recent CPython versions also check a bracketed host as an IP literal
    with the [ipaddress] module; that check is not modelled and is taken to
    accept. *)
Definition _check_bracketed_netloc (netloc : str) : bool := true.

Definition _splitparams (url : str) : str * str :=
  if contains "/" url then
    let i := find_at url ";" (rfind url "/") in
    if (i <? 0)%Z then (url, [])
    else (slice_to url i, slice_from url (i + 1))
  else
    let i := find url ";" in
    (slice_to url i, slice_from url (i + 1)).

Definition urlparse (url0 : str) : res ParseResult :=
  let url1 := lstrip_by is_c0_control_or_space url0 in
  let url2 := filter (fun c => negb (is_unsafe_url_byte c)) url1 in
  let '(scheme, url3) := split_scheme url2 in
  let '(netloc, url4) :=
    if startswith url3 "//" then _splitnetloc url3 else ([], url3) in
  let lb := contains "[" netloc in
  let rb := contains "]" netloc in
  if (lb && negb rb) || (rb && negb lb) then Raise ValueError
  else if lb && rb && negb (_check_bracketed_netloc netloc)
  then Raise ValueError
  else
    let '(url5, fragment) :=
      if contains "#" url4 then split_once "#" url4 else (url4, []) in
    let '(url6, query) :=
      if contains "?" url5 then split_once "?" url5 else (url5, []) in
    let '(url7, params) :=
      if existsb (str_eqb scheme) uses_params && contains ";" url6
      then _splitparams url6 else (url6, []) in
    Ok {| scheme := scheme; netloc := netloc; path := url7;
          params := params; query := query; fragment := fragment |}.

End UrlLib.
Import UrlLib.

(* ================================================================= *)
(** ** src/repo_analyzer.py: RepoAnalyzer, locators *)

Module Locator.

(** The character class [[a-zA-Z0-9_-]]. *)
Definition owner_char (c : ascii) : bool :=
  is_ascii_alpha c || is_ascii_digit c || Ascii.eqb c "_" || Ascii.eqb c "-".

(** The character class [[a-zA-Z0-9_.-]]. *)
Definition repo_char (c : ascii) : bool :=
  owner_char c || Ascii.eqb c ".".

(** [re.match] of a pattern [^[class]+$]: one or more characters of the
    class; [$] also matches just before a line feed that ends the
    string. *)
Definition re_match_plus (cls : ascii -> bool) (s : str) : bool :=
  let body :=
    match rev s with
    | c :: r => if Ascii.eqb c LF then rev r else s
    | [] => s
    end in
  match body with
  | [] => false
  | _ :: _ => forallb cls body
  end.

(** [re.sub(r'[^a-zA-Z0-9_-]', '_', s)]. *)
Definition re_sub_unsafe (s : str) : str :=
  map (fun c => if owner_char c then c else "_"%char) s.

Definition path_parts (parsed : ParseResult) : list str :=
  split "/" (strip_chars "/" (path parsed)).

(** The dict returned by [extract_repo_info]. *)
Record repo_info : Type := {
  owner : str;
  repo : str;
  full_name : str
}.

Section Urls.

(** [urllib.parse.urlparse]. *)
Variable urlparse : str -> res ParseResult.

Definition validate_github_url (url : str) : bool * str :=
  match url with
  | [] => (false, "URL cannot be empty" : str)
  | _ :: _ =>
  if 500 <? length url then (false, "URL is too long" : str) else
  match urlparse url with
  | Raise _ => (false, "Invalid URL format" : str)
  | Ok parsed =>
  if negb (str_eqb (scheme parsed) "https")
  then (false, "URL must use HTTPS protocol" : str) else
  if negb (existsb (str_eqb (netloc parsed))
             ["github.com" : str; "www.github.com" : str])
  then (false, "URL must be a GitHub repository" : str) else
  match path_parts parsed with
  | p0 :: p1 :: _ =>
      let owner := p0 in
      let repo := replace p1 ".git" "" in
      if negb (re_match_plus owner_char owner)
      then (false, "Invalid repository owner name" : str) else
      if negb (re_match_plus repo_char repo)
      then (false, "Invalid repository name" : str) else
      (true, [])
  | _ => (false, "Invalid GitHub repository URL format" : str)
  end
  end
  end.

(** [extract_repo_info]: [path_parts[1]] raises when the path has fewer
    than two segments. *)
Definition extract_repo_info (url : str) : res repo_info :=
  parsed <- urlparse url ;;
  match path_parts parsed with
  | p0 :: p1 :: _ =>
      let repo_name := replace p1 ".git" "" in
      Ok {| owner := p0; repo := repo_name;
            full_name := p0 ++ "/" ++ repo_name |}
  | _ => Raise IndexError
  end.

End Urls.

End Locator.
Import Locator.

(* ================================================================= *)
(** ** Paths of the file system *)

Module PyPath.

(** An absolute POSIX path: its components below the root. *)
Definition Path := list str.

Fixpoint path_eqb (p q : Path) : bool :=
  match p, q with
  | [], [] => true
  | a :: p', b :: q' => str_eqb a b && path_eqb p' q'
  | _, _ => false
  end.

(** [str(p)]. *)
Definition path_str (p : Path) : str := "/" ++ join "/" p.

(** [p.parts]. *)
Definition parts (p : Path) : list str := ("/" : str) :: p.

(** The components [pathlib] keeps of a relative name. *)
Definition name_parts (name : str) : list str :=
  filter (fun c => negb (str_eqb c [] || str_eqb c ".")) (split "/" name).

(** [p / name]: an absolute [name] replaces [p]. *)
Definition div (p : Path) (name : str) : Path :=
  if startswith name "/" then name_parts name else p ++ name_parts name.

(** [str] of a path relative to a directory. *)
Definition rel_str (rel : list str) : str :=
  match rel with
  | [] => "."
  | _ :: _ => join "/" rel
  end.

(** [PurePath(name).suffix]. *)
Definition suffix (name : str) : str :=
  let i := rfind name "." in
  if (0 <? i)%Z && (i <? Z.of_nat (length name) - 1)%Z
  then slice_from name i else [].

End PyPath.
Import PyPath.

(* ================================================================= *)
(** ** src/repo_analyzer.py: clone, analysis, cleanup *)

Module RepoAnalyzer.

(** A file-system mutation requested by the analyzer. *)
Inductive fs_event : Type :=
| Rmtree (p : Path)
| CloneFrom (url : str) (p : Path).

(** What the file system and git answer during one [clone_repository]
    call, one field per call site. *)
Record clone_env : Type := {
  resolve : Path -> res Path;
  exists_before : Path -> bool;
  rmtree_existing : Path -> res unit;
  clone_from : str -> Path -> res unit;
  total_size : Path -> res N;
  rmtree_oversized : Path -> res unit;
  exists_after_failure : Path -> bool;
  rmtree_failed : Path -> res unit
}.

Section Clone.

(** [config.TEMP_DIR]: [BASE_DIR / "data" / "temp"], where [BASE_DIR] is
    the directory of [config.py]. *)
Variable BASE_DIR : Path.
Definition TEMP_DIR : Path := div (div BASE_DIR "data") "temp".

Variable urlparse : str -> res ParseResult.
Variable env : clone_env.

Definition max_size : N := 500 * 1024 * 1024.

(** The two [except] handlers of the clone step: both remove the clone
    directory if it exists and return [None]; an exception of [rmtree]
    raised there is not caught. *)
Definition clone_failed (clone_path : Path) (events : list fs_event)
  : res (option Path) * list fs_event :=
  if exists_after_failure env clone_path then
    match rmtree_failed env clone_path with
    | Ok _ => (Ok None, events ++ [Rmtree clone_path])
    | Raise e => (Raise e, events ++ [Rmtree clone_path])
    end
  else (Ok None, events).

(** The [try] block around [git.Repo.clone_from]. *)
Definition clone_step (repo_url : str) (clone_path : Path)
    (events : list fs_event) : res (option Path) * list fs_event :=
  let events1 := events ++ [CloneFrom repo_url clone_path] in
  match clone_from env repo_url clone_path with
  | Raise _ => clone_failed clone_path events1
  | Ok _ =>
      match total_size env clone_path with
      | Raise _ => clone_failed clone_path events1
      | Ok size =>
          if (max_size <? size)%N then
            match rmtree_oversized env clone_path with
            | Ok _ => (Ok None, events1 ++ [Rmtree clone_path])
            | Raise _ => clone_failed clone_path (events1 ++ [Rmtree clone_path])
            end
          else (Ok (Some clone_path), events1)
      end
  end.

(** [clone_repository]: the returned value ([Ok None] is the returned
    [None]) and the file-system mutations requested, in order. *)
Definition clone_repository (repo_url : str)
  : res (option Path) * list fs_event :=
  let '(is_valid, error) := validate_github_url urlparse repo_url in
  if negb is_valid then (Ok None, []) else
  match extract_repo_info urlparse repo_url with
  | Raise e => (Raise e, [])
  | Ok repo_info =>
      let safe_name := re_sub_unsafe (full_name repo_info) in
      let clone_path := div TEMP_DIR safe_name in
      match resolve env clone_path with
      | Raise _ => (Ok None, [])
      | Ok clone_path =>
          match resolve env TEMP_DIR with
          | Raise _ => (Ok None, [])
          | Ok root =>
              if negb (startswith (path_str clone_path) (path_str root))
              then (Ok None, [])
              else if exists_before env clone_path then
                match rmtree_existing env clone_path with
                | Raise _ => (Ok None, [Rmtree clone_path])
                | Ok _ => clone_step repo_url clone_path [Rmtree clone_path]
                end
              else clone_step repo_url clone_path []
          end
      end
  end.

End Clone.

(** *** Analysis of a cloned tree *)

(** A candidate file, as the file system answers for it: its size in
    bytes from [stat] and the text [open] and [read] give. *)
Record probe : Type := {
  st_size : res N;
  text : res str
}.

(** A path found by [rglob], relative to the repository. *)
Record tree_file : Type := {
  rel_parts : list str;
  tf_probe : probe
}.

(** An entry of the top directory, as [iterdir] lists it. *)
Record dir_entry : Type := {
  entry_name : str;
  is_dir : bool
}.

(** The cloned tree, as the analysis observes it.  [readme_file] answers
    [None] when the path does not exist; [iterdir] holds the entries listed
    before an error, if any; the last four fields are the results of
    [_detect_repo_type], [_detect_languages], [_has_documentation] and
    [_count_files], which are not modelled further. *)
Record repo_tree : Type := {
  repo_path : Path;
  readme_file : str -> option probe;
  iterdir : list dir_entry;
  rglob : str -> res (list tree_file);
  detected_repo_type : str;
  detected_languages : list str;
  detected_documentation : bool;
  counted_files : nat
}.

Definition readme_patterns : list str :=
  ["README.md" : str; "README.rst" : str; "README.txt" : str; "README" : str].

Definition readme_max_size : N := 1024 * 1024.

(** The loop of [_extract_readme] over the remaining patterns. *)
Fixpoint extract_readme_from (t : repo_tree) (patterns : list str) : str :=
  match patterns with
  | [] => []
  | pattern :: rest =>
      match readme_file t pattern with
      | None => extract_readme_from t rest
      | Some f =>
          match st_size f with
          | Raise _ => extract_readme_from t rest
          | Ok size =>
              if (readme_max_size <? size)%N then extract_readme_from t rest
              else match text f with
                   | Ok s => s
                   | Raise _ => extract_readme_from t rest
                   end
          end
      end
  end.

Definition _extract_readme (t : repo_tree) : str :=
  extract_readme_from t readme_patterns.

(** [structure[name] = kind] on the ordered dict. *)
Fixpoint structure_set (d : list (str * str)) (k v : str) : list (str * str) :=
  match d with
  | [] => [(k, v)]
  | (k', v') :: d' =>
      if str_eqb k' k then (k', v) :: d' else (k', v') :: structure_set d' k v
  end.

Fixpoint file_structure_from (items : list dir_entry)
    (structure : list (str * str)) : list (str * str) :=
  match items with
  | [] => structure
  | item :: rest =>
      if startswith (entry_name item) "." then file_structure_from rest structure
      else if is_dir item
      then file_structure_from rest
             (structure_set structure (entry_name item) "directory")
      else file_structure_from rest
             (structure_set structure (entry_name item)
                match suffix (entry_name item) with
                | [] => "file" : str
                | sfx => sfx
                end)
  end.

Definition _get_file_structure (t : repo_tree) : list (str * str) :=
  file_structure_from (iterdir t) [].

Definition code_extensions : list str :=
  [".py" : str; ".js" : str; ".java" : str; ".go" : str; ".rs" : str;
   ".ts" : str; ".tsx" : str].

Definition max_file_size : N := 100 * 1024.

Section CodeSamples.

Variable t : repo_tree.
Variable max_samples : nat.

Definition file_path (f : tree_file) : Path := repo_path t ++ rel_parts f.

(** The inner loop of [_extract_code_samples] over the files of one
    extension; it stops as soon as [max_samples] samples are held. *)
Fixpoint scan_files (ext : str) (files : list tree_file)
    (samples : list sample) : list sample :=
  match files with
  | [] => samples
  | f :: rest =>
      if contains "test" (lower (path_str (file_path f)))
      then scan_files ext rest samples
      else if existsb (fun part => startswith part ".") (parts (file_path f))
      then scan_files ext rest samples
      else
        match st_size (tf_probe f) with
        | Raise _ => scan_files ext rest samples
        | Ok file_size =>
            if (max_file_size <? file_size)%N || (file_size =? 0)%N
            then scan_files ext rest samples
            else
              match text (tf_probe f) with
              | Raise _ => scan_files ext rest samples
              | Ok whole =>
                  let content := take 5000 whole in
                  let samples' :=
                    samples ++ [ {| file := rel_str (rel_parts f);
                                    language := skipn 1 ext;
                                    content := take 2000 content |} ] in
                  if max_samples <=? length samples' then samples'
                  else scan_files ext rest samples'
              end
        end
  end.

(** The outer loop over the extensions; an error of [rglob] ends the
    extraction with the samples held so far. *)
Fixpoint scan_extensions (exts : list str) (samples : list sample)
  : list sample :=
  match exts with
  | [] => samples
  | ext :: rest =>
      match rglob t ext with
      | Raise _ => samples
      | Ok found =>
          let files := firstn (max_samples * 2) found in
          let samples' := scan_files ext files samples in
          if max_samples <=? length samples' then samples'
          else scan_extensions rest samples'
      end
  end.

End CodeSamples.

(** [_extract_code_samples(repo_path, max_samples)]; [rglob t ext] stands
    for [list(repo_path.rglob("*" + ext))]. *)
Definition _extract_code_samples (t : repo_tree) (max_samples : nat)
  : list sample :=
  scan_extensions t max_samples code_extensions [].

(** [analyze_repository]; [max_samples] has its default value 5. *)
Definition analyze_repository (t : repo_tree) : analysis :=
  {| readme_content := Some (_extract_readme t);
     file_structure := Some (_get_file_structure t);
     code_samples := Some (_extract_code_samples t 5);
     repo_type := Some (detected_repo_type t);
     languages := Some (detected_languages t);
     has_documentation := Some (detected_documentation t);
     total_files := Some (counted_files t) |}.

(** [cleanup(repo_path)]: the removal requested, if any; an error of
    [rmtree] is printed and not raised. *)
Definition cleanup (exists_now : Path -> bool) (repo_path : Path)
  : list fs_event :=
  if exists_now repo_path then [Rmtree repo_path] else [].

End RepoAnalyzer.
Import RepoAnalyzer.

(* ================================================================= *)
(** ** app.py: generate_skill_workflow *)

Module App.

(** What the user is told when the workflow stops. *)
Inductive message : Type :=
| InvalidUrl (error : str)
| MetadataFailed
| CloneFailed
| GenerationFailed
| PackagingFailed
| Unexpected (e : exn).

(** The observable steps of one run, in order. *)
Inductive event : Type :=
| Cloned (repo_path : Path)
| Cleanup (repo_path : Path)
| StError (m : message)
| StWarning (msg : str)
| Rerun.

(** The collaborators of the workflow, each as the result of its call:
    the creation of the components (which includes [create_generator]),
    the metadata fetch ([None] for a falsy result), the analysis and the
    generation on the clone, the builder, the validator, the packager and
    the statements that record the result after the last cleanup. *)
Record collaborators : Type := {
  create_components : res unit;
  fetch_repo_metadata : str -> str -> option description_field;
  analyze : Path -> res analysis;
  generate : str -> str -> description_field -> analysis -> res (option json);
  build_skill : json -> res Path;
  validate_skill : Path -> res (bool * str);
  package_skill : Path -> bool * option Path;
  record_result : json -> res unit
}.

Section Workflow.

Variable BASE_DIR : Path.
Variable urlparse : str -> res ParseResult.
Variable env : clone_env.
Variable c : collaborators.

(** The statements after the successful clone. *)
Definition after_clone (repo_url : str) (info : repo_info)
    (repo_metadata : description_field) (repo_path : Path) : list event :=
  match analyze c repo_path with
  | Raise e => [StError (Unexpected e)]
  | Ok analysis =>
  match generate c (full_name info) repo_url repo_metadata analysis with
  | Raise e => [StError (Unexpected e)]
  | Ok None => [StError GenerationFailed; Cleanup repo_path]
  | Ok (Some skill_data) =>
  match build_skill c skill_data with
  | Raise e => [StError (Unexpected e)]
  | Ok skill_dir =>
  match validate_skill c skill_dir with
  | Raise e => [StError (Unexpected e)]
  | Ok (is_valid, validation_msg) =>
      (if is_valid then [] else [StWarning validation_msg]) ++
      match package_skill c skill_dir with
      | (false, _) => [StError PackagingFailed; Cleanup repo_path]
      | (true, _) =>
          Cleanup repo_path ::
          match record_result c skill_data with
          | Raise e => [StError (Unexpected e)]
          | Ok _ => [Rerun]
          end
      end
  end
  end
  end
  end.

(** [generate_skill_workflow]: the whole body is inside one [try] whose
    handler [except Exception] only reports the error. *)
Definition generate_skill_workflow (repo_url : str) : list event :=
  match create_components c with
  | Raise e => [StError (Unexpected e)]
  | Ok _ =>
  let '(is_valid, error) := validate_github_url urlparse repo_url in
  if negb is_valid then [StError (InvalidUrl error)] else
  match extract_repo_info urlparse repo_url with
  | Raise e => [StError (Unexpected e)]
  | Ok info =>
  match fetch_repo_metadata c (owner info) (repo info) with
  | None => [StError MetadataFailed]
  | Some repo_metadata =>
  match fst (clone_repository BASE_DIR urlparse env repo_url) with
  | Raise e => [StError (Unexpected e)]
  | Ok None => [StError CloneFailed]
  | Ok (Some repo_path) =>
      Cloned repo_path :: after_clone repo_url info repo_metadata repo_path
  end
  end
  end
  end.

End Workflow.

(** The number of [cleanup] calls on [p] in a run. *)
Fixpoint cleanup_count (p : Path) (trace : list event) : nat :=
  match trace with
  | [] => 0
  | Cleanup p' :: rest =>
      (if path_eqb p' p then 1 else 0)
      + cleanup_count p rest
  | _ :: rest => cleanup_count p rest
  end.

End App.
Import App.

(* ================================================================= *)
(** ** The vocabulary of the specification *)

Module Spec.

(** A payload wrapped in one fenced json block; [ws1] and [ws2] are the
    blanks (usually one line feed each) between the markers and the
    payload. *)
Definition fenced (ws1 payload ws2 : str) : str :=
  "```json" ++ ws1 ++ payload ++ ws2 ++ "```".

(** Direct parsing of a payload: decoding it and checking the decoded
    document. *)
Definition parse_document (json_loads : str -> option json) (payload : str)
  : res (option json) :=
  match json_loads payload with
  | None => Ok None
  | Some d =>
      valid <- _validate_skill_data d ;;
      if valid then Ok (Some d) else Ok None
  end.

(** [v] is a mapping that contains the key [k]. *)
Definition has_key (v : json) (k : str) : bool :=
  match v with JDict d => dict_has d k | _ => false end.

(** The value under [k] of a mapping ([JNull] when there is none). *)
Definition lookup (v : json) (k : str) : json :=
  match v with
  | JDict d => match dict_get d k with Some x => x | None => JNull end
  | _ => JNull
  end.

(** The shape of an element of [references] and [templates]. *)
Definition item_shape (v : json) : bool :=
  has_key v "filename" && has_key v "content".

Definition sequence_of (p : json -> bool) (v : json) : bool :=
  match v with JList l => forallb p l | _ => false end.

(** The conditions under which a document is to be rejected: a top-level
    key is missing, or [skill_md] is not a mapping with [frontmatter] and
    [content], or [frontmatter] lacks [name] or [description], or
    [references] or [templates] is not a sequence. *)
Definition incomplete (doc : json) : bool :=
  let skill_md := lookup doc "skill_md" in
  let frontmatter := lookup skill_md "frontmatter" in
  negb (has_key doc "skill_md" && has_key doc "references"
        && has_key doc "templates")
  || negb (has_key skill_md "frontmatter" && has_key skill_md "content")
  || negb (has_key frontmatter "name" && has_key frontmatter "description")
  || negb (isinstance_list (lookup doc "references"))
  || negb (isinstance_list (lookup doc "templates")).

(** The pattern [[class]+]: one or more characters, all of the class. *)
Definition matches (cls : ascii -> bool) (s : str) : bool :=
  match s with
  | [] => false
  | _ :: _ => forallb cls s
  end.

(** [s.endswith(suf)]. *)
Definition endswith (s suf : str) : bool := startswith (rev s) (rev suf).

(** A segment with a trailing [.git] suffix stripped. *)
Definition strip_git_suffix (s : str) : str :=
  if endswith s ".git" then firstn (length s - 4) s else s.

(** The reasons for which a locator is to be refused: it is empty or longer
    than 500 characters, its scheme is not https, its host is not among
    [hosts], its owner segment is outside the owner pattern, or its repo
    segment, [.git] suffix stripped, is outside the repo pattern. *)
Definition refused (urlparse : str -> res ParseResult) (hosts : list str)
    (url : str) : Prop :=
  url = []
  \/ 500 < length url
  \/ exists parsed, urlparse url = Ok parsed /\
       (scheme parsed <> ("https" : str)
        \/ ~ In (netloc parsed) hosts
        \/ (exists o rest,
              path_parts parsed = o :: rest /\ matches owner_char o = false)
        \/ (exists o r rest,
              path_parts parsed = o :: r :: rest
              /\ matches repo_char (strip_git_suffix r) = false)).

(** The hosts the validation lets through. *)
Definition github_hosts : list str :=
  ["github.com" : str; "www.github.com" : str].

(** [p] is [root] or a descendant of it: the components of [root] are the
    first components of [p]. *)
Fixpoint below (root p : Path) : bool :=
  match root, p with
  | [], _ => true
  | a :: root', b :: p' => str_eqb a b && below root' p'
  | _ :: _, [] => false
  end.



End Spec.
Import Spec.

(* ================================================================= *)
(** ** Concrete texts, URLs and environments *)

Module Examples.

(** A text in which the quote character stands for the double quote. *)
Definition dq (s : str) : str :=
  map (fun c => if Ascii.eqb c "'" then DQUOTE else c) s.

Definition document (frontmatter : json) (content : str) (references : json)
  : json :=
  JDict [("skill_md" : str,
           JDict [("frontmatter" : str, frontmatter);
                  ("content" : str, JStr content)]);
         ("references" : str, references);
         ("templates" : str, JList [])].

Definition name_and_description : json :=
  JDict [("name" : str, JStr "x"); ("description" : str, JStr "d")].

(** A complete document with empty [references] and [templates]. *)
Definition complete_text : str :=
  dq "{'skill_md':{'frontmatter':{'name':'x','description':'d'},'content':'c'},'references':[],'templates':[]}".

Definition complete_doc : json :=
  document name_and_description "c" (JList []).

(** A document whose [frontmatter] is a string, not a mapping. *)
Definition string_frontmatter_text : str :=
  dq "{'skill_md':{'frontmatter':'name and description','content':'c'},'references':[],'templates':[]}".

Definition string_frontmatter_doc : json :=
  document (JStr "name and description") "c" (JList []).

(** A document one of whose references has neither [filename] nor
    [content]. *)
Definition unshaped_text : str :=
  dq "{'skill_md':{'frontmatter':{'name':'x','description':'d'},'content':'c'},'references':[{'title':'t'}],'templates':[]}".

Definition unshaped_doc : json :=
  document name_and_description "c" (JList [JDict [("title" : str, JStr "t")]]).

(** A complete document whose content holds a fenced block of its own. *)
Definition nested_fence_text : str :=
  dq "{'skill_md':{'frontmatter':{'name':'x','description':'d'},'content':'```sh ls```'},'references':[],'templates':[]}".

Definition nested_fence_doc : json :=
  document name_and_description "```sh ls```" (JList []).

Definition plain_url : str := "https://github.com/owner/repo".
Definition www_url : str := "https://www.github.com/owner/repo".
Definition http_url : str := "http://github.com/owner/repo".
Definition interior_git_url : str := "https://github.com/owner/my.github.tools".
Definition deep_url : str := "https://github.com/owner/repo.git/tree/main/sub".
Definition git_only_url : str := "https://github.com/owner/.git.git/tree/main".

(** A locator of more than 500 characters whose path has three
    segments. *)
Definition long_deep_url : str :=
  "https://github.com/owner/repo/" ++ repeat "a"%char 500.

Definition base_dir : Path := ["srv" : str; "app" : str].

Definition clone_dir : Path :=
  ["srv" : str; "app" : str; "data" : str; "temp" : str; "owner_repo" : str].

(** A file system on which nothing is a link, nothing exists before the
    clone and every operation succeeds. *)
Definition quiet_env : clone_env :=
  {| resolve := fun p => Ok p;
     exists_before := fun _ => false;
     rmtree_existing := fun _ => Ok tt;
     clone_from := fun _ _ => Ok tt;
     total_size := fun _ => Ok 1024%N;
     rmtree_oversized := fun _ => Ok tt;
     exists_after_failure := fun _ => false;
     rmtree_failed := fun _ => Ok tt |}.

(** A directory beside the scratch root whose name starts with the name
    of the root. *)
Definition sibling_dir : Path :=
  ["srv" : str; "app" : str; "data" : str; "temp_other" : str; "sib" : str].

(** A file system on which the clone directory of [owner/repo] is a link
    to [sibling_dir], which exists, and every operation succeeds. *)
Definition sibling_link_env : clone_env :=
  {| resolve := fun p => if path_eqb p clone_dir then Ok sibling_dir
                         else Ok p;
     exists_before := fun _ => true;
     rmtree_existing := fun _ => Ok tt;
     clone_from := fun _ _ => Ok tt;
     total_size := fun _ => Ok 1024%N;
     rmtree_oversized := fun _ => Ok tt;
     exists_after_failure := fun _ => false;
     rmtree_failed := fun _ => Ok tt |}.

(** A cloned tree with no README, no entry and no code file. *)
Definition bare_tree (p : Path) : repo_tree :=
  {| repo_path := p;
     readme_file := fun _ => None;
     iterdir := [];
     rglob := fun _ => Ok [];
     detected_repo_type := "library";
     detected_languages := [];
     detected_documentation := false;
     counted_files := 0 |}.

Definition bare_analysis : analysis := analyze_repository (bare_tree clone_dir).

(** The keyword arguments of the prompt for the bare tree. *)
Definition bare_kwargs : list (str * str) :=
  prompt_kwargs "owner/repo" plain_url DescMissing bare_analysis.

Definition readme_only : template :=
  [Lit "README: "; Field "readme_content"].

(** Collaborators that all succeed, except the builder, which raises. *)
Definition failing_builder : collaborators :=
  {| create_components := Ok tt;
     fetch_repo_metadata := fun _ _ => Some (DescText "demo");
     analyze := fun p => Ok (analyze_repository (bare_tree p));
     generate := fun _ _ _ _ => Ok (Some complete_doc);
     build_skill := fun _ => Raise OSError;
     validate_skill := fun _ => Ok (true, "Skill is valid!" : str);
     package_skill := fun p => (true, Some p);
     record_result := fun _ => Ok tt |}.

End Examples.
Import Examples.

(* ================================================================= *)
(** * Further components

    The parts of the repository around the analysis and the generation:
    - [PyStrMore] : [str.split] with a separator text and a bound;
    - [BatchUi]   : the reading of the URL list in [batch_generation_ui]
      of [app.py];
    - [Validator] : [src/validator.py];
    - [SkillBuilder] : [src/skill_builder.py];
    - [Packager]  : [package_skill] of [src/packager.py];
    - [SpecMore], [ExamplesMore], [BuilderExamples], [PackagerExamples] :
      the vocabulary of their properties and concrete inputs.

    [yaml.dump], [yaml.safe_load], the rendering of a value by an f-string
    and the test of a number against zero belong to Python and its
    libraries: the embedded functions take them as parameters.  The file
    system is a parameter as well: it answers each request, and the
    requests are recorded in order. *)

Module PyStrMore.

(** [s.split(sep, maxsplit)] for a non-empty [sep]: [cur] holds, reversed,
    the characters of the piece being read, and [skip] counts the
    characters of a separator that are still to be dropped. *)
Fixpoint split_from (maxsplit : nat) (sep : str) (cur : str) (skip : nat)
    (s : str) : list str :=
  match s with
  | [] => [rev cur]
  | c :: t =>
      match skip with
      | S k => split_from maxsplit sep cur k t
      | O =>
          match maxsplit with
          | O => [rev cur ++ s]
          | S m =>
              if startswith s sep
              then rev cur :: split_from m sep [] (length sep - 1) t
              else split_from maxsplit sep (c :: cur) 0 t
          end
      end
  end.

Definition split_max (s sep : str) (maxsplit : nat) : list str :=
  split_from maxsplit sep [] 0 s.

End PyStrMore.

(* ================================================================= *)
(** ** [app.py]: the URL list of the batch page *)

Module BatchUi.

Definition MAX_BATCH_SIZE : nat := 5.

(** The comprehension
    [[url.strip() for url in urls_text.split('\n') if url.strip()]]. *)
Definition entered_urls (urls_text : str) : list str :=
  map strip
    (filter (fun url => negb (str_eqb (strip url) []))
       (split LF urls_text)).

(** The list [batch_generation_ui] passes to the batch workflow. *)
Definition batch_urls (urls_text : str) : list str :=
  let urls := entered_urls urls_text in
  match urls with
  | [] => urls
  | _ :: _ =>
      if MAX_BATCH_SIZE <? length urls then firstn MAX_BATCH_SIZE urls
      else urls
  end.

End BatchUi.

(* ================================================================= *)
(** ** [src/validator.py] *)

Module Validator.

(** What [subprocess.run] does with the validation script: it returns a
    completed process, raises [TimeoutExpired], or raises another
    exception, whose [str] is [message]. *)
Inductive run_result : Type :=
| Completed (returncode : Z) (stdout stderr : str)
| TimeoutExpired
| RunError (message : str).

(** The skill directory, as the fallback validation observes it.  A field
    is [None] when the path does not exist; otherwise it holds what reading
    [SKILL.md], or listing the directory, gives. *)
Record skill_files : Type := {
  skill_md : option (res str);
  references_entries : option (res (list str));
  templates_entries : option (res (list str))
}.

(** The checks of [SKILL.md]. *)
Definition skill_md_errors (files : skill_files) : res (list str) :=
  match skill_md files with
  | None => Ok ["SKILL.md not found" : str]
  | Some r =>
      content <- r ;;
      if negb (startswith content "---")
      then Ok ["SKILL.md missing YAML frontmatter" : str]
      else
        Ok ((if negb (contains "name:" (take 500 content))
             then ["SKILL.md missing 'name' in frontmatter" : str] else [])
            ++ (if negb (contains "description:" (take 500 content))
                then ["SKILL.md missing 'description' in frontmatter" : str]
                else []))
  end.

(** The check of an optional directory: [any(d.iterdir())] when it
    exists. *)
Definition directory_errors (entries : option (res (list str)))
    (message : str) : res (list str) :=
  match entries with
  | None => Ok []
  | Some r =>
      l <- r ;;
      match l with
      | [] => Ok [message]
      | _ :: _ => Ok []
      end
  end.

(** [_fallback_validation]; an exception of [open], [read] or [iterdir]
    is not caught. *)
Definition _fallback_validation (files : skill_files) : res (bool * str) :=
  e1 <- skill_md_errors files ;;
  e2 <- directory_errors (references_entries files)
          "references/ directory is empty" ;;
  e3 <- directory_errors (templates_entries files)
          "assets/templates/ directory is empty" ;;
  match e1 ++ e2 ++ e3 with
  | [] => Ok (true, "Skill structure is valid (basic validation)" : str)
  | errors =>
      Ok (false, "Validation errors:" ++ [LF] ++ "- "
                 ++ join ([LF] ++ "- ") errors)
  end.

(** [validate_skill]: [script_exists] is [self.validation_script.exists()]
    and [run] what running the script does. *)
Definition validate_skill (script_exists : bool) (run : run_result)
    (files : skill_files) : res (bool * str) :=
  if negb script_exists then _fallback_validation files
  else
    match run with
    | Completed returncode stdout stderr =>
        if (returncode =? 0)%Z then Ok (true, "Skill is valid!" : str)
        else Ok (false, "Validation failed: " ++ (stdout ++ stderr))
    | TimeoutExpired => Ok (false, "Validation timed out" : str)
    | RunError message => Ok (false, "Validation error: " ++ message)
    end.

(** [quick_check]. *)
Definition quick_check (files : skill_files) : bool :=
  match skill_md files with Some _ => true | None => false end.

End Validator.

(* ================================================================= *)
(** ** [src/skill_builder.py] *)

Module SkillBuilder.

Import PyStrMore.

(** A file-system operation requested by the builder: a directory
    creation, the opening of a file for writing, the writing of a text. *)
Inductive fs_op : Type :=
| Mkdir (p : Path)
| OpenW (p : Path)
| WriteText (p : Path) (s : str).

(** A computation that requests operations: from the operations requested
    so far, its result and the operations requested when it ends. *)
Definition io (A : Type) : Type := list fs_op -> res A * list fs_op.

Definition ret {A : Type} (a : A) : io A := fun log => (Ok a, log).

Definition lift {A : Type} (r : res A) : io A := fun log => (r, log).

Definition io_bind {A B : Type} (m : io A) (k : A -> io B) : io B :=
  fun log =>
    match m log with
    | (Ok a, log') => k a log'
    | (Raise e, log') => (Raise e, log')
    end.

Declare Scope io_scope.
Delimit Scope io_scope with io.
Notation "x <~ m ;; k" := (io_bind m (fun x => k))
  (at level 61, m at next level, right associativity) : io_scope.
Open Scope io_scope.

(** [v[key]] for a string [key]: only a dict can be indexed by a
    string. *)
Definition py_index (v : json) (key : str) : res json :=
  match v with
  | JDict d =>
      match dict_get d key with
      | Some x => Ok x
      | None => Raise KeyError
      end
  | _ => Raise TypeError
  end.

(** [p / v]: only a string can be joined to a path.  (A string that
    starts with exactly two slashes has a root of its own in [pathlib],
    which [Path] does not represent.) *)
Definition path_join (p : Path) (v : json) : res Path :=
  match v with
  | JStr s => Ok (div p s)
  | _ => Raise TypeError
  end.

(** The elements [for x in v] goes through: those of a list, the
    characters of a string, the keys of a dict. *)
Definition py_iter (v : json) : res (list json) :=
  match v with
  | JList l => Ok l
  | JStr s => Ok (map (fun c => JStr [c]) s)
  | JDict d => Ok (map (fun kv => JStr (fst kv)) d)
  | _ => Raise TypeError
  end.

Section Builder.

(** [self.output_dir]. *)
Variable output_dir : Path.

(** [yaml.dump(frontmatter, default_flow_style=False, sort_keys=False)]. *)
Variable yaml_dump : json -> res str.

(** The text an f-string gives for a value that is not a string. *)
Variable py_format : json -> str.

(** Whether a number literal denotes zero. *)
Variable number_is_zero : str -> bool.

(** What the file system answers to a request, given the requests made
    before. *)
Variable answer : list fs_op -> fs_op -> res unit.

Definition request (op : fs_op) : io unit :=
  fun log => (answer log op, log ++ [op]).

(** The truth value of [v] in [if v:]. *)
Definition truthy (v : json) : bool :=
  match v with
  | JNull => false
  | JBool b => b
  | JNum lit => negb (number_is_zero lit)
  | JStr s => negb (str_eqb s [])
  | JList l => match l with [] => false | _ :: _ => true end
  | JDict d => match d with [] => false | _ :: _ => true end
  end.

Definition render (v : json) : str :=
  match v with
  | JStr s => s
  | _ => py_format v
  end.

(** [with open(path, 'w', encoding='utf-8') as f: f.write(content)]:
    [f.write] raises [TypeError] for a value that is not a string. *)
Definition write_file (path : Path) (content : json) : io unit :=
  _ <~ request (OpenW path) ;;
  match content with
  | JStr s => request (WriteText path s)
  | _ => lift (Raise TypeError)
  end.

(** The text of [SKILL.md]. *)
Definition skill_md_text (yaml_content : str) (content : json) : str :=
  "---" ++ [LF] ++ yaml_content ++ "---" ++ [LF; LF] ++ render content.

Definition _create_skill_md (skill_dir : Path) (skill_md_data : json)
  : io unit :=
  let skill_md_path := div skill_dir "SKILL.md" in
  frontmatter <~ lift (py_index skill_md_data "frontmatter") ;;
  yaml_content <~ lift (yaml_dump frontmatter) ;;
  content <~ lift (py_index skill_md_data "content") ;;
  write_file skill_md_path (JStr (skill_md_text yaml_content content)).

(** The loop of [_create_references] and of [_create_templates]. *)
Fixpoint create_files (dir : Path) (items : list json) : io unit :=
  match items with
  | [] => ret tt
  | item :: rest =>
      filename <~ lift (py_index item "filename") ;;
      content <~ lift (py_index item "content") ;;
      path <~ lift (path_join dir filename) ;;
      _ <~ write_file path content ;;
      create_files dir rest
  end.

Definition _create_references (skill_dir : Path) (references : json)
  : io unit :=
  let references_dir := div skill_dir "references" in
  _ <~ request (Mkdir references_dir) ;;
  items <~ lift (py_iter references) ;;
  create_files references_dir items.

Definition _create_templates (skill_dir : Path) (templates : json)
  : io unit :=
  let templates_dir := div (div skill_dir "assets") "templates" in
  _ <~ request (Mkdir templates_dir) ;;
  items <~ lift (py_iter templates) ;;
  create_files templates_dir items.

(** [build_skill]: the handler of its [try] prints and raises again. *)
Definition build_skill (skill_data : json) : io Path :=
  skill_md <~ lift (py_index skill_data "skill_md") ;;
  frontmatter <~ lift (py_index skill_md "frontmatter") ;;
  skill_name <~ lift (py_index frontmatter "name") ;;
  skill_dir <~ lift (path_join output_dir skill_name) ;;
  _ <~ request (Mkdir skill_dir) ;;
  _ <~ _create_skill_md skill_dir skill_md ;;
  references <~ lift (py_get skill_data "references" JNull) ;;
  _ <~ (if truthy references then _create_references skill_dir references
        else ret tt) ;;
  templates <~ lift (py_get skill_data "templates" JNull) ;;
  _ <~ (if truthy templates then _create_templates skill_dir templates
        else ret tt) ;;
  ret skill_dir.

End Builder.

Section Info.

(** The values [yaml.safe_load] returns. *)
Variable V : Type.
Variable yaml_safe_load : str -> res V.

(** [get_skill_info]: [skill_md] is [None] when [SKILL.md] does not exist,
    and otherwise what reading it gives; the result [None] stands for the
    returned empty dict. *)
Definition get_skill_info (skill_md : option (res str)) : option V :=
  match skill_md with
  | None => None
  | Some (Raise _) => None
  | Some (Ok content) =>
      if startswith content "---" then
        let parts := split_max content "---" 2 in
        if 3 <=? length parts then
          let frontmatter_text := strip (nth 1 parts []) in
          match yaml_safe_load frontmatter_text with
          | Ok frontmatter => Some frontmatter
          | Raise _ => None
          end
        else None
      else None
  end.

End Info.

End SkillBuilder.

(* ================================================================= *)
(** ** [src/packager.py] *)

Module Packager.

(** An operation requested by the packager. *)
Inductive zip_op : Type :=
| Unlink (p : Path)
| ZipOpen (p : Path)
| ZipWrite (file_path : Path) (arcname : list str)
| ZipClose (p : Path).

(** What the file system answers during one [package_skill] call.
    [rglob] gives the paths the generator yields below the skill
    directory, relative to it, each with the answer of [is_file], and the
    exception that ends the iteration, if any. *)
Record zip_env : Type := {
  zip_exists : Path -> bool;
  unlink : Path -> res unit;
  zip_open : Path -> res unit;
  rglob : Path -> list (list str * bool) * option exn;
  zip_write : Path -> list str -> res unit;
  zip_close : Path -> res unit
}.

(** [p.name] and [p.parent]. *)
Definition name (p : Path) : str := last p [].
Definition parent (p : Path) : Path := removelast p.

Fixpoint strip_prefix (base p : list str) : option (list str) :=
  match base, p with
  | [], _ => Some p
  | b :: base', x :: p' =>
      if str_eqb b x then strip_prefix base' p' else None
  | _ :: _, [] => None
  end.

(** [p.relative_to(base)]. *)
Definition relative_to (p base : Path) : res (list str) :=
  match strip_prefix base p with
  | Some rel => Ok rel
  | None => Raise ValueError
  end.

Section Package.

Variable output_dir : Path.
Variable env : zip_env.

(** The loop over [skill_dir.rglob('*')]. *)
Fixpoint add_files (skill_dir : Path) (found : list (list str * bool))
    (error : option exn) (ops : list zip_op) : res unit * list zip_op :=
  match found with
  | [] => (match error with None => Ok tt | Some e => Raise e end, ops)
  | (rel, is_file) :: rest =>
      if is_file then
        let file_path := skill_dir ++ rel in
        match relative_to file_path (parent skill_dir) with
        | Raise e => (Raise e, ops)
        | Ok arcname =>
            match zip_write env file_path arcname with
            | Raise e => (Raise e, ops ++ [ZipWrite file_path arcname])
            | Ok _ =>
                add_files skill_dir rest error
                  (ops ++ [ZipWrite file_path arcname])
            end
        end
      else add_files skill_dir rest error ops
  end.

(** The [with zipfile.ZipFile(...)] statement: the archive is closed when
    the block ends, also by an exception. *)
Definition write_archive (skill_dir zip_path : Path) (ops : list zip_op)
  : res unit * list zip_op :=
  match zip_open env zip_path with
  | Raise e => (Raise e, ops ++ [ZipOpen zip_path])
  | Ok _ =>
      let ops1 := ops ++ [ZipOpen zip_path] in
      let '(found, error) := rglob env skill_dir in
      let '(r, ops2) := add_files skill_dir found error ops1 in
      (match zip_close env zip_path with
       | Ok _ => r
       | Raise e' => Raise e'
       end, ops2 ++ [ZipClose zip_path])
  end.

(** [package_skill]: every exception gives [(False, None)]. *)
Definition package_skill (skill_dir : Path)
  : (bool * option Path) * list zip_op :=
  let skill_name := name skill_dir in
  let zip_path := div output_dir (skill_name ++ ".zip") in
  let '(r, ops) :=
    if zip_exists env zip_path then
      match unlink env zip_path with
      | Raise e => (Raise e, [Unlink zip_path])
      | Ok _ => write_archive skill_dir zip_path [Unlink zip_path]
      end
    else write_archive skill_dir zip_path [] in
  match r with
  | Ok _ => ((true, Some zip_path), ops)
  | Raise _ => ((false, None), ops)
  end.

(** [get_zip_download_path]. *)
Definition get_zip_download_path (skill_name : str) : Path :=
  div output_dir (skill_name ++ ".zip").

End Package.

End Packager.

(* ================================================================= *)
(** ** The vocabulary of the further properties *)

Module SpecMore.

(** *** Clone *)

(** The path a mutation is requested on. *)
Definition event_path (e : fs_event) : Path :=
  match e with
  | Rmtree p => p
  | CloneFrom _ p => p
  end.

(** The outcome of a clone is a returned path. *)
Definition returns_path (r : res (option Path)) : bool :=
  match r with Ok (Some _) => true | _ => false end.

(** *** Analysis *)

(** The text of a README variant that can be used: the file exists, its
    size is known and at most 1 MB, and it can be read. *)
Definition readable_readme (t : repo_tree) (pattern : str) : option str :=
  match readme_file t pattern with
  | None => None
  | Some f =>
      match st_size f, text f with
      | Ok size, Ok s => if (size <=? 1024 * 1024)%N then Some s else None
      | _, _ => None
      end
  end.

(** An entry of the top directory is visible when its name does not start
    with a dot. *)
Definition visible (item : dir_entry) : bool :=
  negb (startswith (entry_name item) ".").

(** The kind recorded for a visible entry. *)
Definition entry_kind (item : dir_entry) : str :=
  if is_dir item then "directory"
  else match suffix (entry_name item) with
       | [] => "file"
       | sfx => sfx
       end.


(** *** Prompt *)

(** The part of the evidence the prompt can show: the first 8000
    characters of the README, the first 20 entries of the structure, the
    first 3 samples, the type and the languages. *)
Definition shown (a : analysis) : analysis :=
  {| readme_content := option_map (take 8000) (readme_content a);
     file_structure := option_map (firstn 20) (file_structure a);
     code_samples := option_map (firstn 3) (code_samples a);
     repo_type := repo_type a;
     languages := languages a;
     has_documentation := None;
     total_files := None |}.

(** *** Workflow *)

(** The events of a run that report an error, and those that warn. *)
Definition is_error (e : event) : bool :=
  match e with StError _ => true | _ => false end.

Definition is_warning (e : event) : bool :=
  match e with StWarning _ => true | _ => false end.

(** *** Batch page *)

(** A line that is entered as it is: not empty, no blank at either end,
    no line feed. *)
Definition clean_line (u : str) : bool :=
  negb (str_eqb u []) && str_eqb (strip u) u
  && forallb (fun c => negb (Ascii.eqb c LF)) u.

(** *** Validator *)

Import Validator.

Definition listed (entries : option (res (list str))) : bool :=
  match entries with
  | None | Some (Ok (_ :: _)) => true
  | _ => false
  end.

(** The basic structure of a skill directory: [SKILL.md] can be read,
    starts with the frontmatter marker and names [name:] and
    [description:] within its first 500 characters; the two optional
    directories, when they exist, can be listed and are not empty. *)
Definition basic_structure (files : skill_files) : bool :=
  match skill_md files with
  | Some (Ok content) =>
      startswith content "---"
      && contains "name:" (take 500 content)
      && contains "description:" (take 500 content)
  | _ => false
  end
  && listed (references_entries files)
  && listed (templates_entries files).

(** The directory with another text in [SKILL.md]. *)
Definition with_skill_md (files : skill_files) (content : str) : skill_files :=
  {| skill_md := Some (Ok content);
     references_entries := references_entries files;
     templates_entries := templates_entries files |}.

(** *** Builder *)

Import SkillBuilder.

(** The path an operation is requested on. *)
Definition op_path (op : fs_op) : Path :=
  match op with
  | Mkdir p => p
  | OpenW p => p
  | WriteText p _ => p
  end.

(** The name of the skill in a document. *)
Definition skill_name (doc : json) : json :=
  lookup (lookup (lookup doc "skill_md") "frontmatter") "name".

(** A name that is one plain path component. *)
Definition plain_name (n : str) : bool :=
  negb (str_eqb n []) && negb (str_eqb n ".") && negb (str_eqb n "..")
  && forallb (fun c => negb (Ascii.eqb c "/")) n.

(** A file name that is relative and has no [..] component. *)
Definition relative_safe (f : str) : bool :=
  negb (startswith f "/")
  && negb (existsb (fun part => str_eqb part "..") (name_parts f)).

(** Every file name given as a string by the elements of [v] is relative
    and has no [..] component. *)
Definition safe_items (v : json) : bool :=
  match py_iter v with
  | Ok items =>
      forallb (fun item =>
                 match py_index item "filename" with
                 | Ok (JStr f) => relative_safe f
                 | _ => true
                 end) items
  | Raise _ => true
  end.

(** [p] is [root] or below it, with no [..] component below [root]. *)
Definition within (root p : Path) : Prop :=
  exists tail,
    p = root ++ tail
    /\ existsb (fun part => str_eqb part "..") tail = false.

(** An element that [_create_references] and [_create_templates] can
    write: a mapping whose [filename] and [content] are strings. *)
Definition writable_item (v : json) : bool :=
  match lookup v "filename", lookup v "content" with
  | JStr _, JStr _ => true
  | _, _ => false
  end.


(** A computation only adds to the operations requested. *)
Definition extends {A : Type} (m : io A) : Prop :=
  forall log, exists ops, snd (m log) = log ++ ops.

(** Every operation a computation adds satisfies [P]. *)
Definition keeps {A : Type} (P : fs_op -> Prop) (m : io A) : Prop :=
  forall log, Forall P log -> Forall P (snd (m log)).

(** *** Packager *)

Import Packager.

(** The members written to the archive, in order. *)
Fixpoint members (ops : list zip_op) : list (Path * list str) :=
  match ops with
  | [] => []
  | ZipWrite f a :: rest => (f, a) :: members rest
  | _ :: rest => members rest
  end.

(** The regular files among the paths found. *)
Definition regular_files (found : list (list str * bool)) : list (list str) :=
  map fst (filter snd found).

End SpecMore.

(* ================================================================= *)
(** ** Further concrete inputs *)

Module ExamplesMore.

Definition trailing_slash_url : str := "https://github.com/owner/repo.git/".

(** A file system on which the clone fails and leaves a directory
    behind. *)
Definition failing_git_env : clone_env :=
  {| resolve := fun p => Ok p;
     exists_before := fun _ => false;
     rmtree_existing := fun _ => Ok tt;
     clone_from := fun _ _ => Raise GitCommandError;
     total_size := fun _ => Ok 1024%N;
     rmtree_oversized := fun _ => Ok tt;
     exists_after_failure := fun _ => true;
     rmtree_failed := fun _ => Ok tt |}.

(** Collaborators that all succeed. *)
Definition working_collaborators : collaborators :=
  {| create_components := Ok tt;
     fetch_repo_metadata := fun _ _ => Some (DescText "demo");
     analyze := fun p => Ok (analyze_repository (bare_tree p));
     generate := fun _ _ _ _ => Ok (Some complete_doc);
     build_skill := fun _ => Ok ["srv" : str; "app" : str; "output" : str;
                                 "generated" : str; "x" : str];
     validate_skill := fun _ => Ok (true, "Skill is valid!" : str);
     package_skill := fun p => (true, Some p);
     record_result := fun _ => Ok tt |}.

(** Six lines for the batch page. *)
Definition six_urls : list str :=
  [plain_url; www_url; http_url; deep_url; interior_git_url; git_only_url].

End ExamplesMore.

Module BuilderExamples.

Import SkillBuilder.

(** A file system that accepts every request. *)
Definition accepting : list fs_op -> fs_op -> res unit := fun _ _ => Ok tt.

(** A stand-in for [yaml.dump] that gives one fixed line. *)
Definition fixed_yaml : json -> res str := fun _ => Ok ("name: x" ++ [LF]).

Definition no_format : json -> str := fun _ => [].

Definition zero_literal : str -> bool := fun lit => str_eqb lit "0".

Definition out_dir : Path :=
  ["srv" : str; "app" : str; "output" : str; "generated" : str].

(** A document with one well-formed reference. *)
Definition one_reference_doc : json :=
  document name_and_description "c"
    (JList [JDict [("filename" : str, JStr "api.md");
                   ("content" : str, JStr "text")]]).

(** A document whose skill name is an absolute path. *)
Definition absolute_name_doc : json :=
  document (JDict [("name" : str, JStr "/tmp/x");
                   ("description" : str, JStr "d")]) "c" (JList []).

(** A stand-in for [yaml.safe_load] that returns the text. *)
Definition text_load : str -> res str := fun s => Ok s.

End BuilderExamples.

Module PackagerExamples.

Import Packager.

Definition built_dir : Path :=
  ["srv" : str; "app" : str; "output" : str; "generated" : str; "x" : str].

(** A skill directory with two files and one directory, and a file system
    on which every operation succeeds. *)
Definition quiet_zip_env : zip_env :=
  {| zip_exists := fun _ => false;
     unlink := fun _ => Ok tt;
     zip_open := fun _ => Ok tt;
     rglob := fun _ => ([(["SKILL.md" : str], true);
                         (["references" : str], false);
                         (["references" : str; "api.md" : str], true)], None);
     zip_write := fun _ _ => Ok tt;
     zip_close := fun _ => Ok tt |}.

End PackagerExamples.

(* ================================================================= *)
(** * Properties *)

(** ** Facts on strings *)

Module PyStrFacts.

Lemma str_eqb_eq (a b : str) : str_eqb a b = true <-> a = b.
Proof.
  revert b; induction a as [|x a IH]; intros [|y b]; simpl; split;
    try congruence; try easy.
  - rewrite andb_true_iff, Ascii.eqb_eq, IH. intros [-> ->]; reflexivity.
  - intros H; injection H as -> ->. rewrite Ascii.eqb_refl. simpl.
    apply IH. reflexivity.
Qed.

Lemma str_eqb_refl (a : str) : str_eqb a a = true.
Proof. apply str_eqb_eq; reflexivity. Qed.

Lemma startswith_app (a b : str) : startswith (a ++ b) a = true.
Proof.
  induction a as [|x a IH]; simpl.
  - destruct b; reflexivity.
  - rewrite Ascii.eqb_refl; exact IH.
Qed.

Lemma startswith_split (s pre : str) :
  startswith s pre = true -> exists rest, s = pre ++ rest.
Proof.
  revert s; induction pre as [|p pre IH]; intros s H.
  - exists s; reflexivity.
  - destruct s as [|c s]; simpl in H; [discriminate|].
    apply andb_true_iff in H as [H1 H2]. apply Ascii.eqb_eq in H1; subst.
    destruct (IH _ H2) as [rest ->]. exists rest; reflexivity.
Qed.

Lemma startswith_prefix (s a b : str) :
  startswith s (a ++ b) = true -> startswith s a = true.
Proof.
  intros H. destruct (startswith_split _ _ H) as [rest ->].
  rewrite <- app_assoc. apply startswith_app.
Qed.

Lemma startswith_short (s sub : str) :
  length s < length sub -> startswith s sub = false.
Proof.
  revert s; induction sub as [|p sub IH]; intros s H; simpl in *; [lia|].
  destruct s as [|c s]; [reflexivity|]. simpl in H. simpl.
  rewrite IH by lia. apply andb_false_r.
Qed.

Lemma contains_startswith (sub s : str) :
  startswith s sub = true -> contains sub s = true.
Proof. intros H; destruct s; cbn [contains]; rewrite H; reflexivity. Qed.

Lemma contains_cons (sub : str) (c : ascii) (s : str) :
  contains sub s = true -> contains sub (c :: s) = true.
Proof. intros H; cbn [contains]. rewrite H. apply orb_true_r. Qed.

Lemma contains_cons_false (sub : str) (c : ascii) (s : str) :
  contains sub (c :: s) = false ->
  startswith (c :: s) sub = false /\ contains sub s = false.
Proof. cbn [contains]. intros H. apply orb_false_iff in H. exact H. Qed.

Lemma contains_app_l (sub p s : str) :
  contains sub s = true -> contains sub (p ++ s) = true.
Proof.
  induction p; intros H; simpl app; [exact H|]. apply contains_cons; auto.
Qed.

Lemma contains_app_l_false (sub p s : str) :
  contains sub (p ++ s) = false -> contains sub s = false.
Proof.
  intros H. destruct (contains sub s) eqn:E; [|reflexivity].
  rewrite (contains_app_l _ p _ E) in H. discriminate.
Qed.

(** A text that holds [a ++ b] holds [a]. *)
Lemma contains_prefix (a b s : str) :
  contains (a ++ b) s = true -> contains a s = true.
Proof.
  induction s as [|c s IH]; cbn [contains]; intros H.
  - apply orb_true_iff in H as [H|H]; [|discriminate].
    rewrite (startswith_prefix _ _ _ H); reflexivity.
  - apply orb_true_iff in H as [H|H].
    + rewrite (startswith_prefix _ _ _ H); reflexivity.
    + rewrite (IH H). apply orb_true_r.
Qed.

Lemma find_from_startswith (i : Z) (sub s : str) :
  startswith s sub = true -> find_from i sub s = i.
Proof. intros H; destruct s; cbn [find_from]; rewrite H; reflexivity. Qed.

Lemma rfind_from_short (i : Z) (sub s : str) :
  length s < length sub -> rfind_from i sub s = (-1)%Z.
Proof.
  revert i; induction s as [|c s IH]; intros i H.
  - simpl. destruct sub; [simpl in H; lia | reflexivity].
  - cbn [rfind_from]. rewrite IH by (simpl in H; lia).
    simpl (0 <=? -1)%Z. cbv iota.
    rewrite startswith_short by exact H. reflexivity.
Qed.

(** The last occurrence of [sub] in a text that ends with it is the final
    one. *)
Lemma rfind_from_app_end (i : Z) (x sub : str) :
  (0 <= i)%Z -> sub <> [] ->
  rfind_from i sub (x ++ sub) = (i + Z.of_nat (length x))%Z.
Proof.
  intros Hi Hsub. revert i Hi. induction x as [|c x IH]; intros i Hi.
  - simpl app. destruct sub as [|p sub]; [congruence|].
    cbn [rfind_from]. rewrite rfind_from_short by (simpl; lia).
    simpl (0 <=? -1)%Z. cbv iota.
    replace (startswith (p :: sub) (p :: sub)) with true.
    + simpl; lia.
    + symmetry. rewrite <- (app_nil_r (p :: sub)) at 1. apply startswith_app.
  - simpl app. cbn [rfind_from]. rewrite IH by lia.
    replace (0 <=? i + 1 + Z.of_nat (length x))%Z with true
      by (symmetry; apply Z.leb_le; lia).
    simpl length. lia.
Qed.

Lemma slice_middle (a m b : str) :
  slice (a ++ m ++ b) (Z.of_nat (length a)) (Z.of_nat (length a + length m))
  = m.
Proof.
  unfold slice, slice_bound. rewrite !length_app.
  replace (Z.of_nat (length a) <? 0)%Z with false
    by (symmetry; apply Z.ltb_ge; lia).
  replace (Z.of_nat (length a + length m) <? 0)%Z with false
    by (symmetry; apply Z.ltb_ge; lia).
  rewrite !Z.min_l by lia.
  rewrite Nat2Z.id.
  replace (Z.to_nat (Z.of_nat (length a + length m) - Z.of_nat (length a)))
    with (length m) by lia.
  rewrite skipn_app, skipn_all, Nat.sub_diag. simpl.
  rewrite firstn_app, firstn_all, Nat.sub_diag. simpl. apply app_nil_r.
Qed.

Lemma lstrip_by_app (f : ascii -> bool) (ws s : str) :
  forallb f ws = true -> lstrip_by f (ws ++ s) = lstrip_by f s.
Proof.
  induction ws as [|c ws IH]; simpl; intros H; [reflexivity|].
  apply andb_true_iff in H as [-> H]. auto.
Qed.

Lemma lstrip_by_app_keep (f : ascii -> bool) (s t : str) :
  lstrip_by f s <> [] -> lstrip_by f (s ++ t) = lstrip_by f s ++ t.
Proof.
  induction s as [|c s IH]; simpl; intros H; [congruence|].
  destruct (f c); [auto | reflexivity].
Qed.

Lemma lstrip_by_all (f : ascii -> bool) (s : str) :
  lstrip_by f s = [] -> forallb f s = true.
Proof.
  induction s as [|c s IH]; simpl; intros H; [reflexivity|].
  destruct (f c); [auto | discriminate].
Qed.

Lemma lstrip_by_blank (f : ascii -> bool) (s : str) :
  forallb f s = true -> lstrip_by f s = [].
Proof.
  induction s as [|c s IH]; simpl; intros H; [reflexivity|].
  apply andb_true_iff in H as [-> H]. auto.
Qed.

Lemma rstrip_by_app (f : ascii -> bool) (s ws : str) :
  forallb f ws = true -> rstrip_by f (s ++ ws) = rstrip_by f s.
Proof.
  intros H. unfold rstrip_by. rewrite rev_app_distr.
  rewrite lstrip_by_app; [reflexivity|].
  rewrite forallb_forall in *. intros x Hx. apply H. apply in_rev; exact Hx.
Qed.

(** Blanks around a text do not change what [strip] returns. *)
Lemma strip_by_app (f : ascii -> bool) (ws1 s ws2 : str) :
  forallb f ws1 = true -> forallb f ws2 = true ->
  strip_by f (ws1 ++ s ++ ws2) = strip_by f s.
Proof.
  intros H1 H2. unfold strip_by. rewrite lstrip_by_app by exact H1.
  destruct (lstrip_by f s) eqn:E.
  - rewrite lstrip_by_blank; [reflexivity|].
    rewrite forallb_app, H2, (lstrip_by_all _ _ E). reflexivity.
  - rewrite lstrip_by_app_keep by (rewrite E; discriminate).
    rewrite E. apply rstrip_by_app; exact H2.
Qed.

Lemma incl_firstn {A : Type} (n : nat) (l : list A) : incl (firstn n l) l.
Proof.
  revert n; induction l as [|x l IH]; intros [|n]; simpl.
  - apply incl_refl.
  - apply incl_refl.
  - apply incl_nil_l.
  - intros z [->|H]; [left; reflexivity | right; eapply IH; eauto].
Qed.

Lemma incl_skipn {A : Type} (n : nat) (l : list A) : incl (skipn n l) l.
Proof.
  revert n; induction l as [|x l IH]; intros [|n]; simpl;
    try apply incl_refl.
  apply incl_tl, IH.
Qed.

Lemma incl_slice (s : str) (a b : Z) : incl (slice s a b) s.
Proof.
  unfold slice. eapply incl_tran; [apply incl_firstn | apply incl_skipn].
Qed.

Lemma incl_lstrip_by (f : ascii -> bool) (s : str) : incl (lstrip_by f s) s.
Proof.
  induction s as [|c s IH]; simpl; [apply incl_refl|].
  destruct (f c); [apply incl_tl; exact IH | apply incl_refl].
Qed.

Lemma incl_strip_by (f : ascii -> bool) (s : str) : incl (strip_by f s) s.
Proof.
  unfold strip_by, rstrip_by. intros c H.
  apply in_rev in H. apply incl_lstrip_by in H. apply in_rev in H.
  apply incl_lstrip_by in H. exact H.
Qed.

Lemma incl_split_once_fst (sep : ascii) (s : str) :
  incl (fst (split_once sep s)) s.
Proof.
  induction s as [|c s IH]; simpl; [apply incl_refl|].
  destruct (Ascii.eqb c sep); [intros x []|].
  destruct (split_once sep s) as [a b]. simpl in *.
  intros x [->|H]; [left; reflexivity | right; apply IH; exact H].
Qed.

(** A character of a piece of [split] is a character of the text. *)
Lemma split_In (sep : ascii) (s w : str) (c : ascii) :
  In w (split sep s) -> In c w -> In c s.
Proof.
  revert w. induction s as [|x s IH]; simpl; intros w Hw Hc.
  - destruct Hw as [<-|[]]. destruct Hc.
  - destruct (Ascii.eqb x sep).
    + destruct Hw as [<-|Hw]; [destruct Hc|]. right. eapply IH; eauto.
    + destruct (split sep s) as [|w0 ws] eqn:E.
      * destruct Hw as [<-|[]]. destruct Hc as [->|[]]. left; reflexivity.
      * destruct Hw as [<-|Hw].
        -- destruct Hc as [->|Hc]; [left; reflexivity|].
           right. apply (IH w0); [left; reflexivity | exact Hc].
        -- right. apply (IH w); [right; exact Hw | exact Hc].
Qed.

Lemma split_no_sep (sep : ascii) (s : str) :
  forallb (fun c => negb (Ascii.eqb c sep)) s = true -> split sep s = [s].
Proof.
  induction s as [|c s IH]; simpl; intros H; [reflexivity|].
  apply andb_true_iff in H as [Hc H]. apply negb_true_iff in Hc.
  rewrite Hc, (IH H). reflexivity.
Qed.

Lemma incl_replace_from (old : str) (s : str) (k : nat) :
  incl (replace_from k old [] s) s.
Proof.
  revert k. induction s as [|c s IH]; intros k; cbn [replace_from];
    [apply incl_refl|].
  destruct k as [|k].
  - destruct (startswith (c :: s) old).
    + cbn [app]. apply incl_tl. apply IH.
    + intros x [->|H]; [left; reflexivity | right; eapply IH; eauto].
  - apply incl_tl. apply IH.
Qed.

(** A character of [s] survives the removal of [old] unless it is one of
    the characters of [old]. *)
Lemma replace_from_keeps (old : str) (s : str) (k : nat) :
  old <> [] ->
  incl (firstn k s) old ->
  forall c, In c s -> In c (replace_from k old [] s) \/ In c old.
Proof.
  intros Hold. revert k.
  induction s as [|x s IH]; intros k Hk c Hc; [destruct Hc|].
  cbn [replace_from]. destruct k as [|k].
  - destruct (startswith (x :: s) old) eqn:E.
    + cbn [app]. destruct (startswith_split _ _ E) as [rest Hrest].
      destruct old as [|o old']; [congruence|].
      simpl in Hrest. injection Hrest as -> ->.
      destruct Hc as [->|Hc]; [right; left; reflexivity|].
      assert (Hlen : forall (a : ascii) l, length (a :: l) - 1 = length l)
        by (intros; simpl; lia).
      rewrite Hlen.
      destruct (IH (length old')) with (c := c) as [H|H]; auto.
      rewrite firstn_app, firstn_all, Nat.sub_diag. simpl. rewrite app_nil_r.
      apply incl_tl, incl_refl.
    + destruct Hc as [->|Hc]; [left; left; reflexivity|].
      destruct (IH 0 (incl_nil_l old) c Hc) as [H|H];
        [left; right; exact H | right; exact H].
  - destruct Hc as [->|Hc].
    + right. apply Hk. left; reflexivity.
    + apply IH; [|exact Hc]. intros y Hy. apply Hk. right; exact Hy.
Qed.

Lemma replace_absent (old new s : str) :
  contains old s = false -> replace s old new = s.
Proof.
  unfold replace. induction s as [|c s IH]; intros H; [reflexivity|].
  apply contains_cons_false in H as [H1 H2].
  cbn [replace_from]. rewrite H1, (IH H2). reflexivity.
Qed.


Lemma join_snoc (sep : str) (p : list str) (n : str) :
  p <> [] -> join sep (p ++ [n]) = join sep p ++ sep ++ n.
Proof.
  induction p as [|a p IH]; intros H; [congruence|].
  destruct p as [|b p].
  - reflexivity.
  - change (join sep ((a :: b :: p) ++ [n]))
      with (a ++ sep ++ join sep ((b :: p) ++ [n])).
    rewrite IH by discriminate.
    change (join sep (a :: b :: p)) with (a ++ sep ++ join sep (b :: p)).
    rewrite <- !app_assoc. reflexivity.
Qed.

Lemma forallb_incl (cls : ascii -> bool) (a b : str) :
  incl a b -> forallb cls b = true -> forallb cls a = true.
Proof.
  rewrite !forallb_forall. intros Hi H x Hx. apply H, Hi, Hx.
Qed.

Lemma forallb_impl (f g : ascii -> bool) (s : str) :
  (forall c, f c = true -> g c = true) ->
  forallb f s = true -> forallb g s = true.
Proof.
  intros Hfg. rewrite !forallb_forall. intros H c Hc. apply Hfg, H, Hc.
Qed.

Lemma rev_cons_last {A : Type} (l : list A) (c : A) (r : list A) :
  rev l = c :: r -> l = rev r ++ [c].
Proof.
  intros H. rewrite <- (rev_involutive l), H. reflexivity.
Qed.

End PyStrFacts.
Import PyStrFacts.

(* ----------------------------------------------------------------- *)
(** ** The parser and the validator of the generator *)

Module ParserFacts.

(** The candidate of a fenced text is the trimmed payload, whatever the
    payload holds. *)
Lemma json_text_fenced (ws1 payload ws2 : str) :
  forallb isspace ws1 = true -> forallb isspace ws2 = true ->
  json_text (fenced ws1 payload ws2) = strip payload.
Proof.
  intros H1 H2. unfold json_text.
  assert (Hsw : startswith (fenced ws1 payload ws2) "```json" = true)
    by apply startswith_app.
  rewrite (contains_startswith _ _ Hsw).
  unfold find. rewrite (find_from_startswith _ _ _ Hsw).
  set (m := ws1 ++ payload ++ ws2).
  assert (Hraw : fenced ws1 payload ws2 = ("```json" ++ m) ++ "```").
  { unfold fenced, m. rewrite <- !app_assoc. reflexivity. }
  unfold rfind. rewrite Hraw at 2.
  rewrite rfind_from_app_end by (try lia; discriminate).
  assert (Hraw' : fenced ws1 payload ws2 = ("```json" : str) ++ m ++ "```").
  { unfold fenced, m. rewrite <- !app_assoc. reflexivity. }
  rewrite Hraw'.
  replace (0 + 7)%Z with (Z.of_nat (length ("```json" : str))) by reflexivity.
  replace (0 + Z.of_nat (length (("```json" : str) ++ m)))%Z
    with (Z.of_nat (length ("```json" : str) + length m))
    by (rewrite length_app; lia).
  rewrite slice_middle. unfold m, strip. apply strip_by_app; assumption.
Qed.

(** The candidate of a text without fence marker is the trimmed text. *)
Lemma json_text_plain (raw : str) :
  contains "```" raw = false -> json_text raw = strip raw.
Proof.
  intros H. unfold json_text. rewrite H.
  destruct (contains "```json" raw) eqn:E; [|reflexivity].
  change ("```json" : str) with (("```" : str) ++ "json") in E.
  apply contains_prefix in E. congruence.
Qed.

Lemma parse_response_document (json_loads : str -> option json) (raw : str) :
  _parse_response json_loads raw = parse_document json_loads (json_text raw).
Proof.
  unfold _parse_response, parse_document.
  destruct (json_loads (json_text raw)) as [d|]; [|reflexivity].
  destruct (_validate_skill_data d) as [[|]|]; reflexivity.
Qed.

(** A fenced text is parsed as its trimmed payload is parsed directly. *)
Lemma parse_response_fenced (json_loads : str -> option json)
    (ws1 payload ws2 : str) :
  forallb isspace ws1 = true -> forallb isspace ws2 = true ->
  _parse_response json_loads (fenced ws1 payload ws2)
  = parse_document json_loads (strip payload).
Proof.
  intros H1 H2.
  rewrite parse_response_document, json_text_fenced by assumption.
  reflexivity.
Qed.

Lemma dict_has_get (d : list (str * json)) (k : str) :
  dict_has d k = true -> exists v, dict_get d k = Some v.
Proof. unfold dict_has. destruct (dict_get d k); [eauto | discriminate]. Qed.

Lemma dict_get_has (d : list (str * json)) (k : str) (v : json) :
  dict_get d k = Some v -> dict_has d k = true.
Proof. unfold dict_has. intros ->. reflexivity. Qed.

(** What an accepted document is known to contain. *)
Lemma validate_accepts_inv (data : json) :
  _validate_skill_data data = Ok true ->
  exists d sm fm refs temps,
    data = JDict d
    /\ dict_get d "skill_md" = Some (JDict sm)
    /\ dict_get sm "frontmatter" = Some fm
    /\ dict_has sm "content" = true
    /\ py_in "name" fm = Ok true
    /\ py_in "description" fm = Ok true
    /\ dict_get d "references" = Some (JList refs)
    /\ dict_get d "templates" = Some (JList temps).
Proof.
  unfold _validate_skill_data. intros H.
  destruct (all_in required_keys data) as [present|] eqn:Hall;
    cbn [bind] in H; [|discriminate].
  destruct present; cbn [negb] in H; [|discriminate].
  destruct data as [| | | |l|d]; cbn [py_get bind] in H; try discriminate.
  cbn [all_in required_keys py_in bind] in Hall.
  destruct (dict_has d "skill_md") eqn:H1; [|discriminate].
  destruct (dict_has d "references") eqn:H2; [|discriminate].
  destruct (dict_has d "templates") eqn:H3; [|discriminate].
  destruct (dict_has_get _ _ H1) as [v1 E1].
  destruct (dict_has_get _ _ H2) as [v2 E2].
  destruct (dict_has_get _ _ H3) as [v3 E3].
  rewrite E1, E2, E3 in H.
  destruct v1 as [| | | | |sm]; try discriminate.
  cbn [isinstance_dict negb not_in_or py_in bind py_get] in H.
  destruct (dict_has sm "frontmatter") eqn:H4; [|discriminate].
  cbn [negb bind] in H.
  destruct (dict_has sm "content") eqn:H5; [|discriminate].
  cbn [negb bind] in H.
  destruct (dict_has_get _ _ H4) as [fm E4]. rewrite E4 in H.
  unfold not_in_or in H.
  destruct (py_in "name" fm) as [[|]|] eqn:H6; try discriminate.
  cbn [bind negb] in H.
  destruct (py_in "description" fm) as [[|]|] eqn:H7; try discriminate.
  cbn [bind negb] in H.
  destruct v2 as [| | | |refs|]; try discriminate.
  destruct v3 as [| | | |temps|]; try discriminate.
  exists d, sm, fm, refs, temps. repeat split; auto.
Qed.

(** A mapping whose [frontmatter], if any, is a mapping is rejected when
    it is incomplete. *)
Lemma validate_rejects_incomplete_mapping (d : list (str * json)) :
  (has_key (lookup (JDict d) "skill_md") "frontmatter" = true ->
   isinstance_dict (lookup (lookup (JDict d) "skill_md") "frontmatter")
   = true) ->
  incomplete (JDict d) = true ->
  _validate_skill_data (JDict d) = Ok false.
Proof.
  intros Hfm Hinc.
  destruct (_validate_skill_data (JDict d)) as [[|]|e] eqn:E.
  - exfalso. apply validate_accepts_inv in E.
    destruct E
      as (d' & sm & fm & refs & temps & Ed & E1 & E4 & H5 & H6 & H7 & E2 & E3).
    injection Ed as <-.
    unfold lookup, has_key in Hfm. rewrite E1, E4 in Hfm.
    rewrite (dict_get_has _ _ _ E4) in Hfm. specialize (Hfm eq_refl).
    destruct fm as [| | | | |f]; try discriminate.
    assert (Hn : dict_has f "name" = true)
      by (cbn [py_in] in H6; injection H6 as H6; exact H6).
    assert (Hd : dict_has f "description" = true)
      by (cbn [py_in] in H7; injection H7 as H7; exact H7).
    unfold incomplete in Hinc. cbn [lookup has_key] in Hinc.
    rewrite E1 in Hinc. cbn [lookup has_key] in Hinc.
    rewrite E4, E2, E3 in Hinc. cbn [has_key isinstance_list] in Hinc.
    rewrite (dict_get_has _ _ _ E1), (dict_get_has _ _ _ E2),
      (dict_get_has _ _ _ E3), (dict_get_has _ _ _ E4), H5, Hn, Hd in Hinc.
    discriminate.
  - reflexivity.
  - exfalso. unfold _validate_skill_data in E.
    cbn [all_in required_keys py_in bind] in E.
    unfold lookup, has_key in Hfm.
    destruct (dict_has d "skill_md") eqn:H1; [|discriminate].
    destruct (dict_has d "references") eqn:H2; [|discriminate].
    destruct (dict_has d "templates") eqn:H3; [|discriminate].
    cbn [negb py_get bind] in E.
    destruct (dict_has_get _ _ H1) as [v1 E1]. rewrite E1 in E, Hfm.
    destruct v1 as [| | | | |sm]; try discriminate.
    cbn [isinstance_dict negb not_in_or py_in bind py_get] in E.
    destruct (dict_has sm "frontmatter") eqn:H4; [|discriminate].
    cbn [negb bind] in E.
    destruct (dict_has sm "content") eqn:H5; [|discriminate].
    cbn [negb bind] in E.
    destruct (dict_has_get _ _ H4) as [fm E4]. rewrite E4 in E, Hfm.
    specialize (Hfm eq_refl). destruct fm; try discriminate.
    unfold not_in_or in E. cbn [py_in bind] in E.
    destruct (dict_has d0 "name"); cbn [negb bind] in E; [|discriminate].
    destruct (dict_has d0 "description"); cbn [negb bind] in E;
      [|discriminate].
    destruct (dict_get d "references") as [[]|]; try discriminate;
    destruct (dict_get d "templates") as [[]|]; discriminate.
Qed.

(** The elements of [references] and [templates] play no part in the
    validation. *)
Lemma validate_ignores_elements (fm : list (str * json))
    (content : str) (refs temps : list json) :
  dict_has fm "name" = true -> dict_has fm "description" = true ->
  _validate_skill_data
    (JDict [("skill_md" : str,
              JDict [("frontmatter" : str, JDict fm);
                     ("content" : str, JStr content)]);
            ("references" : str, JList refs);
            ("templates" : str, JList temps)]) = Ok true.
Proof.
  intros H1 H2.
  unfold _validate_skill_data, not_in_or.
  cbn in H1, H2 |- *. rewrite H1. cbn. rewrite H2. reflexivity.
Qed.

End ParserFacts.
Import ParserFacts.

(** C1 (the code departs from the claim).  The document whose
    [frontmatter] is the string ["name and description"] lacks the keys
    [name] and [description], so it is incomplete; yet [_parse_response]
    returns it, and so does [generate_skill], because [in] on a string is
    a substring test.  A top-level number is incomplete as well, and there
    [_parse_response] raises [TypeError] instead of returning [None]. *)
Theorem string_frontmatter_accepted :
  Json.loads string_frontmatter_text = Some string_frontmatter_doc
  /\ incomplete string_frontmatter_doc = true
  /\ _parse_response Json.loads string_frontmatter_text
     = Ok (Some string_frontmatter_doc)
  /\ generate_skill Json.loads (fun _ => Some string_frontmatter_text) []
       "owner/repo" plain_url DescMissing bare_analysis
     = Ok (Some string_frontmatter_doc)
  /\ incomplete (JNum "5") = true
  /\ _parse_response Json.loads "5" = Raise TypeError.
Proof. repeat split; vm_compute; reflexivity. Qed.

(** An exception raised by the validation is caught by [generate_skill],
    which then returns [None]. *)
Example generate_catches_type_error :
  generate_skill Json.loads (fun _ => Some ("5" : str)) []
    "owner/repo" plain_url DescMissing bare_analysis = Ok None.
Proof. vm_compute. reflexivity. Qed.

(** C2, as stated, fails: a document with a reference that has neither
    [filename] nor [content] is returned. *)
Lemma unshaped_reference_accepted :
  Json.loads unshaped_text = Some unshaped_doc
  /\ sequence_of item_shape (lookup unshaped_doc "references") = false
  /\ _parse_response Json.loads unshaped_text = Ok (Some unshaped_doc).
Proof. repeat split; vm_compute; reflexivity. Qed.

(** C2, amended: before a document is returned, the parser has checked
    that [references] and [templates] are each a sequence; the shape of
    their elements is not checked. *)
Theorem parsed_document_has_sequences :
  forall (json_loads : str -> option json) (raw : str) (doc : json),
    _parse_response json_loads raw = Ok (Some doc) ->
    isinstance_list (lookup doc "references") = true
    /\ isinstance_list (lookup doc "templates") = true.
Proof.
  intros json_loads raw doc H. unfold _parse_response in H. cbv zeta in H.
  destruct (json_loads (json_text raw)) as [d|]; [|discriminate].
  destruct (_validate_skill_data d) as [[|]|] eqn:E; cbn in H;
    try discriminate.
  injection H as <-.
  apply validate_accepts_inv in E.
  destruct E as (d' & sm & fm & refs & temps & -> & _ & _ & _ & _ & _ & E2 & E3).
  unfold lookup. rewrite E2, E3. split; reflexivity.
Qed.

Lemma parsed_document_has_sequences_witness :
  isinstance_list (lookup complete_doc "references") = true
  /\ isinstance_list (lookup complete_doc "templates") = true.
Proof.
  apply (parsed_document_has_sequences Json.loads complete_text complete_doc).
  vm_compute. reflexivity.
Defined.

(** C3, as stated, fails: a complete document whose content holds a fenced
    block is returned when its text is wrapped in a json fence, and lost
    when the bare text is parsed, since the bare text then has fence
    markers of its own. *)
Lemma nested_fence_bare_fails :
  Json.loads nested_fence_text = Some nested_fence_doc
  /\ _validate_skill_data nested_fence_doc = Ok true
  /\ _parse_response Json.loads (fenced [LF] nested_fence_text [LF])
     = Ok (Some nested_fence_doc)
  /\ _parse_response Json.loads nested_fence_text = Ok None.
Proof. repeat split; vm_compute; reflexivity. Qed.

(** C3, amended: for every payload that holds no fence marker itself,
    parsing the payload wrapped in a single fenced json block gives what
    parsing the bare payload gives; and a text with no fence marker is
    parsed as its whole trimmed text. *)
Theorem fenced_payload_parses_as_bare :
  forall (json_loads : str -> option json) (ws1 payload ws2 : str),
    forallb isspace ws1 = true ->
    forallb isspace ws2 = true ->
    contains "```" payload = false ->
    _parse_response json_loads (fenced ws1 payload ws2)
      = _parse_response json_loads payload
    /\ json_text payload = strip payload
    /\ _parse_response json_loads payload
       = parse_document json_loads (strip payload).
Proof.
  intros json_loads ws1 payload ws2 H1 H2 Hno.
  pose proof (json_text_plain payload Hno) as Hplain.
  assert (Hbare : _parse_response json_loads payload
                  = parse_document json_loads (strip payload))
    by (rewrite parse_response_document, Hplain; reflexivity).
  split; [|split; assumption].
  rewrite Hbare. apply parse_response_fenced; assumption.
Qed.

Lemma fenced_payload_parses_as_bare_witness :
  _parse_response Json.loads (fenced [LF] complete_text [LF])
    = _parse_response Json.loads complete_text
  /\ json_text complete_text = strip complete_text
  /\ _parse_response Json.loads complete_text
     = parse_document Json.loads (strip complete_text).
Proof.
  apply (fenced_payload_parses_as_bare Json.loads [LF] complete_text [LF]);
    vm_compute; reflexivity.
Defined.

(** The two end-to-end scenarios of the specification. *)
Example scenario_fenced :
  _parse_response Json.loads (fenced [LF] complete_text [LF])
  = Ok (Some complete_doc).
Proof. vm_compute. reflexivity. Qed.

Example scenario_bare :
  _parse_response Json.loads complete_text = Ok (Some complete_doc).
Proof. vm_compute. reflexivity. Qed.

(* ----------------------------------------------------------------- *)
(** ** Locators *)

Module LocatorFacts.

(** The concrete [urlparse] removes every line feed. *)
Lemma urlparse_path_no_LF (url : str) (parsed : ParseResult) :
  UrlLib.urlparse url = Ok parsed -> ~ In LF (path parsed).
Proof.
  unfold UrlLib.urlparse.
  set (url2 := filter _ (lstrip_by _ url)).
  assert (H2 : ~ In LF url2).
  { unfold url2. intros H. apply filter_In in H as [_ H]. discriminate. }
  destruct (split_scheme url2) as [sch url3] eqn:E3.
  assert (H3 : incl url3 url2).
  { unfold split_scheme in E3.
    destruct (_ && _ && _) in E3; injection E3 as <- <-;
      [apply incl_slice | apply incl_refl]. }
  destruct (if startswith url3 "//" then _splitnetloc url3 else ([], url3))
    as [nl url4] eqn:E4.
  assert (H4 : incl url4 url3).
  { destruct (startswith url3 "//").
    - unfold _splitnetloc in E4. injection E4 as <- <-. apply incl_slice.
    - injection E4 as <- <-. apply incl_refl. }
  destruct (_ || _); [discriminate|].
  destruct (_ && _ && _); [discriminate|].
  destruct (if contains "#" url4 then split_once "#" url4 else (url4, []))
    as [url5 frag] eqn:E5.
  assert (H5 : incl url5 url4).
  { destruct (contains "#" url4).
    - pose proof (incl_split_once_fst "#" url4) as H. rewrite E5 in H. exact H.
    - injection E5 as <- <-. apply incl_refl. }
  destruct (if contains "?" url5 then split_once "?" url5 else (url5, []))
    as [url6 qry] eqn:E6.
  assert (H6 : incl url6 url5).
  { destruct (contains "?" url5).
    - pose proof (incl_split_once_fst "?" url5) as H. rewrite E6 in H. exact H.
    - injection E6 as <- <-. apply incl_refl. }
  destruct (if existsb (str_eqb sch) uses_params && contains ";" url6
            then _splitparams url6 else (url6, [])) as [url7 prm] eqn:E7.
  assert (H7 : incl url7 url6).
  { destruct (_ && _) in E7.
    - unfold _splitparams in E7.
      destruct (contains "/" url6).
      + destruct (_ <? _)%Z in E7; injection E7 as <- <-;
          [apply incl_refl | apply incl_slice].
      + injection E7 as <- <-. apply incl_slice.
    - injection E7 as <- <-. apply incl_refl. }
  intros H; injection H as <-. simpl.
  intros HLF. apply H2. apply H3, H4, H5, H6, H7. exact HLF.
Qed.

(** On a text without line feed, [re.match] of [^[class]+$] is the plain
    pattern. *)
Lemma re_match_plus_matches (cls : ascii -> bool) (s : str) :
  re_match_plus cls s = true -> ~ In LF s -> matches cls s = true.
Proof.
  unfold re_match_plus, matches. intros H HLF.
  destruct (rev s) as [|c r] eqn:E; [exact H|].
  destruct (Ascii.eqb c LF) eqn:Ec; [|exact H].
  exfalso. apply HLF. apply Ascii.eqb_eq in Ec. subst c.
  rewrite (rev_cons_last _ _ _ E). apply in_or_app. right; left; reflexivity.
Qed.

Lemma matches_re_match_plus (cls : ascii -> bool) (s : str) :
  cls LF = false -> matches cls s = true -> re_match_plus cls s = true.
Proof.
  unfold re_match_plus, matches. intros HLF H.
  destruct (rev s) as [|c r] eqn:E; [exact H|].
  destruct (Ascii.eqb c LF) eqn:Ec; [|exact H].
  exfalso. apply Ascii.eqb_eq in Ec. subst c.
  destruct s as [|x s]; [discriminate|].
  rewrite forallb_forall in H.
  assert (Hin : In LF (x :: s)).
  { rewrite (rev_cons_last _ _ _ E). apply in_or_app. right; left; reflexivity. }
  rewrite (H _ Hin) in HLF. discriminate.
Qed.

Lemma path_parts_incl (parsed : ParseResult) (seg : str) :
  In seg (path_parts parsed) -> incl seg (path parsed).
Proof.
  unfold path_parts. intros H c Hc.
  apply (incl_strip_by (char_in "/")). eapply split_In; eauto.
Qed.

Lemma matches_forallb (cls : ascii -> bool) (s : str) :
  matches cls s = true -> forallb cls s = true /\ s <> [].
Proof.
  destruct s; simpl; [discriminate|].
  intros H; split; [exact H | discriminate].
Qed.

Lemma endswith_split (s suf : str) :
  endswith s suf = true -> s = firstn (length s - length suf) s ++ suf.
Proof.
  unfold endswith. intros H. destruct (startswith_split _ _ H) as [rest E].
  assert (Hs : s = rev rest ++ suf).
  { rewrite <- (rev_involutive s), E, rev_app_distr, rev_involutive.
    reflexivity. }
  clear E H. subst s. rewrite length_app, Nat.add_sub.
  rewrite firstn_app, Nat.sub_diag, firstn_all. simpl. rewrite app_nil_r.
  reflexivity.
Qed.

Lemma endswith_git_short (s : str) :
  endswith s ".git" = true -> length s <= 4 -> s = ".git".
Proof.
  intros H Hlen. pose proof (endswith_split _ _ H) as Hs.
  change (length (String.list_ascii_of_string ".git")) with 4 in Hs.
  replace (length s - 4) with 0 in Hs by lia. exact Hs.
Qed.

(** When the segment with every [.git] removed matches the repo pattern,
    so does the segment with only its [.git] suffix stripped. *)
Lemma replace_git_matches (r : str) :
  matches repo_char (replace r ".git" "") = true ->
  matches repo_char (strip_git_suffix r) = true.
Proof.
  intros H. apply matches_forallb in H as [Hall Hne].
  assert (Hr : forallb repo_char r = true).
  { apply forallb_forall. intros c Hc.
    destruct (replace_from_keeps ".git" r 0) with (c := c) as [H|H];
      [discriminate | apply incl_nil_l | exact Hc | |].
    - rewrite forallb_forall in Hall. apply Hall, H.
    - simpl in H. destruct H as [<-|[<-|[<-|[<-|[]]]]]; reflexivity. }
  assert (Hs : forallb repo_char (strip_git_suffix r) = true).
  { unfold strip_git_suffix. destruct (endswith r ".git"); [|exact Hr].
    eapply forallb_incl; [apply incl_firstn | exact Hr]. }
  unfold matches. destruct (strip_git_suffix r) eqn:E; [|exact Hs].
  exfalso. apply Hne. unfold strip_git_suffix in E.
  destruct (endswith r ".git") eqn:Ee.
  - assert (Hshort : length r <= 4).
    { destruct (Nat.le_gt_cases (length r) 4) as [?|Hgt]; [assumption|].
      apply (f_equal (@length ascii)) in E. rewrite length_firstn in E.
      simpl in E. lia. }
    rewrite (endswith_git_short _ Ee Hshort). reflexivity.
  - subst r. reflexivity.
Qed.

(** No occurrence of [.git] starts inside [x] and ends inside a [.git]
    that follows it. *)
Lemma git_no_straddle (x : str) :
  x <> [] -> contains ".git" x = false ->
  startswith (x ++ ".git") ".git" = false.
Proof.
  intros Hne Hc.
  destruct (startswith (x ++ ".git") ".git") eqn:E; [|reflexivity].
  exfalso. destruct (startswith_split _ _ E) as [rest Hrest].
  destruct x as [|a [|b [|c [|d x']]]]; [congruence| | | |];
    cbn in Hrest; try (injection Hrest; intros; discriminate).
  injection Hrest as -> -> -> -> _.
  assert (Hs : startswith (String.list_ascii_of_string ".git" ++ x') ".git"
               = true) by apply startswith_app.
  apply contains_startswith in Hs. cbn in Hs, Hc. congruence.
Qed.

Lemma replace_git_suffix_only (x : str) :
  contains ".git" x = false -> replace (x ++ ".git") ".git" "" = x.
Proof.
  unfold replace. induction x as [|c x IH]; intros H; [reflexivity|].
  pose proof (git_no_straddle (c :: x) ltac:(discriminate) H) as Hs.
  apply contains_cons_false in H as [_ H2].
  change ((c :: x) ++ String.list_ascii_of_string ".git")
    with (c :: (x ++ String.list_ascii_of_string ".git")) in *.
  cbn [replace_from]. rewrite Hs, (IH H2). reflexivity.
Qed.

(** When [.git] occurs in a segment at most as its suffix, removing every
    [.git] is stripping the suffix. *)
Lemma replace_is_strip_suffix (r : str) :
  contains ".git" (strip_git_suffix r) = false ->
  replace r ".git" "" = strip_git_suffix r.
Proof.
  unfold strip_git_suffix. destruct (endswith r ".git") eqn:E; intros H.
  - pose proof (endswith_split _ _ E) as Hs.
    change (length (String.list_ascii_of_string ".git")) with 4 in Hs.
    rewrite Hs at 1. apply replace_git_suffix_only. exact H.
  - apply replace_absent. exact H.
Qed.

(** A locator that passes every check of the validation. *)
Lemma locator_accepted (urlparse : str -> res ParseResult) (url : str)
    (parsed : ParseResult) (o r : str) (rest : list str) :
  url <> [] ->
  length url <= 500 ->
  urlparse url = Ok parsed ->
  scheme parsed = ("https" : str) ->
  netloc parsed = ("github.com" : str) ->
  path_parts parsed = o :: r :: rest ->
  matches owner_char o = true ->
  matches repo_char (replace r ".git" "") = true ->
  validate_github_url urlparse url = (true, [])
  /\ extract_repo_info urlparse url
     = Ok {| owner := o;
             repo := replace r ".git" "";
             full_name := o ++ "/" ++ replace r ".git" "" |}.
Proof.
  intros Hne Hlen Hp Hs Hn Hparts Ho Hr.
  split.
  - unfold validate_github_url.
    destruct url as [|c0 url0] eqn:Eurl; [congruence|]. rewrite <- Eurl in *.
    replace (500 <? length url) with false
      by (symmetry; apply Nat.ltb_ge; exact Hlen).
    rewrite Hp, Hs, Hn, Hparts. cbn [str_eqb existsb negb].
    rewrite !str_eqb_refl. cbn [orb negb]. cbv zeta.
    rewrite (matches_re_match_plus _ _ eq_refl Ho).
    rewrite (matches_re_match_plus _ _ eq_refl Hr). reflexivity.
  - unfold extract_repo_info. rewrite Hp. cbn [bind]. rewrite Hparts.
    reflexivity.
Qed.

(** A validated locator can be decomposed. *)
Lemma validate_then_extract (urlparse : str -> res ParseResult) (url : str) :
  fst (validate_github_url urlparse url) = true ->
  exists info, extract_repo_info urlparse url = Ok info.
Proof.
  unfold validate_github_url, extract_repo_info.
  destruct url; [discriminate|].
  destruct (500 <? _); [discriminate|].
  destruct (urlparse _) as [parsed|]; [|discriminate].
  destruct (negb (str_eqb _ _)); [discriminate|].
  destruct (negb (existsb _ _)); [discriminate|].
  cbn [bind].
  destruct (path_parts parsed) as [|p0 [|p1 rest]]; try discriminate.
  intros _. eexists; reflexivity.
Qed.

End LocatorFacts.
Import LocatorFacts.

(** C6, as stated, fails: the host [www.github.com] is not [github.com],
    and the locator is validated. *)
Lemma www_host_accepted :
  refused UrlLib.urlparse ["github.com" : str] www_url
  /\ fst (validate_github_url UrlLib.urlparse www_url) = true.
Proof.
  split; [|vm_compute; reflexivity].
  right; right. eexists. split; [vm_compute; reflexivity|].
  right; left. cbn. intros [H|[]]. discriminate H.
Qed.

(** C6, amended: the validation fails on every input that is empty, longer
    than 500 characters, has a scheme other than https, has a host other
    than github.com and www.github.com, has an owner segment outside the
    owner pattern, or has a repo segment that, [.git] suffix stripped, is
    outside the repo pattern.  The validation is a function of the text
    alone; [urlparse] is any parser whose path holds no line feed, as
    CPython's does. *)
Theorem validate_refuses :
  forall (urlparse : str -> res ParseResult) (url : str),
    (forall parsed, urlparse url = Ok parsed -> ~ In LF (path parsed)) ->
    refused urlparse github_hosts url ->
    fst (validate_github_url urlparse url) = false.
Proof.
  intros urlparse url HLF Href.
  unfold validate_github_url.
  destruct url as [|c0 url0] eqn:Eurl; [reflexivity|]. rewrite <- Eurl in *.
  destruct (500 <? length url) eqn:Elen; [reflexivity|].
  destruct Href as [H|[H|(parsed & Hp & H)]].
  - congruence.
  - apply Nat.ltb_ge in Elen. lia.
  - rewrite Hp. specialize (HLF _ Hp).
    destruct (str_eqb (scheme parsed) "https") eqn:Es; [|reflexivity].
    cbn [negb].
    destruct (existsb (str_eqb (netloc parsed)) _) eqn:Eh; [|reflexivity].
    cbn [negb].
    destruct H
      as [H|[H|[(o & rest & Hparts & Hm)|(o & r & rest & Hparts & Hm)]]].
    + apply str_eqb_eq in Es. contradiction.
    + exfalso. apply H. apply existsb_exists in Eh as (h & Hin & Heq).
      apply str_eqb_eq in Heq. subst h. exact Hin.
    + rewrite Hparts. destruct rest as [|r rest]; [reflexivity|].
      destruct (re_match_plus owner_char o) eqn:Eo; [|reflexivity].
      apply re_match_plus_matches in Eo; [congruence|].
      intros Hin. apply HLF. eapply path_parts_incl; [|exact Hin].
      rewrite Hparts. left; reflexivity.
    + rewrite Hparts. cbv zeta.
      destruct (re_match_plus owner_char o); [|reflexivity]. cbn [negb].
      destruct (re_match_plus repo_char (replace r ".git" "")) eqn:Er;
        [|reflexivity].
      apply re_match_plus_matches in Er.
      * apply replace_git_matches in Er. congruence.
      * intros Hin. apply incl_replace_from in Hin.
        apply HLF. eapply path_parts_incl; [|exact Hin].
        rewrite Hparts. right; left; reflexivity.
Qed.

Lemma validate_refuses_witness :
  fst (validate_github_url UrlLib.urlparse http_url) = false.
Proof.
  apply validate_refuses.
  - intros parsed. apply urlparse_path_no_LF.
  - right; right. eexists. split; [vm_compute; reflexivity|].
    left. cbn. discriminate.
Defined.

(** C9 (the code departs from the claim).  The locator
    [https://github.com/owner/my.github.tools] is validated; its second
    path segment is [my.github.tools], which has no [.git] suffix, so the
    repo component should be that segment; [extract_repo_info] returns
    [myhub.tools], because [replace] removes the interior [.git]. *)
Theorem interior_git_removed :
  validate_github_url UrlLib.urlparse interior_git_url = (true, [])
  /\ (exists parsed, UrlLib.urlparse interior_git_url = Ok parsed
        /\ path_parts parsed = ["owner" : str; "my.github.tools" : str])
  /\ strip_git_suffix "my.github.tools" = ("my.github.tools" : str)
  /\ extract_repo_info UrlLib.urlparse interior_git_url
     = Ok {| owner := "owner"; repo := "myhub.tools";
             full_name := "owner/myhub.tools" |}.
Proof.
  split; [vm_compute; reflexivity|]. split.
  - eexists. split; vm_compute; reflexivity.
  - split; vm_compute; reflexivity.
Qed.

(** C10, as stated, fails: the path of [long_deep_url] has three
    segments, its first two segments satisfy the owner and repo patterns,
    and the validation fails, the locator having more than 500
    characters. *)
Lemma long_deep_url_refused :
  exists parsed e,
    UrlLib.urlparse long_deep_url = Ok parsed
    /\ scheme parsed = ("https" : str)
    /\ netloc parsed = ("github.com" : str)
    /\ path_parts parsed = ["owner" : str; "repo" : str; e]
    /\ matches owner_char "owner" = true
    /\ matches repo_char "repo" = true
    /\ matches repo_char (strip_git_suffix "repo") = true
    /\ length long_deep_url = 530
    /\ validate_github_url UrlLib.urlparse long_deep_url
       = (false, "URL is too long" : str).
Proof.
  eexists. eexists. split; [vm_compute; reflexivity|].
  repeat split; vm_compute; reflexivity.
Qed.

(** C10, amended: for every non-empty HTTPS github.com URL of at most 500
    characters whose path has more than two segments, the validation
    succeeds whenever the first segment satisfies the owner pattern and
    the second, which holds [.git] at most as its suffix, satisfies the
    repo pattern once that suffix is stripped; validation and extraction
    use the first two segments only. *)
Theorem extra_segments_ignored :
  forall (urlparse : str -> res ParseResult) (url : str)
         (parsed : ParseResult) (o r e : str) (extra : list str),
    url <> [] ->
    length url <= 500 ->
    urlparse url = Ok parsed ->
    scheme parsed = ("https" : str) ->
    netloc parsed = ("github.com" : str) ->
    path_parts parsed = o :: r :: e :: extra ->
    matches owner_char o = true ->
    contains ".git" (strip_git_suffix r) = false ->
    matches repo_char (strip_git_suffix r) = true ->
    validate_github_url urlparse url = (true, [])
    /\ extract_repo_info urlparse url
       = Ok {| owner := o;
               repo := strip_git_suffix r;
               full_name := o ++ "/" ++ strip_git_suffix r |}.
Proof.
  intros urlparse url parsed o r e extra Hne Hlen Hp Hs Hn Hparts Ho Hg Hr.
  rewrite <- (replace_is_strip_suffix r Hg) in *.
  eapply locator_accepted; eauto.
Qed.

Lemma extra_segments_ignored_witness :
  validate_github_url UrlLib.urlparse deep_url = (true, [])
  /\ extract_repo_info UrlLib.urlparse deep_url
     = Ok {| owner := "owner";
             repo := strip_git_suffix "repo.git";
             full_name := "owner" ++ "/" ++ strip_git_suffix "repo.git" |}.
Proof.
  apply (extra_segments_ignored UrlLib.urlparse deep_url
           {| scheme := "https"; netloc := "github.com";
              path := "/owner/repo.git/tree/main/sub";
              params := []; query := []; fragment := [] |}
           "owner" "repo.git" "tree" ["main" : str; "sub" : str]).
  - discriminate.
  - apply Nat.leb_le. reflexivity.
  - vm_compute. reflexivity.
  - reflexivity.
  - reflexivity.
  - vm_compute. reflexivity.
  - reflexivity.
  - vm_compute. reflexivity.
  - vm_compute. reflexivity.
Defined.

(* ----------------------------------------------------------------- *)
(** ** Code samples *)

Module SampleFacts.




Section Scan.

Variable t : repo_tree.
Variable max_samples : nat.



End Scan.

End SampleFacts.
Import SampleFacts.


(* ----------------------------------------------------------------- *)
(** ** The clone directory *)

Module PathFacts.

Lemma re_sub_unsafe_safe (s : str) :
  forallb owner_char (re_sub_unsafe s) = true.
Proof.
  unfold re_sub_unsafe. induction s as [|c s IH]; simpl; [reflexivity|].
  rewrite IH, andb_true_r.
  destruct (owner_char c) eqn:E; [exact E | reflexivity].
Qed.

Lemma owner_char_not (c x : ascii) :
  owner_char x = false -> owner_char c = true -> Ascii.eqb c x = false.
Proof.
  intros Hx Hc. destruct (Ascii.eqb c x) eqn:E; [|reflexivity].
  apply Ascii.eqb_eq in E. subst. congruence.
Qed.

(** A non-empty name made of safe characters is one plain component. *)
Lemma div_safe (p : Path) (name : str) :
  name <> [] -> forallb owner_char name = true -> div p name = p ++ [name].
Proof.
  intros Hne Hall. unfold div.
  destruct name as [|c name]; [congruence|].
  pose proof Hall as Hall'. cbn [forallb] in Hall'.
  apply andb_true_iff in Hall' as [Hc _].
  assert (Hslash : Ascii.eqb c "/" = false)
    by (apply (owner_char_not c "/"); [reflexivity | exact Hc]).
  assert (Hdot : Ascii.eqb c "." = false)
    by (apply (owner_char_not c "."); [reflexivity | exact Hc]).
  change (startswith (c :: name) "/")
    with (Ascii.eqb "/" c && startswith name []).
  rewrite Ascii.eqb_sym, Hslash. cbn [andb].
  unfold name_parts. rewrite split_no_sep.
  - cbn [filter].
    change (str_eqb (c :: name) []) with false.
    change (str_eqb (c :: name) ".")
      with (Ascii.eqb c "." && str_eqb name []).
    rewrite Hdot. reflexivity.
  - eapply forallb_impl; [|exact Hall]. intros x Hx. cbn beta.
    rewrite (owner_char_not x "/"); [reflexivity | reflexivity | exact Hx].
Qed.

(** The string of a child path starts with the string of its parent. *)
Lemma path_str_child (p : Path) (n : str) :
  startswith (path_str (p ++ [n])) (path_str p) = true.
Proof.
  unfold path_str. destruct p as [|a p].
  - apply (startswith_app "/" n).
  - rewrite join_snoc by discriminate.
    rewrite app_assoc. apply startswith_app.
Qed.

(** When resolution leaves the derived name in place below the resolved
    root (the name is not a link), the containment test passes. *)
Lemma plain_component_contained (env : clone_env) (root root' : Path)
    (name : str) :
  resolve env root = Ok root' ->
  resolve env (root ++ [name]) = Ok (root' ++ [name]) ->
  exists clone_path,
    resolve env (root ++ [name]) = Ok clone_path
    /\ startswith (path_str clone_path) (path_str root') = true.
Proof.
  intros _ Hc. exists (root' ++ [name]). split; [exact Hc|].
  apply path_str_child.
Qed.

(** When the resolved clone path does not start with the resolved root,
    the clone returns [None] and requests no mutation. *)
Lemma escape_stops_clone (BASE_DIR : Path)
    (urlparse : str -> res ParseResult) (env : clone_env) (url : str)
    (info : repo_info) (clone_path root : Path) :
  extract_repo_info urlparse url = Ok info ->
  resolve env (div (TEMP_DIR BASE_DIR) (re_sub_unsafe (full_name info)))
  = Ok clone_path ->
  resolve env (TEMP_DIR BASE_DIR) = Ok root ->
  startswith (path_str clone_path) (path_str root) = false ->
  clone_repository BASE_DIR urlparse env url = (Ok None, []).
Proof.
  intros Hinfo Hc Hr Hs. unfold clone_repository.
  destruct (validate_github_url urlparse url) as [[|] error];
    cbn [negb]; [|reflexivity].
  rewrite Hinfo, Hc, Hr, Hs. reflexivity.
Qed.

(** What the clone does check: the directory name derived holds only
    characters of [[A-Za-z0-9_-]], so the clone path, before resolution,
    is a child of the scratch root; and every call of [clone_repository]
    either returns [None] without having requested any mutation, or has
    found that the string of the resolved clone path starts with the
    string of the resolved scratch root. *)
Lemma safe_name_and_prefix_test :
  forall (BASE_DIR : Path) (urlparse : str -> res ParseResult)
         (env : clone_env) (owner repo url : str),
    forallb owner_char (re_sub_unsafe (owner ++ "/" ++ repo)) = true
    /\ div (TEMP_DIR BASE_DIR) (re_sub_unsafe (owner ++ "/" ++ repo))
       = TEMP_DIR BASE_DIR ++ [re_sub_unsafe (owner ++ "/" ++ repo)]
    /\ startswith
         (path_str (div (TEMP_DIR BASE_DIR)
                        (re_sub_unsafe (owner ++ "/" ++ repo))))
         (path_str (TEMP_DIR BASE_DIR)) = true
    /\ (clone_repository BASE_DIR urlparse env url = (Ok None, [])
        \/ exists info clone_path root,
             extract_repo_info urlparse url = Ok info
             /\ resolve env (div (TEMP_DIR BASE_DIR)
                                 (re_sub_unsafe (full_name info)))
                = Ok clone_path
             /\ resolve env (TEMP_DIR BASE_DIR) = Ok root
             /\ startswith (path_str clone_path) (path_str root) = true).
Proof.
  intros BASE_DIR urlparse env owner repo url.
  set (safe_name := re_sub_unsafe (owner ++ "/" ++ repo)).
  set (root := TEMP_DIR BASE_DIR).
  assert (Hsafe : forallb owner_char safe_name = true)
    by apply re_sub_unsafe_safe.
  assert (Hdiv : div root safe_name = root ++ [safe_name]).
  { apply div_safe; [|exact Hsafe].
    unfold safe_name, re_sub_unsafe. rewrite map_app.
    intros H. apply app_eq_nil in H as [_ H]. discriminate. }
  split; [exact Hsafe|]. split; [exact Hdiv|]. split.
  { rewrite Hdiv. apply path_str_child. }
  unfold clone_repository.
  destruct (validate_github_url urlparse url) as [is_valid error] eqn:Ev.
  destruct is_valid; cbn [negb]; [|left; reflexivity].
  destruct (validate_then_extract urlparse url) as [info Hinfo];
    [rewrite Ev; reflexivity|].
  rewrite Hinfo. fold root.
  destruct (resolve env (div root _)) as [clone_path|] eqn:Ec;
    [|left; reflexivity].
  destruct (resolve env root) as [root'|] eqn:Er; [|left; reflexivity].
  destruct (startswith (path_str clone_path) (path_str root')) eqn:Es;
    cbn [negb]; [|left; reflexivity].
  right. exists info, clone_path, root'. auto.
Qed.

End PathFacts.
Import PathFacts.

(** C4 (the code departs from the claim).  The containment of the resolved
    clone path is tested on strings, with [startswith].  When the clone
    directory of [owner/repo] is a link to [/srv/app/data/temp_other/sib],
    the resolved path is not a descendant of the resolved scratch root
    [/srv/app/data/temp], its string starts with the string of the root,
    and [clone_repository] removes that directory, clones into it and
    returns it. *)
Theorem sibling_path_passes_containment :
  TEMP_DIR base_dir = ["srv" : str; "app" : str; "data" : str; "temp" : str]
  /\ resolve sibling_link_env (TEMP_DIR base_dir) = Ok (TEMP_DIR base_dir)
  /\ resolve sibling_link_env
       (div (TEMP_DIR base_dir) (re_sub_unsafe "owner/repo"))
     = Ok sibling_dir
  /\ below (TEMP_DIR base_dir) sibling_dir = false
  /\ startswith (path_str sibling_dir) (path_str (TEMP_DIR base_dir)) = true
  /\ clone_repository base_dir UrlLib.urlparse sibling_link_env plain_url
     = (Ok (Some sibling_dir),
        [Rmtree sibling_dir; CloneFrom plain_url sibling_dir]).
Proof. repeat split; vm_compute; reflexivity. Qed.

(* ----------------------------------------------------------------- *)
(** ** The workflow of the application *)

Module WorkflowFacts.

Lemma path_eqb_refl (p : Path) : path_eqb p p = true.
Proof.
  induction p as [|x p IH]; simpl; [reflexivity|].
  rewrite str_eqb_refl, IH. reflexivity.
Qed.

(** Every path that returns cleans the clone once. *)
Lemma cleanup_once_without_exception (c : collaborators) (repo_url : str)
    (info : repo_info) (md : description_field) (p : Path)
    (a : analysis) (g : option json) (dir : Path) (v : bool * str) :
  analyze c p = Ok a ->
  generate c (full_name info) repo_url md a = Ok g ->
  (forall d, build_skill c d = Ok dir) ->
  validate_skill c dir = Ok v ->
  cleanup_count p (after_clone c repo_url info md p) = 1.
Proof.
  intros Ha Hg Hb Hv. unfold after_clone. rewrite Ha, Hg.
  pose proof (path_eqb_refl p) as Hpp.
  destruct g as [d|]; [|cbn; rewrite Hpp; reflexivity].
  rewrite Hb, Hv. destruct v as [[|] msg];
    destruct (package_skill c dir) as [[|] z]; cbn; rewrite Hpp;
    try destruct (record_result c d); reflexivity.
Qed.

(** A fault of the builder ends the run in the handler, which does not
    clean. *)
Lemma builder_exception_skips_cleanup (c : collaborators) (repo_url : str)
    (info : repo_info) (md : description_field) (p : Path)
    (a : analysis) (d : json) (e : exn) :
  analyze c p = Ok a ->
  generate c (full_name info) repo_url md a = Ok (Some d) ->
  build_skill c d = Raise e ->
  after_clone c repo_url info md p = [StError (Unexpected e)].
Proof.
  intros Ha Hg Hb. unfold after_clone. rewrite Ha, Hg, Hb. reflexivity.
Qed.

End WorkflowFacts.
Import WorkflowFacts.

(** C5 (the code departs from the claim).  With a builder that raises, the
    run clones the repository, reports the error, and never calls
    [cleanup] on the clone directory: the handler of the workflow only
    reports. *)
Theorem builder_fault_skips_cleanup :
  fst (clone_repository base_dir UrlLib.urlparse quiet_env plain_url)
  = Ok (Some clone_dir)
  /\ generate_skill_workflow base_dir UrlLib.urlparse quiet_env
       failing_builder plain_url
     = [Cloned clone_dir; StError (Unexpected OSError)]
  /\ cleanup_count clone_dir
       (generate_skill_workflow base_dir UrlLib.urlparse quiet_env
          failing_builder plain_url) = 0.
Proof. repeat split; vm_compute; reflexivity. Qed.

(* ----------------------------------------------------------------- *)
(** ** The prompt *)

Module PromptFacts.

(** A tree without README gives an empty README slot. *)
Lemma no_readme_empty_slot (t : repo_tree) (n u : str)
    (d : description_field) :
  (forall pattern, readme_file t pattern = None) ->
  kwargs_get (prompt_kwargs n u d (analyze_repository t)) "readme_content"
  = Some [].
Proof.
  intros H. cbn. unfold _extract_readme, readme_patterns. cbn.
  rewrite !H. reflexivity.
Qed.

(** The README placeholder is used only when the key is not in the
    dict. *)
Lemma absent_readme_key_placeholder (n u : str) (d : description_field)
    (a : analysis) :
  readme_content a = None ->
  kwargs_get (prompt_kwargs n u d a) "readme_content"
  = Some ("README not found" : str).
Proof. intros H. cbn. rewrite H. reflexivity. Qed.

(** The two other slots get their placeholder when the evidence is
    empty. *)
Lemma empty_structure_placeholder (a : analysis) :
  file_structure a = Some [] ->
  file_structure_text a = ("File structure not available" : str).
Proof. unfold file_structure_text. intros ->. reflexivity. Qed.

Lemma empty_samples_placeholder (a : analysis) :
  code_samples a = Some [] ->
  code_samples_text a = ("No code samples available" : str).
Proof. unfold code_samples_text. intros ->. reflexivity. Qed.

End PromptFacts.
Import PromptFacts.

(** C8 (the code departs from the claim).  For a repository with no
    README, no entry and no code file, the analysis holds an empty
    [readme_content], and the prompt gets the empty string in the README
    slot, not the placeholder; the slots of the file structure and of the
    code samples get their placeholders. *)
Theorem missing_readme_gives_empty_slot :
  _extract_readme (bare_tree clone_dir) = []
  /\ readme_content bare_analysis = Some []
  /\ kwargs_get bare_kwargs "readme_content" = Some []
  /\ _prepare_prompt readme_only "owner/repo" plain_url DescMissing
       bare_analysis = Ok ("README: " : str)
  /\ kwargs_get bare_kwargs "file_structure"
     = Some ("File structure not available" : str)
  /\ kwargs_get bare_kwargs "code_samples"
     = Some ("No code samples available" : str).
Proof. repeat split; vm_compute; reflexivity. Qed.

(* ================================================================= *)
(** * Further properties

    Properties of the components beyond the claims of the specification,
    each read off the source. *)

Import SpecMore ExamplesMore.

(* ----------------------------------------------------------------- *)
(** ** Locators: round trip and decomposition *)

Module LocatorMore.

Lemma strip_by_keep (f : ascii -> bool) (c d : ascii) (m : str) :
  f c = false -> f d = false ->
  strip_by f (c :: m ++ [d]) = c :: m ++ [d].
Proof.
  intros Hc Hd. unfold strip_by, rstrip_by.
  cbn [lstrip_by]. rewrite Hc.
  change (c :: m ++ [d]) with ((c :: m) ++ [d]).
  remember (c :: m) as l eqn:El.
  rewrite rev_app_distr. change (rev [d]) with [d].
  change ([d] ++ rev l) with (d :: rev l).
  cbn [lstrip_by]. rewrite Hd.
  change (rev (d :: rev l)) with (rev (rev l) ++ [d]).
  rewrite rev_involutive. reflexivity.
Qed.

Lemma split_app_sep (sep : ascii) (a b : str) :
  forallb (fun c => negb (Ascii.eqb c sep)) a = true ->
  split sep (a ++ sep :: b) = a :: split sep b.
Proof.
  induction a as [|c a IH]; simpl; intros H.
  - rewrite Ascii.eqb_refl. reflexivity.
  - apply andb_true_iff in H as [Hc H]. apply negb_true_iff in Hc.
    rewrite Hc, (IH H). reflexivity.
Qed.

Lemma last_split {A : Type} (l : list A) :
  l <> [] -> exists m d, l = m ++ [d].
Proof.
  intros H. destruct (exists_last H) as (m & d & ->). eauto.
Qed.

Lemma class_no_slash (cls : ascii -> bool) (s : str) :
  cls "/"%char = false -> forallb cls s = true ->
  forallb (fun c => negb (Ascii.eqb c "/")) s = true.
Proof.
  intros Hs. apply forallb_impl. intros c Hc.
  destruct (Ascii.eqb c "/") eqn:E; [|reflexivity].
  apply Ascii.eqb_eq in E. subst. congruence.
Qed.

(** The segments of a path made of an owner and a repo, with any number of
    slashes before and after. *)
Lemma path_parts_two (parsed : ParseResult) (sl1 o seg sl2 : str) :
  path parsed = sl1 ++ (o ++ "/" ++ seg) ++ sl2 ->
  forallb (char_in "/") sl1 = true ->
  forallb (char_in "/") sl2 = true ->
  matches owner_char o = true ->
  matches repo_char seg = true ->
  path_parts parsed = [o; seg].
Proof.
  intros Hp H1 H2 Ho Hr. unfold path_parts, strip_chars. rewrite Hp.
  rewrite strip_by_app by assumption.
  apply matches_forallb in Ho as [Ho Hone].
  apply matches_forallb in Hr as [Hr Hrne].
  destruct o as [|c o]; [congruence|].
  destruct (last_split seg Hrne) as (m & d & ->).
  assert (Hc : char_in "/" c = false).
  { cbn [forallb] in Ho. apply andb_true_iff in Ho as [Hc _].
    unfold char_in. cbn [existsb String.list_ascii_of_string].
    rewrite orb_false_r. apply (owner_char_not c "/"); [reflexivity|exact Hc]. }
  assert (Hd : char_in "/" d = false).
  { rewrite forallb_app in Hr. apply andb_true_iff in Hr as [_ Hd].
    cbn [forallb] in Hd. rewrite andb_true_r in Hd.
    unfold char_in. cbn [existsb String.list_ascii_of_string].
    rewrite orb_false_r. destruct (Ascii.eqb d "/") eqn:E; [|reflexivity].
    apply Ascii.eqb_eq in E. subst. discriminate. }
  replace ((c :: o) ++ String.list_ascii_of_string "/" ++ m ++ [d])
    with (c :: (o ++ String.list_ascii_of_string "/" ++ m) ++ [d])
    by (cbn [app]; rewrite <- !app_assoc; reflexivity).
  rewrite strip_by_keep by assumption.
  replace (c :: (o ++ String.list_ascii_of_string "/" ++ m) ++ [d])
    with ((c :: o) ++ "/"%char :: (m ++ [d]))
    by (cbn [app]; rewrite <- !app_assoc; reflexivity).
  rewrite split_app_sep by (apply (class_no_slash owner_char); [reflexivity|exact Ho]).
  rewrite split_no_sep by (apply (class_no_slash repo_char); [reflexivity|exact Hr]).
  reflexivity.
Qed.

End LocatorMore.
Import LocatorMore.

(** X1: a locator that is not empty, has at most 500 characters
    and is parsed into the scheme [https], one of the two GitHub hosts and
    a path that holds, between any slashes, an owner that fits the owner
    pattern and a repo that fits the repo pattern and has no [.git]
    inside, with or without a [.git] suffix, is validated with an empty
    reason, and [extract_repo_info] gives back that owner, that repo and
    their join as full name. *)
Theorem canonical_locator_round_trip :
  forall (urlparse : str -> res ParseResult) (url : str)
         (parsed : ParseResult) (o r seg sl1 sl2 : str),
    url <> [] ->
    length url <= 500 ->
    urlparse url = Ok parsed ->
    scheme parsed = ("https" : str) ->
    In (netloc parsed) github_hosts ->
    path parsed = sl1 ++ (o ++ "/" ++ seg) ++ sl2 ->
    forallb (char_in "/") sl1 = true ->
    forallb (char_in "/") sl2 = true ->
    matches owner_char o = true ->
    matches repo_char r = true ->
    contains ".git" r = false ->
    seg = r \/ seg = r ++ ".git" ->
    validate_github_url urlparse url = (true, [])
    /\ extract_repo_info urlparse url
       = Ok {| owner := o; repo := r; full_name := o ++ "/" ++ r |}.
Proof.
  intros urlparse url parsed o r seg sl1 sl2
    Hne Hlen Hp Hs Hn Hpath H1 H2 Ho Hr Hg Hseg.
  assert (Hrep : replace seg ".git" "" = r).
  { destruct Hseg as [->| ->];
      [apply replace_absent | apply replace_git_suffix_only]; exact Hg. }
  assert (Hsegm : matches repo_char seg = true).
  { destruct Hseg as [->| ->]; [exact Hr|].
    apply matches_forallb in Hr as [Hr Hrne].
    unfold matches. destruct (r ++ ".git") eqn:E.
    - apply app_eq_nil in E as [E _]. congruence.
    - rewrite <- E, forallb_app, Hr. reflexivity. }
  pose proof (path_parts_two parsed sl1 o seg sl2 Hpath H1 H2 Ho Hsegm) as Hparts.
  split.
  - unfold validate_github_url.
    destruct url as [|c0 url0] eqn:Eurl; [congruence|]. rewrite <- Eurl in *.
    replace (500 <? length url) with false
      by (symmetry; apply Nat.ltb_ge; exact Hlen).
    rewrite Hp, Hs, Hparts, Hrep. rewrite str_eqb_refl. cbn [negb].
    replace (existsb (str_eqb (netloc parsed)) _) with true.
    + cbn [negb]. cbv zeta.
      rewrite (matches_re_match_plus _ _ eq_refl Ho).
      rewrite (matches_re_match_plus _ _ eq_refl Hr). reflexivity.
    + symmetry. apply existsb_exists. exists (netloc parsed).
      split; [exact Hn | apply str_eqb_refl].
  - unfold extract_repo_info. rewrite Hp. cbn [bind]. rewrite Hparts, Hrep.
    reflexivity.
Qed.

Lemma canonical_locator_round_trip_witness :
  validate_github_url UrlLib.urlparse trailing_slash_url = (true, [])
  /\ extract_repo_info UrlLib.urlparse trailing_slash_url
     = Ok {| owner := "owner"; repo := "repo";
             full_name := "owner" ++ "/" ++ "repo" |}.
Proof.
  apply (canonical_locator_round_trip UrlLib.urlparse trailing_slash_url
           {| scheme := "https"; netloc := "github.com";
              path := "/owner/repo.git/";
              params := []; query := []; fragment := [] |}
           "owner" "repo" "repo.git" "/" "/").
  - discriminate.
  - apply Nat.leb_le. reflexivity.
  - vm_compute. reflexivity.
  - reflexivity.
  - left. reflexivity.
  - reflexivity.
  - reflexivity.
  - reflexivity.
  - reflexivity.
  - reflexivity.
  - vm_compute. reflexivity.
  - right. reflexivity.
Defined.

(** X2: for a [urlparse] whose path holds no line feed, a
    validated locator is not empty, has at most 500 characters, has scheme
    [https] and a host among the two GitHub hosts, and its extraction
    succeeds with an owner and a repo that fit their patterns entirely and
    a full name that is their join. *)
Theorem validated_locator_decomposes :
  forall (urlparse : str -> res ParseResult) (url : str),
    (forall parsed, urlparse url = Ok parsed -> ~ In LF (path parsed)) ->
    fst (validate_github_url urlparse url) = true ->
    url <> [] /\ length url <= 500
    /\ exists parsed info,
         urlparse url = Ok parsed
         /\ scheme parsed = ("https" : str)
         /\ In (netloc parsed) github_hosts
         /\ extract_repo_info urlparse url = Ok info
         /\ matches owner_char (owner info) = true
         /\ matches repo_char (repo info) = true
         /\ full_name info = owner info ++ "/" ++ repo info.
Proof.
  intros urlparse url HLF. unfold validate_github_url, extract_repo_info.
  destruct url as [|c0 url0] eqn:Eurl; [discriminate|]. rewrite <- Eurl in *.
  destruct (500 <? length url) eqn:Elen; [discriminate|].
  destruct (urlparse url) as [parsed|] eqn:Hp; [|discriminate].
  specialize (HLF _ eq_refl).
  destruct (str_eqb (scheme parsed) "https") eqn:Es; [|discriminate].
  cbn [negb].
  destruct (existsb (str_eqb (netloc parsed)) _) eqn:Eh; [|discriminate].
  cbn [negb bind].
  destruct (path_parts parsed) as [|p0 [|p1 rest]] eqn:Hparts;
    try discriminate.
  cbv zeta.
  destruct (re_match_plus owner_char p0) eqn:Eo; [|discriminate]. cbn [negb].
  destruct (re_match_plus repo_char (replace p1 ".git" "")) eqn:Er;
    [|discriminate].
  intros _. split; [congruence|]. split; [apply Nat.ltb_ge; exact Elen|].
  eexists parsed, _. split; [reflexivity|].
  split; [apply str_eqb_eq; exact Es|]. split.
  { apply existsb_exists in Eh as (h & Hin & Heq).
    apply str_eqb_eq in Heq. subst h. exact Hin. }
  split; [reflexivity|]. cbn [owner repo full_name]. split; [|split].
  - apply re_match_plus_matches; [exact Eo|].
    intros Hin. apply HLF. eapply path_parts_incl; [|exact Hin].
    rewrite Hparts. left; reflexivity.
  - apply re_match_plus_matches; [exact Er|].
    intros Hin. apply incl_replace_from in Hin.
    apply HLF. eapply path_parts_incl; [|exact Hin].
    rewrite Hparts. right; left; reflexivity.
  - reflexivity.
Qed.

Lemma validated_locator_decomposes_witness :
  plain_url <> [] /\ length plain_url <= 500
  /\ exists parsed info,
       UrlLib.urlparse plain_url = Ok parsed
       /\ scheme parsed = ("https" : str)
       /\ In (netloc parsed) github_hosts
       /\ extract_repo_info UrlLib.urlparse plain_url = Ok info
       /\ matches owner_char (owner info) = true
       /\ matches repo_char (repo info) = true
       /\ full_name info = owner info ++ "/" ++ repo info.
Proof.
  apply (validated_locator_decomposes UrlLib.urlparse plain_url).
  - intros parsed. apply urlparse_path_no_LF.
  - vm_compute. reflexivity.
Defined.

(** X3: [validate_github_url] returns an empty reason exactly
    when it accepts the locator: every refusal carries a message. *)
Theorem validation_reason_empty_iff_valid :
  forall (urlparse : str -> res ParseResult) (url : str),
    fst (validate_github_url urlparse url) = true
    <-> snd (validate_github_url urlparse url) = [].
Proof.
  intros urlparse url. unfold validate_github_url.
  destruct url; [split; discriminate|].
  destruct (500 <? _); [split; discriminate|].
  destruct (urlparse _) as [parsed|]; [|split; discriminate].
  destruct (negb (str_eqb _ _)); [split; discriminate|].
  destruct (negb (existsb _ _)); [split; discriminate|].
  destruct (path_parts parsed) as [|p0 [|p1 rest]]; try (split; discriminate).
  cbv zeta.
  destruct (negb (re_match_plus owner_char p0)); [split; discriminate|].
  destruct (negb (re_match_plus repo_char _)); [split; discriminate|].
  split; reflexivity.
Qed.

(* ----------------------------------------------------------------- *)
(** ** The clone: what it touches and what it leaves *)

Module CloneFacts.

Section Clone.

Variable BASE_DIR : Path.
Variable urlparse : str -> res ParseResult.
Variable env : clone_env.

(** What the [try] block around the clone leaves behind. *)
Lemma clone_step_spec (url : str) (cp : Path) (evs : list fs_event) :
  exists post,
    snd (clone_step env url cp evs) = evs ++ CloneFrom url cp :: post
    /\ Forall (fun e => e = Rmtree cp) post
    /\ (forall p, fst (clone_step env url cp evs) = Ok (Some p) ->
          p = cp /\ post = []
          /\ clone_from env url cp = Ok tt
          /\ exists size, total_size env cp = Ok size /\ (size <= max_size)%N)
    /\ (returns_path (fst (clone_step env url cp evs)) = false ->
          post <> [] \/ exists_after_failure env cp = false).
Proof.
  unfold clone_step.
  assert (Hfail : forall evs',
    exists post,
      snd (clone_failed env cp (evs ++ CloneFrom url cp :: evs'))
        = evs ++ CloneFrom url cp :: evs' ++ post
      /\ Forall (fun e => e = Rmtree cp) post
      /\ returns_path (fst (clone_failed env cp (evs ++ CloneFrom url cp :: evs'))) = false
      /\ (post <> [] \/ exists_after_failure env cp = false)).
  { intros evs'. unfold clone_failed.
    destruct (exists_after_failure env cp) eqn:Ex.
    - exists [Rmtree cp].
      destruct (rmtree_failed env cp); cbn [fst snd returns_path];
        rewrite <- !app_assoc; cbn [app];
        (split; [reflexivity|]); (split; [repeat constructor|]);
        (split; [reflexivity|]); left; discriminate.
    - exists []. cbn [fst snd returns_path]. rewrite app_nil_r.
      split; [reflexivity|]. split; [constructor|]. split; [reflexivity|].
      right; reflexivity. }
  replace (evs ++ [CloneFrom url cp]) with (evs ++ CloneFrom url cp :: [])
    by reflexivity.
  destruct (clone_from env url cp) as [[]|e] eqn:Ecl.
  - destruct (total_size env cp) as [size|] eqn:Esz.
    + destruct (max_size <? size)%N eqn:Ebig.
      * destruct (rmtree_oversized env cp) as [[]|].
        -- exists [Rmtree cp]. cbn [fst snd]. rewrite <- app_assoc. cbn [app].
           split; [reflexivity|]. split; [repeat constructor|].
           split; [discriminate|]. intros _. left; discriminate.
        -- replace ((evs ++ [CloneFrom url cp]) ++ [Rmtree cp])
             with (evs ++ CloneFrom url cp :: [Rmtree cp])
             by (rewrite <- app_assoc; reflexivity).
           destruct (Hfail [Rmtree cp]) as (post & H1 & H2 & H3 & H4).
           exists (Rmtree cp :: post). rewrite H1. cbn [app].
           split; [reflexivity|]. split; [constructor; [reflexivity|exact H2]|].
           split.
           ++ intros p Hp. rewrite Hp in H3. discriminate.
           ++ intros _. left; discriminate.
      * exists []. cbn [fst snd]. split; [reflexivity|]. split; [constructor|].
        split.
        -- intros p Hp. injection Hp as <-. repeat split; try reflexivity.
           exists size. split; [reflexivity|]. apply N.ltb_ge. exact Ebig.
        -- discriminate.
    + destruct (Hfail []) as (post & H1 & H2 & H3 & H4).
      exists post. cbn [app] in H1. rewrite H1.
      split; [reflexivity|]. split; [exact H2|]. split.
      * intros p Hp. rewrite Hp in H3. discriminate.
      * intros _. exact H4.
  - destruct (Hfail []) as (post & H1 & H2 & H3 & H4).
    exists post. cbn [app] in H1. rewrite H1.
    split; [reflexivity|]. split; [exact H2|]. split.
    + intros p Hp. rewrite Hp in H3. discriminate.
    + intros _. exact H4.
Qed.

(** The shape of every call that gets past the containment test. *)
Lemma clone_repository_cases (url : str) :
  clone_repository BASE_DIR urlparse env url = (Ok None, [])
  \/ exists info cp root,
       fst (validate_github_url urlparse url) = true
       /\ extract_repo_info urlparse url = Ok info
       /\ resolve env (div (TEMP_DIR BASE_DIR)
                           (re_sub_unsafe (full_name info))) = Ok cp
       /\ resolve env (TEMP_DIR BASE_DIR) = Ok root
       /\ startswith (path_str cp) (path_str root) = true
       /\ (clone_repository BASE_DIR urlparse env url
             = (Ok None, [Rmtree cp])
           \/ exists pre,
                (pre = [] \/ pre = [Rmtree cp])
                /\ clone_repository BASE_DIR urlparse env url
                   = clone_step env url cp pre).
Proof.
  unfold clone_repository.
  destruct (validate_github_url urlparse url) as [is_valid error] eqn:Ev.
  destruct is_valid; cbn [negb]; [|left; reflexivity].
  destruct (validate_then_extract urlparse url) as [info Hinfo];
    [rewrite Ev; reflexivity|].
  rewrite Hinfo.
  destruct (resolve env (div _ _)) as [cp|] eqn:Ec; [|left; reflexivity].
  destruct (resolve env (TEMP_DIR BASE_DIR)) as [root|] eqn:Er;
    [|left; reflexivity].
  destruct (startswith (path_str cp) (path_str root)) eqn:Es;
    cbn [negb]; [|left; reflexivity].
  right. exists info, cp, root. repeat (split; [auto; fail|]).
  destruct (exists_before env cp).
  - destruct (rmtree_existing env cp).
    + right. exists [Rmtree cp]. split; [right|]; reflexivity.
    + left. reflexivity.
  - right. exists []. split; [left|]; reflexivity.
Qed.

End Clone.

End CloneFacts.
Import CloneFacts.

(** X4: every mutation [clone_repository] requests (a removal
    or the clone) is on the resolved clone path, the resolution of
    [TEMP_DIR / safe_name], whose string starts with the string of the
    resolved [TEMP_DIR]. *)
Theorem clone_touches_only_clone_path :
  forall (BASE_DIR : Path) (urlparse : str -> res ParseResult)
         (env : clone_env) (url : str) (e : fs_event),
    In e (snd (clone_repository BASE_DIR urlparse env url)) ->
    exists info root,
      extract_repo_info urlparse url = Ok info
      /\ resolve env (div (TEMP_DIR BASE_DIR)
                          (re_sub_unsafe (full_name info)))
         = Ok (event_path e)
      /\ resolve env (TEMP_DIR BASE_DIR) = Ok root
      /\ startswith (path_str (event_path e)) (path_str root) = true.
Proof.
  intros BASE_DIR urlparse env url e Hin.
  destruct (clone_repository_cases BASE_DIR urlparse env url)
    as [H|(info & cp & root & Hv & Hi & Hc & Hr & Hs & H)].
  - rewrite H in Hin. destruct Hin.
  - assert (He : event_path e = cp).
    { destruct H as [H|(pre & Hpre & H)]; rewrite H in Hin.
      - destruct Hin as [<-|[]]. reflexivity.
      - destruct (clone_step_spec env url cp pre) as (post & E & Hpost & _).
        rewrite E in Hin. apply in_app_or in Hin as [Hin|[<-|Hin]].
        + destruct Hpre as [->| ->]; [destruct Hin|].
          destruct Hin as [<-|[]]. reflexivity.
        + reflexivity.
        + rewrite Forall_forall in Hpost. rewrite (Hpost _ Hin). reflexivity. }
    exists info, root. rewrite He. auto.
Qed.

Lemma clone_touches_only_clone_path_witness :
  exists info root,
    extract_repo_info UrlLib.urlparse plain_url = Ok info
    /\ resolve quiet_env (div (TEMP_DIR base_dir)
                              (re_sub_unsafe (full_name info)))
       = Ok (event_path (CloneFrom plain_url clone_dir))
    /\ resolve quiet_env (TEMP_DIR base_dir) = Ok root
    /\ startswith (path_str (event_path (CloneFrom plain_url clone_dir)))
         (path_str root) = true.
Proof.
  apply (clone_touches_only_clone_path base_dir UrlLib.urlparse quiet_env
           plain_url (CloneFrom plain_url clone_dir)).
  vm_compute. left. reflexivity.
Defined.

(** X5: when [clone_repository] returns a path, the locator
    was validated, git cloned into that path, the total size measured
    there is at most 500 MB, and the only mutations requested are the
    clone and, before it, the removal of an earlier clone at that path. *)
Theorem returned_clone_within_limit :
  forall (BASE_DIR : Path) (urlparse : str -> res ParseResult)
         (env : clone_env) (url : str) (p : Path),
    fst (clone_repository BASE_DIR urlparse env url) = Ok (Some p) ->
    fst (validate_github_url urlparse url) = true
    /\ clone_from env url p = Ok tt
    /\ (exists size, total_size env p = Ok size
                     /\ (size <= 500 * 1024 * 1024)%N)
    /\ (snd (clone_repository BASE_DIR urlparse env url) = [CloneFrom url p]
        \/ snd (clone_repository BASE_DIR urlparse env url)
           = [Rmtree p; CloneFrom url p]).
Proof.
  intros BASE_DIR urlparse env url p Hp.
  destruct (clone_repository_cases BASE_DIR urlparse env url)
    as [H|(info & cp & root & Hv & Hi & Hc & Hr & Hs & H)].
  - rewrite H in Hp. discriminate.
  - destruct H as [H|(pre & Hpre & H)]; rewrite H in Hp |- *;
      [discriminate|].
    destruct (clone_step_spec env url cp pre) as (post & E & _ & Hret & _).
    destruct (Hret p Hp) as (-> & -> & Hcl & Hsz).
    split; [exact Hv|]. split; [exact Hcl|]. split; [exact Hsz|].
    rewrite E. destruct Hpre as [->| ->]; [left|right]; reflexivity.
Qed.

Lemma returned_clone_within_limit_witness :
  fst (validate_github_url UrlLib.urlparse plain_url) = true
  /\ clone_from quiet_env plain_url clone_dir = Ok tt
  /\ (exists size, total_size quiet_env clone_dir = Ok size
                   /\ (size <= 500 * 1024 * 1024)%N)
  /\ (snd (clone_repository base_dir UrlLib.urlparse quiet_env plain_url)
      = [CloneFrom plain_url clone_dir]
      \/ snd (clone_repository base_dir UrlLib.urlparse quiet_env plain_url)
         = [Rmtree clone_dir; CloneFrom plain_url clone_dir]).
Proof.
  apply (returned_clone_within_limit base_dir UrlLib.urlparse quiet_env
           plain_url clone_dir).
  vm_compute. reflexivity.
Defined.

(** X6: when the clone was requested and no path is returned,
    every later request is a removal of the clone path, and one is made
    unless the path does not exist after the failure. *)
Theorem failed_clone_is_removed :
  forall (BASE_DIR : Path) (urlparse : str -> res ParseResult)
         (env : clone_env) (url : str) (cp : Path),
    In (CloneFrom url cp)
       (snd (clone_repository BASE_DIR urlparse env url)) ->
    returns_path (fst (clone_repository BASE_DIR urlparse env url)) = false ->
    exists pre post,
      snd (clone_repository BASE_DIR urlparse env url)
        = pre ++ CloneFrom url cp :: post
      /\ Forall (fun e => e = Rmtree cp) post
      /\ (post <> [] \/ exists_after_failure env cp = false).
Proof.
  intros BASE_DIR urlparse env url cp0 Hin Hret.
  destruct (clone_repository_cases BASE_DIR urlparse env url)
    as [H|(info & cp & root & Hv & Hi & Hc & Hr & Hs & H)].
  - rewrite H in Hin. destruct Hin.
  - destruct H as [H|(pre & Hpre & H)]; rewrite H in Hin, Hret |- *.
    + destruct Hin as [Hin|[]]. discriminate.
    + destruct (clone_step_spec env url cp pre) as (post & E & Hpost & _ & Hf).
      assert (cp0 = cp) as ->.
      { rewrite E in Hin. apply in_app_or in Hin as [Hin|[Hin|Hin]].
        - destruct Hpre as [->| ->]; [destruct Hin|].
          destruct Hin as [Hin|[]]. discriminate.
        - congruence.
        - rewrite Forall_forall in Hpost. specialize (Hpost _ Hin).
          discriminate. }
      exists pre, post. split; [exact E|]. split; [exact Hpost|].
      apply Hf. exact Hret.
Qed.

Lemma failed_clone_is_removed_witness :
  exists pre post,
    snd (clone_repository base_dir UrlLib.urlparse failing_git_env plain_url)
      = pre ++ CloneFrom plain_url clone_dir :: post
    /\ Forall (fun e => e = Rmtree clone_dir) post
    /\ (post <> [] \/ exists_after_failure failing_git_env clone_dir = false).
Proof.
  apply (failed_clone_is_removed base_dir UrlLib.urlparse failing_git_env
           plain_url clone_dir).
  - vm_compute. left. reflexivity.
  - vm_compute. reflexivity.
Defined.

(* ----------------------------------------------------------------- *)
(** ** The analysis: README, file structure, code samples *)

Module AnalysisFacts.

Lemma extract_readme_from_first (t : repo_tree) (patterns : list str) :
  (Forall (fun q => readable_readme t q = None) patterns
   /\ extract_readme_from t patterns = [])
  \/ exists before pattern after,
       patterns = before ++ pattern :: after
       /\ Forall (fun q => readable_readme t q = None) before
       /\ readable_readme t pattern = Some (extract_readme_from t patterns).
Proof.
  induction patterns as [|p rest IH].
  - left. split; [constructor | reflexivity].
  - cbn [extract_readme_from].
    assert (Hskip : readable_readme t p = None ->
      (Forall (fun q => readable_readme t q = None) (p :: rest)
       /\ extract_readme_from t rest = [])
      \/ exists before pattern after,
           p :: rest = before ++ pattern :: after
           /\ Forall (fun q => readable_readme t q = None) before
           /\ readable_readme t pattern = Some (extract_readme_from t rest)).
    { intros Hp. destruct IH as [[H1 H2]|(b & q & a & E & H1 & H2)].
      - left. split; [constructor; assumption | exact H2].
      - right. exists (p :: b), q, a. split; [rewrite E; reflexivity|].
        split; [constructor; assumption | exact H2]. }
    unfold readable_readme in Hskip |- * at 3.
    destruct (readme_file t p) as [f|] eqn:Ef; [|apply Hskip; reflexivity].
    destruct (st_size f) as [size|] eqn:Es; [|apply Hskip; reflexivity].
    unfold readme_max_size.
    destruct (1024 * 1024 <? size)%N eqn:Eb.
    + apply Hskip. destruct (text f); [|reflexivity].
      replace (size <=? 1024 * 1024)%N with false; [reflexivity|].
      symmetry. apply N.leb_gt. apply N.ltb_lt. exact Eb.
    + destruct (text f) as [s|] eqn:Et; [|apply Hskip; reflexivity].
      right. exists [], p, rest. split; [reflexivity|]. split; [constructor|].
      unfold readable_readme. rewrite Ef, Es, Et.
      replace (size <=? 1024 * 1024)%N with true; [reflexivity|].
      symmetry. apply N.leb_le. apply N.ltb_ge. exact Eb.
Qed.

Lemma structure_set_keys (d : list (str * str)) (k v : str) :
  map fst (structure_set d k v)
  = if existsb (fun k' => str_eqb k' k) (map fst d)
    then map fst d else map fst d ++ [k].
Proof.
  induction d as [|[k' v'] d IH]; cbn [structure_set map fst existsb].
  - reflexivity.
  - destruct (str_eqb k' k) eqn:E; cbn [orb map fst].
    + reflexivity.
    + rewrite IH. destruct (existsb _ (map fst d)); reflexivity.
Qed.

Lemma structure_set_In_key (d : list (str * str)) (k v : str) :
  In k (map fst (structure_set d k v)).
Proof.
  rewrite structure_set_keys.
  destruct (existsb _ (map fst d)) eqn:E.
  - apply existsb_exists in E as (k' & Hin & Heq).
    apply str_eqb_eq in Heq. subst. exact Hin.
  - apply in_or_app. right; left; reflexivity.
Qed.

Lemma structure_set_keeps_keys (d : list (str * str)) (k v k0 : str) :
  In k0 (map fst d) -> In k0 (map fst (structure_set d k v)).
Proof.
  rewrite structure_set_keys. destruct (existsb _ (map fst d)); [auto|].
  intros H. apply in_or_app. left; exact H.
Qed.

Lemma structure_set_NoDup (d : list (str * str)) (k v : str) :
  NoDup (map fst d) -> NoDup (map fst (structure_set d k v)).
Proof.
  intros H. rewrite structure_set_keys.
  destruct (existsb _ (map fst d)) eqn:E; [exact H|].
  apply NoDup_app; [exact H | repeat constructor; intros [] |].
  intros x Hx [Hk|[]]. subst x.
  assert (existsb (fun k' => str_eqb k' k) (map fst d) = true).
  { apply existsb_exists. exists k. split; [exact Hx | apply str_eqb_refl]. }
  congruence.
Qed.

Lemma structure_set_Forall (P : str * str -> Prop) (d : list (str * str))
    (k v : str) :
  (forall k', k' = k -> P (k', v)) ->
  Forall P d -> Forall P (structure_set d k v).
Proof.
  intros Hnew. induction d as [|[k' v'] d IH]; intros H;
    cbn [structure_set].
  - constructor; [apply Hnew; reflexivity | constructor].
  - inversion H as [|? ? H1 H2]; subst.
    destruct (str_eqb k' k) eqn:E.
    + constructor; [|exact H2]. apply Hnew. apply str_eqb_eq. exact E.
    + constructor; [exact H1 | apply IH; exact H2].
Qed.

End AnalysisFacts.
Import AnalysisFacts.

(** X7: [_extract_readme] returns the text of the first of
    [README.md], [README.rst], [README.txt], [README] that exists, has a
    known size of at most 1 MB and can be read; it returns the empty text
    when there is none. *)
Theorem readme_is_first_readable_variant :
  forall t : repo_tree,
    (Forall (fun q => readable_readme t q = None) readme_patterns
     /\ _extract_readme t = [])
    \/ exists before pattern after,
         readme_patterns = before ++ pattern :: after
         /\ Forall (fun q => readable_readme t q = None) before
         /\ readable_readme t pattern = Some (_extract_readme t).
Proof. intros t. apply extract_readme_from_first. Qed.

(** X8: the structure [_get_file_structure] returns has no
    repeated name; each name is that of an entry of the top directory and
    does not start with a dot, and its kind is not empty: [directory],
    the suffix of the name, or [file]; every visible entry is listed. *)
Theorem file_structure_lists_visible_entries :
  forall t : repo_tree,
    NoDup (map fst (_get_file_structure t))
    /\ Forall (fun kv =>
                 startswith (fst kv) "." = false
                 /\ snd kv <> []
                 /\ exists item, In item (iterdir t)
                      /\ entry_name item = fst kv
                      /\ snd kv = entry_kind item)
              (_get_file_structure t)
    /\ (forall item, In item (iterdir t) -> visible item = true ->
          In (entry_name item) (map fst (_get_file_structure t))).
Proof.
  intros t. unfold _get_file_structure.
  set (P := fun kv : str * str =>
              startswith (fst kv) "." = false
              /\ snd kv <> []
              /\ exists item, In item (iterdir t)
                   /\ entry_name item = fst kv
                   /\ snd kv = entry_kind item).
  assert (H : forall items structure,
    incl items (iterdir t) ->
    NoDup (map fst structure) -> Forall P structure ->
    NoDup (map fst (file_structure_from items structure))
    /\ Forall P (file_structure_from items structure)
    /\ (forall k, In k (map fst structure) ->
          In k (map fst (file_structure_from items structure)))
    /\ (forall item, In item items -> visible item = true ->
          In (entry_name item) (map fst (file_structure_from items structure)))).
  { induction items as [|item items IH]; intros structure Hin Hnd HP.
    - cbn [file_structure_from]. repeat split; auto. intros ? [].
    - assert (Hin' : incl items (iterdir t))
        by (intros x Hx; apply Hin; right; exact Hx).
      assert (Hitem : In item (iterdir t)) by (apply Hin; left; reflexivity).
      cbn [file_structure_from].
      destruct (startswith (entry_name item) ".") eqn:Ehid.
      + destruct (IH structure Hin' Hnd HP) as (H1 & H2 & H3 & H4).
        repeat split; auto.
        intros it [<-|Hit] Hv; [|apply H4; assumption].
        unfold visible in Hv. rewrite Ehid in Hv. discriminate.
      + set (kind := entry_kind item).
        assert (Hkind : (if is_dir item
                         then file_structure_from items
                                (structure_set structure (entry_name item) "directory")
                         else file_structure_from items
                                (structure_set structure (entry_name item)
                                   match suffix (entry_name item) with
                                   | [] => "file" : str
                                   | sfx => sfx
                                   end))
                        = file_structure_from items
                            (structure_set structure (entry_name item) kind)).
        { unfold kind, entry_kind. destruct (is_dir item); reflexivity. }
        rewrite Hkind.
        assert (HPnew : forall k', k' = entry_name item -> P (k', kind)).
        { intros k' ->. unfold P. cbn [fst snd]. split; [exact Ehid|]. split.
          - unfold kind, entry_kind. destruct (is_dir item); [discriminate|].
            destruct (suffix (entry_name item)); discriminate.
          - exists item. auto. }
        destruct (IH (structure_set structure (entry_name item) kind) Hin'
                    (structure_set_NoDup _ _ _ Hnd)
                    (structure_set_Forall P _ _ _ HPnew HP))
          as (H1 & H2 & H3 & H4).
        repeat split; auto.
        * intros k Hk. apply H3. apply structure_set_keeps_keys. exact Hk.
        * intros it [<-|Hit] Hv; [|apply H4; assumption].
          apply H3. apply structure_set_In_key. }
  destruct (H (iterdir t) [] (incl_refl _) (NoDup_nil _) (Forall_nil _))
    as (H1 & H2 & _ & H4).
  repeat split; assumption.
Qed.

Module SampleMore.

Section Scan.

Variable t : repo_tree.
Variable max_samples : nat.




End Scan.

End SampleMore.
Import SampleMore.


(* ----------------------------------------------------------------- *)
(** ** The answer of the model: fence markers *)

Module FenceFacts.

Lemma contains_app_r_false (sub s t : str) :
  contains sub (s ++ t) = false -> contains sub t = false.
Proof. apply contains_app_l_false. Qed.

Lemma rfind_from_absent (i : Z) (sub s : str) :
  sub <> [] -> contains sub s = false -> rfind_from i sub s = (-1)%Z.
Proof.
  intros Hne. revert i. induction s as [|c s IH]; intros i H.
  - destruct sub; [congruence | reflexivity].
  - apply contains_cons_false in H as [H1 H2].
    cbn [rfind_from]. rewrite (IH _ H2), H1. reflexivity.
Qed.

Lemma rfind_from_skip (i : Z) (sub x s : str) :
  (0 <= rfind_from (i + Z.of_nat (length x)) sub s)%Z ->
  rfind_from i sub (x ++ s) = rfind_from (i + Z.of_nat (length x)) sub s.
Proof.
  revert i. induction x as [|c x IH]; intros i H.
  - cbn [length app] in *. rewrite Z.add_0_r in *. reflexivity.
  - cbn [app rfind_from].
    replace (i + Z.of_nat (length (c :: x)))%Z
      with (i + 1 + Z.of_nat (length x))%Z in * by (cbn [length]; lia).
    rewrite (IH _ H).
    destruct (0 <=? _)%Z eqn:E; [reflexivity|].
    apply Z.leb_gt in E. lia.
Qed.

(** The last occurrence, when nothing that follows it starts another. *)
Lemma rfind_from_last (i : Z) (sub x : str) (c : ascii) (t : str) :
  (0 <= i)%Z ->
  startswith (c :: t) sub = true -> sub <> [] ->
  contains sub t = false ->
  rfind_from i sub (x ++ c :: t) = (i + Z.of_nat (length x))%Z.
Proof.
  intros Hi Hs Hne Hc.
  assert (E : rfind_from (i + Z.of_nat (length x)) sub (c :: t)
              = (i + Z.of_nat (length x))%Z).
  { cbn [rfind_from]. rewrite (rfind_from_absent _ _ _ Hne Hc), Hs.
    reflexivity. }
  rewrite rfind_from_skip; rewrite E; [reflexivity | lia].
Qed.

Lemma find_from_first (i : Z) (sub pre s : str) :
  (forall k, k < length pre ->
     startswith (skipn k (pre ++ s)) sub = false) ->
  startswith s sub = true ->
  find_from i sub (pre ++ s) = (i + Z.of_nat (length pre))%Z.
Proof.
  revert i. induction pre as [|c pre IH]; intros i H Hs.
  - cbn [app length]. rewrite find_from_startswith by exact Hs. lia.
  - pose proof (H 0 ltac:(cbn [length]; lia)) as H0.
    cbn [skipn app] in H0. cbn [app find_from]. rewrite H0.
    rewrite IH; [cbn [length]; lia | | exact Hs].
    intros k Hk. apply (H (S k)). cbn [length]. lia.
Qed.

(** No run of three [ch] starts inside [pre] when [pre] followed by two
    [ch] holds none. *)
Lemma triple_not_early (ch : ascii) (pre rest : str) (k : nat) :
  contains [ch; ch; ch] (pre ++ [ch; ch]) = false ->
  k < length pre ->
  startswith (skipn k (pre ++ [ch; ch; ch] ++ rest)) [ch; ch; ch] = false.
Proof.
  revert k. induction pre as [|c pre IH]; intros k H Hk;
    [cbn [length] in Hk; lia|].
  change ((c :: pre) ++ [ch; ch]) with (c :: (pre ++ [ch; ch])) in H.
  apply contains_cons_false in H as [H1 H2].
  destruct k as [|k].
  - cbn [skipn]. clear IH H2 Hk.
    destruct pre as [|x [|y p]];
      cbn [startswith app] in H1 |- *;
      rewrite ?Ascii.eqb_refl in *;
      repeat match goal with
             | |- context [Ascii.eqb ?a ?b] =>
                 destruct (Ascii.eqb a b); cbn [andb] in H1 |- *
             end; try congruence.
    destruct p; discriminate H1.
  - cbn [app skipn]. apply IH; [exact H2 | cbn [length] in Hk; lia].
Qed.

Lemma fence_not_early (pre rest : str) (k : nat) :
  contains "```" (pre ++ "``") = false ->
  k < length pre ->
  startswith (skipn k (pre ++ "```" ++ rest)) "```" = false.
Proof. apply (triple_not_early "`"). Qed.

Lemma fence_json_not_early (pre rest : str) (k : nat) :
  contains "```" (pre ++ "``") = false ->
  k < length pre ->
  startswith (skipn k (pre ++ "```json" ++ rest)) "```json" = false.
Proof.
  intros H Hk.
  destruct (startswith _ "```json") eqn:E; [|reflexivity].
  change ("```json" : str) with (("```" : str) ++ "json") in E.
  apply startswith_prefix in E.
  pose proof (fence_not_early pre ("json" ++ rest) k H Hk) as F.
  assert (C : true = false) by (rewrite <- E; exact F).
  discriminate C.
Qed.

Lemma find_fence (pre rest : str) :
  contains "```" (pre ++ "``") = false ->
  find (pre ++ "```" ++ rest) "```" = Z.of_nat (length pre).
Proof.
  intros H. unfold find. rewrite find_from_first.
  - lia.
  - intros k Hk. apply fence_not_early; assumption.
  - apply startswith_app.
Qed.

Lemma find_fence_json (pre rest : str) :
  contains "```" (pre ++ "``") = false ->
  find (pre ++ "```json" ++ rest) "```json" = Z.of_nat (length pre).
Proof.
  intros H. unfold find. rewrite find_from_first.
  - lia.
  - intros k Hk. apply fence_json_not_early; assumption.
  - apply startswith_app.
Qed.

Lemma rfind_fence (x post : str) :
  contains "```" ("``" ++ post) = false ->
  rfind (x ++ "```" ++ post) "```" = Z.of_nat (length x).
Proof.
  intros H. unfold rfind.
  change (String.list_ascii_of_string "```" ++ post)
    with ("`"%char :: (String.list_ascii_of_string "``" ++ post)).
  rewrite rfind_from_last; [lia | lia | | discriminate | exact H].
  change ("`"%char :: (String.list_ascii_of_string "``" ++ post))
    with (String.list_ascii_of_string "```" ++ post).
  apply startswith_app.
Qed.

Lemma slice_empty (s : str) (a b : Z) :
  (0 <= b)%Z -> (b <= a)%Z -> slice s a b = [].
Proof.
  intros Hb Hab. unfold slice, slice_bound. cbv zeta.
  replace (a <? 0)%Z with false by (symmetry; apply Z.ltb_ge; lia).
  replace (b <? 0)%Z with false by (symmetry; apply Z.ltb_ge; lia).
  replace (Z.to_nat _) with 0 by lia. reflexivity.
Qed.

Lemma contains_app_mid (sub a b : str) :
  contains sub (a ++ sub ++ b) = true.
Proof. apply contains_app_l. apply contains_startswith, startswith_app. Qed.

Lemma contains_here (sub s : str) (k : nat) :
  startswith (skipn k s) sub = true -> contains sub s = true.
Proof.
  revert k. induction s as [|c s IH]; intros k H.
  - rewrite skipn_nil in H. apply contains_startswith. exact H.
  - destruct k as [|k]; [apply contains_startswith; exact H|].
    apply contains_cons. apply (IH k). exact H.
Qed.

Lemma find_from_lower (i : Z) (sub s : str) :
  contains sub s = true -> (i <= find_from i sub s)%Z.
Proof.
  revert i. induction s as [|c s IH]; intros i H.
  - cbn [contains] in H. rewrite orb_false_r in H.
    cbn [find_from]. rewrite H. lia.
  - cbn [contains] in H. cbn [find_from].
    destruct (startswith (c :: s) sub); [lia|].
    cbn [orb] in H. specialize (IH (i + 1)%Z H). lia.
Qed.

(** The first occurrence of a text is not after the first occurrence of a
    longer text that starts with it. *)
Lemma find_from_prefix_le (i : Z) (a b s : str) :
  contains (a ++ b) s = true ->
  (find_from i a s <= find_from i (a ++ b) s)%Z.
Proof.
  revert i. induction s as [|c s IH]; intros i H.
  - cbn [contains] in H. rewrite orb_false_r in H.
    cbn [find_from]. rewrite H, (startswith_prefix _ _ _ H). lia.
  - cbn [contains] in H. cbn [find_from].
    destruct (startswith (c :: s) (a ++ b)) eqn:E.
    + rewrite (startswith_prefix _ _ _ E). lia.
    + cbn [orb] in H. destruct (startswith (c :: s) a).
      * pose proof (find_from_lower (i + 1) _ _ H). lia.
      * apply IH. exact H.
Qed.

End FenceFacts.
Import FenceFacts.

(** X10: when the answer holds a json fenced block between a
    text before, which holds no fence marker and does not end in
    backquotes that would start one, and a text after, which holds none
    and starts none with the closing marker, the candidate is the trimmed
    content of the block, whatever that content is. *)
Theorem fenced_block_in_prose :
  forall (json_loads : str -> option json) (pre body post : str),
    contains "```" (pre ++ "``") = false ->
    contains "```" ("``" ++ post) = false ->
    json_text (pre ++ "```json" ++ body ++ "```" ++ post) = strip body
    /\ _parse_response json_loads (pre ++ "```json" ++ body ++ "```" ++ post)
       = parse_document json_loads (strip body).
Proof.
  intros json_loads pre body post Hpre Hpost.
  assert (Ht : json_text (pre ++ "```json" ++ body ++ "```" ++ post)
               = strip body).
  { unfold json_text.
    rewrite contains_app_mid.
    rewrite find_fence_json by exact Hpre.
    replace (pre ++ "```json" ++ body ++ "```" ++ post)
      with ((pre ++ "```json" ++ body) ++ "```" ++ post) at 2
      by (rewrite <- !app_assoc; reflexivity).
    rewrite rfind_fence by exact Hpost.
    replace (pre ++ "```json" ++ body ++ "```" ++ post)
      with ((pre ++ "```json") ++ body ++ ("```" ++ post))
      by (rewrite <- !app_assoc; reflexivity).
    replace (Z.of_nat (length pre) + 7)%Z
      with (Z.of_nat (length (pre ++ "```json")))
      by (rewrite length_app; cbn [length String.list_ascii_of_string]; lia).
    replace (length (pre ++ String.list_ascii_of_string "```json" ++ body))
      with (length (pre ++ "```json") + length body)
      by (rewrite !length_app; lia).
    rewrite slice_middle. reflexivity. }
  split; [exact Ht|].
  rewrite parse_response_document, Ht. reflexivity.
Qed.

Lemma fenced_block_in_prose_witness :
  json_text ("Here it is:" ++ "```json" ++ complete_text ++ "```" ++ " Done.")
  = strip complete_text
  /\ _parse_response Json.loads
       ("Here it is:" ++ "```json" ++ complete_text ++ "```" ++ " Done.")
     = parse_document Json.loads (strip complete_text).
Proof.
  apply (fenced_block_in_prose Json.loads "Here it is:" complete_text " Done.");
    vm_compute; reflexivity.
Defined.

(** X11: when the answer holds exactly one fence marker (an
    opening marker that is never closed), the candidate is the empty text
    and, [json.loads] refusing the empty text, [_parse_response] returns
    [None], whatever follows the marker. *)
Theorem unterminated_fence_gives_nothing :
  forall (json_loads : str -> option json) (pre rest : str),
    json_loads [] = None ->
    contains "```" (pre ++ "``") = false ->
    contains "```" ("``" ++ rest) = false ->
    json_text (pre ++ "```" ++ rest) = []
    /\ _parse_response json_loads (pre ++ "```" ++ rest) = Ok None.
Proof.
  intros json_loads pre rest Hempty Hpre Hrest.
  assert (Ht : json_text (pre ++ "```" ++ rest) = []).
  { unfold json_text.
    rewrite (contains_app_mid "```" pre rest).
    rewrite (rfind_fence pre rest Hrest).
    rewrite (find_fence pre rest Hpre).
    destruct (contains "```json" (pre ++ "```" ++ rest)) eqn:Ej.
    - pose proof (find_from_prefix_le 0 "```" "json" _ Ej) as Hle.
      fold (find (pre ++ "```" ++ rest) "```") in Hle.
      rewrite (find_fence pre rest Hpre) in Hle.
      change (String.list_ascii_of_string "```"
                ++ String.list_ascii_of_string "json")
        with (String.list_ascii_of_string "```json") in Hle.
      fold (find (pre ++ "```" ++ rest) "```json") in Hle.
      rewrite slice_empty by lia. reflexivity.
    - rewrite slice_empty by lia. reflexivity. }
  split; [exact Ht|].
  unfold _parse_response. cbv zeta. rewrite Ht, Hempty. reflexivity.
Qed.

Lemma unterminated_fence_gives_nothing_witness :
  json_text ("" ++ "```" ++ ("json" ++ complete_text)) = []
  /\ _parse_response Json.loads ("" ++ "```" ++ ("json" ++ complete_text))
     = Ok None.
Proof.
  apply (unterminated_fence_gives_nothing Json.loads "" ("json" ++ complete_text));
    vm_compute; reflexivity.
Defined.

(* ----------------------------------------------------------------- *)
(** ** The prompt and the run *)

Module PromptMore.

Lemma take_take (n : nat) (s : str) : take n (take n s) = take n s.
Proof. unfold take. rewrite firstn_firstn, Nat.min_id. reflexivity. Qed.

Lemma prompt_kwargs_shown (n u : str) (d : description_field) (a : analysis) :
  prompt_kwargs n u d (shown a) = prompt_kwargs n u d a.
Proof.
  assert (Hr : take 8000 (get_or (readme_content (shown a)) "README not found")
               = take 8000 (get_or (readme_content a) "README not found")).
  { unfold shown. cbn [readme_content].
    destruct (readme_content a) as [s|]; cbn [option_map get_or];
      [apply take_take | reflexivity]. }
  assert (Hf : file_structure_text (shown a) = file_structure_text a).
  { unfold file_structure_text, shown. cbn [file_structure].
    destruct (file_structure a) as [[|e l]|]; cbn [option_map];
      try reflexivity.
    change (firstn 20 (e :: l)) with (e :: firstn 19 l) at 1.
    cbv iota. change (e :: firstn 19 l) with (firstn 20 (e :: l)).
    rewrite firstn_firstn. reflexivity. }
  assert (Hc : code_samples_text (shown a) = code_samples_text a).
  { unfold code_samples_text, shown. cbn [code_samples].
    destruct (code_samples a) as [[|e l]|]; cbn [option_map];
      try reflexivity.
    change (firstn 3 (e :: l)) with (e :: firstn 2 l) at 1.
    cbv iota. change (e :: firstn 2 l) with (firstn 3 (e :: l)).
    rewrite firstn_firstn. reflexivity. }
  unfold prompt_kwargs. rewrite Hr, Hf, Hc. reflexivity.
Qed.

(** A field that is not among the keyword arguments: the [KeyError] of
    [format] is raised by [generate_skill]. *)
Example unknown_field_escapes :
  _prepare_prompt [Lit "Repository: "; Field "owner"] "owner/repo" plain_url
    DescMissing bare_analysis = Raise KeyError
  /\ generate_skill Json.loads (fun _ => Some complete_text)
       [Lit "Repository: "; Field "owner"] "owner/repo" plain_url
       DescMissing bare_analysis = Raise KeyError.
Proof. split; vm_compute; reflexivity. Qed.

End PromptMore.
Import PromptMore.

(** X12: for every template, [generate_skill] raises an exception
    exactly when the preparation of the prompt raises it, the prompt
    being prepared outside the [try]; and it returns a document exactly
    when the prompt was prepared, the API call gave a non-empty answer to
    it and the parsing of that answer returned the document. *)
Theorem generation_raises_only_from_prompt :
  forall (json_loads : str -> option json) (_call_ai_api : str -> option str)
         (t : template) (n u : str) (d : description_field) (a : analysis),
    (forall e,
       generate_skill json_loads _call_ai_api t n u d a = Raise e
       <-> _prepare_prompt t n u d a = Raise e)
    /\ (forall doc,
          generate_skill json_loads _call_ai_api t n u d a = Ok (Some doc)
          <-> exists prompt c response,
                _prepare_prompt t n u d a = Ok prompt
                /\ _call_ai_api prompt = Some (c :: response)
                /\ _parse_response json_loads (c :: response)
                   = Ok (Some doc)).
Proof.
  intros json_loads call t n u d a.
  unfold generate_skill.
  destruct (_prepare_prompt t n u d a) as [prompt|e0]; cbn [bind].
  - unfold try_except. split.
    + intros e. split; [|discriminate].
      destruct (call prompt) as [[|c r]|]; try discriminate.
      destruct (_parse_response json_loads (c :: r)); discriminate.
    + intros doc. split.
      * intros H. exists prompt.
        destruct (call prompt) as [[|c r]|]; try discriminate.
        exists c, r. split; [reflexivity|]. split; [reflexivity|].
        destruct (_parse_response json_loads (c :: r)) as [x|];
          [|discriminate].
        injection H as ->. reflexivity.
      * intros (p & c & r & Hp & Hc & Hr). injection Hp as <-.
        rewrite Hc, Hr. reflexivity.
  - split.
    + intros e. split; intros H; injection H as ->; reflexivity.
    + intros doc. split; [discriminate|].
      intros (p & c & r & Hp & _). discriminate.
Qed.

(** X13: the prompt, and so the generation, depends only on
    the first 8000 characters of the README, the first 20 entries of the
    file structure, the first 3 code samples, the type and the languages;
    [has_documentation] and [total_files] never reach it. *)
Theorem prompt_shows_truncated_evidence :
  forall (json_loads : str -> option json) (_call_ai_api : str -> option str)
         (t : template) (n u : str) (d : description_field) (a : analysis),
    _prepare_prompt t n u d a = _prepare_prompt t n u d (shown a)
    /\ generate_skill json_loads _call_ai_api t n u d a
       = generate_skill json_loads _call_ai_api t n u d (shown a).
Proof.
  intros json_loads call t n u d a.
  unfold generate_skill, _prepare_prompt.
  rewrite prompt_kwargs_shown. split; reflexivity.
Qed.

Module WorkflowMore.

Section Run.

Variable BASE_DIR : Path.
Variable urlparse : str -> res ParseResult.
Variable env : clone_env.
Variable c : collaborators.

(** The shapes of what follows a successful clone. *)
Lemma after_clone_shape (url : str) (info : repo_info)
    (md : description_field) (p : Path) :
  let trace := after_clone c url info md p in
  (exists e, trace = [StError (Unexpected e)])
  \/ trace = [StError GenerationFailed; Cleanup p]
  \/ (exists warnings last,
        trace = warnings ++ last
        /\ forallb is_warning warnings = true
        /\ length warnings <= 1
        /\ (last = [StError PackagingFailed; Cleanup p]
            \/ (exists e, last = [Cleanup p; StError (Unexpected e)])
            \/ last = [Cleanup p; Rerun])).
Proof.
  unfold after_clone.
  destruct (analyze c p) as [a|e]; [|left; eexists; reflexivity].
  destruct (generate c (full_name info) url md a) as [[d|]|e];
    [| right; left; reflexivity | left; eexists; reflexivity].
  destruct (build_skill c d) as [dir|e]; [|left; eexists; reflexivity].
  destruct (validate_skill c dir) as [[is_valid msg]|e];
    [|left; eexists; reflexivity].
  right; right.
  exists (if is_valid then [] else [StWarning msg]).
  eexists. split; [reflexivity|].
  split; [destruct is_valid; reflexivity|].
  split; [destruct is_valid; cbn [length]; lia|].
  destruct (package_skill c dir) as [[|] z]; [|left; reflexivity].
  right. destruct (record_result c d) as [[]|e];
    [right; reflexivity | left; eexists; reflexivity].
Qed.

(** The shapes of a run. *)
Lemma workflow_shape (url : str) :
  let trace := generate_skill_workflow BASE_DIR urlparse env c url in
  (exists m, trace = [StError m])
  \/ exists info md p,
       fst (validate_github_url urlparse url) = true
       /\ extract_repo_info urlparse url = Ok info
       /\ fetch_repo_metadata c (owner info) (repo info) = Some md
       /\ fst (clone_repository BASE_DIR urlparse env url) = Ok (Some p)
       /\ trace = Cloned p :: after_clone c url info md p.
Proof.
  unfold generate_skill_workflow.
  destruct (create_components c); [|left; eexists; reflexivity].
  destruct (validate_github_url urlparse url) as [is_valid error] eqn:Ev.
  destruct is_valid; cbn [negb]; [|left; eexists; reflexivity].
  destruct (extract_repo_info urlparse url) as [info|e] eqn:Ei;
    [|left; eexists; reflexivity].
  destruct (fetch_repo_metadata c (owner info) (repo info)) as [md|] eqn:Ef;
    [|left; eexists; reflexivity].
  destruct (fst (clone_repository BASE_DIR urlparse env url)) as [[p|]|e]
    eqn:Ec; try (left; eexists; reflexivity).
  right. exists info, md, p. repeat split; try reflexivity; assumption.
Qed.

Lemma cleanup_count_app (p : Path) (a b : list event) :
  cleanup_count p (a ++ b) = cleanup_count p a + cleanup_count p b.
Proof.
  induction a as [|e a IH]; [reflexivity|].
  destruct e; cbn [app cleanup_count]; rewrite IH; lia.
Qed.

Lemma cleanup_count_warnings (p : Path) (w : list event) :
  forallb is_warning w = true -> cleanup_count p w = 0.
Proof.
  induction w as [|e w IH]; [reflexivity|].
  destruct e; cbn [forallb is_warning andb]; try discriminate.
  intros H. cbn [cleanup_count]. apply IH. exact H.
Qed.

Lemma In_warnings (w : list event) (e : event) :
  forallb is_warning w = true -> In e w -> is_warning e = true.
Proof. intros H Hin. rewrite forallb_forall in H. apply H. exact Hin. Qed.

End Run.

End WorkflowMore.
Import WorkflowMore.

(** X14: in every run [cleanup] is called at most once on
    any path, and a path it is called on is the one [clone_repository]
    returned, the call coming after the clone. *)
Theorem cleanup_at_most_once_on_clone :
  forall (BASE_DIR : Path) (urlparse : str -> res ParseResult)
         (env : clone_env) (c : collaborators) (url : str) (p q : Path),
    cleanup_count p (generate_skill_workflow BASE_DIR urlparse env c url) <= 1
    /\ (In (Cleanup q) (generate_skill_workflow BASE_DIR urlparse env c url)
        -> fst (clone_repository BASE_DIR urlparse env url) = Ok (Some q)
           /\ exists pre post,
                generate_skill_workflow BASE_DIR urlparse env c url
                = Cloned q :: pre ++ Cleanup q :: post).
Proof.
  intros BASE_DIR urlparse env c url p q.
  destruct (workflow_shape BASE_DIR urlparse env c url)
    as [[m Hm]|(info & md & p0 & Hv & Hi & Hf & Hc & Ht)].
  - rewrite Hm. split; [cbn; lia|].
    intros [H|[]]. discriminate.
  - rewrite Ht.
    destruct (after_clone_shape c url info md p0)
      as [[e He]|[He|(w & last & He & Hw & _ & Hl)]]; rewrite He.
    + split; [cbn; lia|].
      intros [H|[H|[]]]; discriminate.
    + split; [cbn [cleanup_count]; destruct (path_eqb p0 p); lia|].
      intros [H|[H|[H|[]]]]; try discriminate. injection H as <-.
      split; [exact Hc|]. exists [StError GenerationFailed], [].
      reflexivity.
    + assert (Hcw : forall r, cleanup_count r w = 0)
        by (intros r; apply cleanup_count_warnings; exact Hw).
      split.
      * cbn [cleanup_count]. rewrite cleanup_count_app, Hcw.
        destruct Hl as [->|[[e ->]| ->]]; cbn [cleanup_count];
          destruct (path_eqb p0 p); lia.
      * intros [H|H]; [discriminate|].
        apply in_app_or in H as [H|H].
        { apply (In_warnings _ _ Hw) in H. discriminate. }
        assert (q = p0) as ->.
        { destruct Hl as [->|[[e ->]| ->]]; cbn [In] in H;
            repeat (destruct H as [H|H]; try discriminate;
                    try (injection H as <-; reflexivity)); destruct H. }
        split; [exact Hc|].
        destruct Hl as [->|[[e ->]| ->]].
        -- exists (w ++ [StError PackagingFailed]), [].
           rewrite <- !app_assoc. reflexivity.
        -- exists w, [StError (Unexpected e)]. reflexivity.
        -- exists w, [Rerun]. reflexivity.
Qed.

(** X15: a run that ends in the rerun of the page has cloned,
    given at most one warning, of the validation, cleaned the clone, in
    this order, and reported no error. *)
Theorem successful_run_shape :
  forall (BASE_DIR : Path) (urlparse : str -> res ParseResult)
         (env : clone_env) (c : collaborators) (url : str),
    In Rerun (generate_skill_workflow BASE_DIR urlparse env c url) ->
    exists p warnings,
      generate_skill_workflow BASE_DIR urlparse env c url
      = Cloned p :: warnings ++ [Cleanup p; Rerun]
      /\ forallb is_warning warnings = true
      /\ length warnings <= 1
      /\ fst (clone_repository BASE_DIR urlparse env url) = Ok (Some p)
      /\ existsb is_error
           (generate_skill_workflow BASE_DIR urlparse env c url) = false.
Proof.
  intros BASE_DIR urlparse env c url Hin.
  destruct (workflow_shape BASE_DIR urlparse env c url)
    as [[m Hm]|(info & md & p & Hv & Hi & Hf & Hc & Ht)].
  - rewrite Hm in Hin. destruct Hin as [H|[]]. discriminate.
  - rewrite Ht in Hin |- *. destruct Hin as [H|Hin]; [discriminate|].
    destruct (after_clone_shape c url info md p)
      as [[e He]|[He|(w & last & He & Hw & Hlen & Hl)]]; rewrite He in Hin |- *.
    + destruct Hin as [H|[]]. discriminate.
    + destruct Hin as [H|[H|[]]]; discriminate.
    + apply in_app_or in Hin as [Hin|Hin].
      { apply (In_warnings _ _ Hw) in Hin. discriminate. }
      destruct Hl as [->|[[e ->]| ->]].
      * destruct Hin as [H|[H|[]]]; discriminate.
      * destruct Hin as [H|[H|[]]]; discriminate.
      * exists p, w. split; [reflexivity|]. split; [exact Hw|].
        split; [exact Hlen|]. split; [exact Hc|].
        cbn [existsb is_error orb]. rewrite existsb_app.
        cbn [existsb is_error orb].
        rewrite orb_false_r.
        clear - Hw. induction w as [|x w IH]; [reflexivity|].
        cbn [forallb] in Hw. apply andb_true_iff in Hw as [H1 H2].
        cbn [existsb]. rewrite (IH H2). destruct x; try discriminate.
        reflexivity.
Qed.

Lemma successful_run_shape_witness :
  exists p warnings,
    generate_skill_workflow base_dir UrlLib.urlparse quiet_env
      working_collaborators plain_url
    = Cloned p :: warnings ++ [Cleanup p; Rerun]
    /\ forallb is_warning warnings = true
    /\ length warnings <= 1
    /\ fst (clone_repository base_dir UrlLib.urlparse quiet_env plain_url)
       = Ok (Some p)
    /\ existsb is_error
         (generate_skill_workflow base_dir UrlLib.urlparse quiet_env
            working_collaborators plain_url) = false.
Proof.
  apply (successful_run_shape base_dir UrlLib.urlparse quiet_env
           working_collaborators plain_url).
  vm_compute. right; right; left. reflexivity.
Defined.

(** X16: a run reaches the clone only when the components
    were created, the locator was validated and its metadata fetched; the
    clone event is the first event of the run. *)
Theorem clone_needs_valid_locator_and_metadata :
  forall (BASE_DIR : Path) (urlparse : str -> res ParseResult)
         (env : clone_env) (c : collaborators) (url : str) (p : Path),
    In (Cloned p) (generate_skill_workflow BASE_DIR urlparse env c url) ->
    create_components c = Ok tt
    /\ fst (validate_github_url urlparse url) = true
    /\ (exists info md,
          extract_repo_info urlparse url = Ok info
          /\ fetch_repo_metadata c (owner info) (repo info) = Some md
          /\ generate_skill_workflow BASE_DIR urlparse env c url
             = Cloned p :: after_clone c url info md p)
    /\ fst (clone_repository BASE_DIR urlparse env url) = Ok (Some p).
Proof.
  intros BASE_DIR urlparse env c url p Hin.
  assert (Hcc : create_components c = Ok tt).
  { unfold generate_skill_workflow in Hin.
    destruct (create_components c) as [[]|e]; [reflexivity|].
    destruct Hin as [H|[]]. discriminate. }
  destruct (workflow_shape BASE_DIR urlparse env c url)
    as [[m Hm]|(info & md & p0 & Hv & Hi & Hf & Hc & Ht)].
  - rewrite Hm in Hin. destruct Hin as [H|[]]. discriminate.
  - assert (p = p0) as ->.
    { rewrite Ht in Hin. destruct Hin as [H|Hin]; [congruence|].
      exfalso.
      destruct (after_clone_shape c url info md p0)
        as [[e He]|[He|(w & last & He & Hw & _ & Hl)]]; rewrite He in Hin.
      - destruct Hin as [H|[]]. discriminate.
      - destruct Hin as [H|[H|[]]]; discriminate.
      - apply in_app_or in Hin as [Hin|Hin].
        + apply (In_warnings _ _ Hw) in Hin. discriminate.
        + destruct Hl as [->|[[e ->]| ->]];
            destruct Hin as [H|[H|[]]]; discriminate. }
    split; [exact Hcc|]. split; [exact Hv|].
    split; [exists info, md; auto|]. exact Hc.
Qed.

Lemma clone_needs_valid_locator_and_metadata_witness :
  create_components working_collaborators = Ok tt
  /\ fst (validate_github_url UrlLib.urlparse plain_url) = true
  /\ (exists info md,
        extract_repo_info UrlLib.urlparse plain_url = Ok info
        /\ fetch_repo_metadata working_collaborators (owner info) (repo info)
           = Some md
        /\ generate_skill_workflow base_dir UrlLib.urlparse quiet_env
             working_collaborators plain_url
           = Cloned clone_dir
               :: after_clone working_collaborators plain_url info md clone_dir)
  /\ fst (clone_repository base_dir UrlLib.urlparse quiet_env plain_url)
     = Ok (Some clone_dir).
Proof.
  apply (clone_needs_valid_locator_and_metadata base_dir UrlLib.urlparse
           quiet_env working_collaborators plain_url clone_dir).
  vm_compute. left. reflexivity.
Defined.

(** X17: for a locator the validation refuses, the run
    reports one error and nothing else, and [clone_repository] returns
    [None] without requesting any mutation. *)
Theorem refused_locator_stops_run :
  forall (BASE_DIR : Path) (urlparse : str -> res ParseResult)
         (env : clone_env) (c : collaborators) (url : str),
    fst (validate_github_url urlparse url) = false ->
    (generate_skill_workflow BASE_DIR urlparse env c url
     = [StError (InvalidUrl (snd (validate_github_url urlparse url)))]
     \/ exists e, create_components c = Raise e
                  /\ generate_skill_workflow BASE_DIR urlparse env c url
                     = [StError (Unexpected e)])
    /\ clone_repository BASE_DIR urlparse env url = (Ok None, []).
Proof.
  intros BASE_DIR urlparse env c url Hv. split.
  - unfold generate_skill_workflow.
    destruct (create_components c) as [[]|e]; [|right; eauto].
    left. destruct (validate_github_url urlparse url) as [is_valid error].
    cbn [fst] in Hv. subst is_valid. reflexivity.
  - unfold clone_repository.
    destruct (validate_github_url urlparse url) as [is_valid error].
    cbn [fst] in Hv. subst is_valid. reflexivity.
Qed.

Lemma refused_locator_stops_run_witness :
  (generate_skill_workflow base_dir UrlLib.urlparse quiet_env
     working_collaborators http_url
   = [StError (InvalidUrl (snd (validate_github_url UrlLib.urlparse http_url)))]
   \/ exists e, create_components working_collaborators = Raise e
                /\ generate_skill_workflow base_dir UrlLib.urlparse quiet_env
                     working_collaborators http_url
                   = [StError (Unexpected e)])
  /\ clone_repository base_dir UrlLib.urlparse quiet_env http_url
     = (Ok None, []).
Proof.
  apply (refused_locator_stops_run base_dir UrlLib.urlparse quiet_env
           working_collaborators http_url).
  vm_compute. reflexivity.
Defined.

(* ----------------------------------------------------------------- *)
(** ** The URL list of the batch page *)

Import BatchUi.

Module BatchFacts.

Lemma lstrip_by_idem (f : ascii -> bool) (s : str) :
  lstrip_by f (lstrip_by f s) = lstrip_by f s.
Proof.
  induction s as [|c s IH]; [reflexivity|].
  cbn [lstrip_by]. destruct (f c) eqn:E; [exact IH|].
  cbn [lstrip_by]. rewrite E. reflexivity.
Qed.

Lemma lstrip_by_head (f : ascii -> bool) (s : str) :
  lstrip_by f s = [] \/ exists c t, lstrip_by f s = c :: t /\ f c = false.
Proof.
  induction s as [|c s IH]; [left; reflexivity|].
  cbn [lstrip_by]. destruct (f c) eqn:E; [exact IH|].
  right. eauto.
Qed.

Lemma rstrip_by_head (f : ascii -> bool) (c : ascii) (t : str) :
  f c = false -> exists t', rstrip_by f (c :: t) = c :: t'.
Proof.
  intros Hc. unfold rstrip_by. cbn [rev].
  destruct (lstrip_by_head f (rev t)) as [E|(d & u & E & Hd)].
  - apply lstrip_by_all in E.
    rewrite lstrip_by_app by exact E.
    cbn [lstrip_by]. rewrite Hc. exists []. reflexivity.
  - rewrite lstrip_by_app_keep by (rewrite E; discriminate).
    rewrite E. rewrite rev_app_distr. cbn [rev app]. eauto.
Qed.

Lemma rstrip_by_idem (f : ascii -> bool) (s : str) :
  rstrip_by f (rstrip_by f s) = rstrip_by f s.
Proof.
  unfold rstrip_by. rewrite rev_involutive, lstrip_by_idem. reflexivity.
Qed.

Lemma strip_by_idem (f : ascii -> bool) (s : str) :
  strip_by f (strip_by f s) = strip_by f s.
Proof.
  unfold strip_by.
  destruct (lstrip_by_head f s) as [E|(c & t & E & Hc)]; rewrite E.
  - reflexivity.
  - destruct (rstrip_by_head f c t Hc) as [t' E'].
    rewrite E'. cbn [lstrip_by]. rewrite Hc. rewrite <- E'.
    apply rstrip_by_idem.
Qed.

Lemma split_piece_no_sep (sep : ascii) (s w : str) :
  In w (split sep s) -> ~ In sep w.
Proof.
  revert w. induction s as [|c s IH]; intros w Hw.
  - destruct Hw as [<-|[]]. intros [].
  - cbn [split] in Hw. destruct (Ascii.eqb c sep) eqn:E.
    + destruct Hw as [<-|Hw]; [intros []|]. apply IH. exact Hw.
    + destruct (split sep s) as [|w0 ws] eqn:Es.
      * destruct Hw as [<-|[]]. intros [H|[]]. subst.
        rewrite Ascii.eqb_refl in E. discriminate.
      * destruct Hw as [<-|Hw].
        -- intros [H|H].
           ++ subst. rewrite Ascii.eqb_refl in E. discriminate.
           ++ apply (IH w0); [left; reflexivity | exact H].
        -- apply IH. right. exact Hw.
Qed.

Lemma split_join (sep : ascii) (l : list str) :
  l <> [] ->
  Forall (fun u => forallb (fun c => negb (Ascii.eqb c sep)) u = true) l ->
  split sep (join [sep] l) = l.
Proof.
  induction l as [|a l IH]; [congruence|]. intros _ H.
  inversion H as [|? ? Ha Hl]; subst.
  destruct l as [|b l].
  - cbn [join]. apply split_no_sep. exact Ha.
  - change (join [sep] (a :: b :: l)) with (a ++ sep :: join [sep] (b :: l)).
    rewrite split_app_sep by exact Ha.
    rewrite IH; [reflexivity | discriminate | exact Hl].
Qed.

Lemma clean_line_inv (u : str) :
  clean_line u = true ->
  u <> [] /\ strip u = u
  /\ forallb (fun c => negb (Ascii.eqb c LF)) u = true.
Proof.
  unfold clean_line. rewrite !andb_true_iff.
  intros [[H1 H2] H3]. split; [|split; [apply str_eqb_eq; exact H2 | exact H3]].
  intros ->. discriminate.
Qed.

Lemma entered_clean (l : list str) :
  forallb clean_line l = true ->
  map strip (filter (fun url => negb (str_eqb (strip url) [])) l) = l.
Proof.
  induction l as [|u l IH]; [reflexivity|].
  cbn [forallb]. intros H. apply andb_true_iff in H as [Hu Hl].
  destruct (clean_line_inv u Hu) as (Hne & Hs & _).
  cbn [filter]. rewrite Hs.
  destruct (str_eqb u []) eqn:E;
    [apply str_eqb_eq in E; congruence|].
  cbn [negb map]. rewrite Hs, (IH Hl). reflexivity.
Qed.

Lemma truncate_is_firstn {A : Type} (n : nat) (l : list A) :
  (if n <? length l then firstn n l else l) = firstn n l.
Proof.
  destruct (n <? length l) eqn:E; [reflexivity|].
  apply Nat.ltb_ge in E. symmetry. apply firstn_all2. exact E.
Qed.

Lemma batch_urls_firstn (urls_text : str) :
  batch_urls urls_text = firstn MAX_BATCH_SIZE (entered_urls urls_text).
Proof.
  unfold batch_urls. cbv zeta.
  destruct (entered_urls urls_text) as [|u l] eqn:E; [reflexivity|].
  apply truncate_is_firstn.
Qed.

End BatchFacts.
Import BatchFacts.

(** X18: the list the batch page passes on has at most 5
    entries; each is a line of the text with the blanks at its ends
    removed, is not empty, has no blank left at either end and holds no
    line feed. *)
Theorem batch_urls_bounded_and_trimmed :
  forall urls_text : str,
    length (batch_urls urls_text) <= 5
    /\ Forall (fun u => u <> [] /\ strip u = u /\ ~ In LF u
                        /\ exists line, In line (split LF urls_text)
                                        /\ u = strip line)
              (batch_urls urls_text).
Proof.
  intros urls_text. rewrite batch_urls_firstn. split.
  - rewrite length_firstn. unfold MAX_BATCH_SIZE. lia.
  - apply Forall_forall. intros u Hu.
    apply incl_firstn in Hu. unfold entered_urls in Hu.
    apply in_map_iff in Hu as (line & <- & Hline).
    apply filter_In in Hline as [Hin Hne].
    split.
    { intros E. rewrite E in Hne. discriminate. }
    split; [apply strip_by_idem|]. split.
    + intros HLF. apply (split_piece_no_sep LF urls_text line Hin).
      apply (incl_strip_by isspace line). exact HLF.
    + exists line. auto.
Qed.

(** X19: lines that are not empty, have no blank at either
    end and hold no line feed, joined by line feeds, are read back as the
    first 5 of them. *)
Theorem batch_urls_round_trip :
  forall l : list str,
    forallb clean_line l = true ->
    batch_urls (join [LF] l) = firstn 5 l.
Proof.
  intros l H. rewrite batch_urls_firstn. unfold entered_urls, MAX_BATCH_SIZE.
  destruct l as [|u l]; [reflexivity|].
  rewrite split_join.
  - rewrite entered_clean by exact H. reflexivity.
  - discriminate.
  - apply Forall_forall. intros x Hx.
    rewrite forallb_forall in H. apply clean_line_inv. apply H. exact Hx.
Qed.

Lemma batch_urls_round_trip_witness :
  batch_urls (join [LF] six_urls)
  = firstn 5 six_urls.
Proof.
  apply (batch_urls_round_trip six_urls).
  vm_compute. reflexivity.
Defined.

(* ----------------------------------------------------------------- *)
(** ** The validator *)

Import Validator.

Module ValidatorFacts.

Lemma startswith_firstn (n : nat) (s pre : str) :
  length pre <= n -> startswith (firstn n s) pre = startswith s pre.
Proof.
  revert n s. induction pre as [|p pre IH]; intros n s H.
  - destruct s, n; reflexivity.
  - destruct n as [|n]; [cbn [length] in H; lia|].
    destruct s as [|c s]; [reflexivity|].
    cbn [firstn startswith]. rewrite IH by (cbn [length] in H; lia).
    reflexivity.
Qed.

Lemma directory_errors_listed (entries : option (res (list str)))
    (message : str) :
  directory_errors entries message = Ok [] <-> listed entries = true.
Proof.
  unfold directory_errors, listed.
  destruct entries as [[[|x l]|e]|]; cbn [bind]; split; intros H;
    try reflexivity; discriminate.
Qed.

Lemma app_nil_3 {A : Type} (a b c : list A) :
  a ++ b ++ c = [] <-> a = [] /\ b = [] /\ c = [].
Proof.
  split.
  - intros H. apply app_eq_nil in H as [-> H].
    apply app_eq_nil in H as [-> ->]. auto.
  - intros (-> & -> & ->). reflexivity.
Qed.

End ValidatorFacts.
Import ValidatorFacts.

(** X20: [_fallback_validation] returns validity exactly
    for a directory with the basic structure, with its fixed message. *)
Theorem fallback_accepts_basic_structure :
  forall (files : skill_files) (message : str),
    _fallback_validation files = Ok (true, message)
    <-> basic_structure files = true
        /\ message = ("Skill structure is valid (basic validation)" : str).
Proof.
  intros files message. unfold _fallback_validation, basic_structure.
  pose proof (directory_errors_listed (references_entries files)
                "references/ directory is empty") as Hr.
  pose proof (directory_errors_listed (templates_entries files)
                "assets/templates/ directory is empty") as Ht.
  assert (Hmd : skill_md_errors files = Ok [] <->
                match skill_md files with
                | Some (Ok content) =>
                    startswith content "---"
                    && contains "name:" (take 500 content)
                    && contains "description:" (take 500 content)
                | _ => false
                end = true).
  { unfold skill_md_errors. destruct (skill_md files) as [[content|e]|];
      cbn [bind]; [| split; discriminate | split; discriminate].
    destruct (startswith content "---"); cbn [negb andb];
      [|split; discriminate].
    destruct (contains "name:" (take 500 content)),
             (contains "description:" (take 500 content));
      cbn [negb andb app]; split; intros H; try reflexivity; discriminate. }
  destruct (skill_md_errors files) as [e1|x1]; cbn [bind].
  2:{ split; [discriminate|]. intros [H _].
      apply andb_true_iff in H as [H _]. apply andb_true_iff in H as [H _].
      apply Hmd in H. discriminate. }
  destruct (directory_errors (references_entries files) _) as [e2|x2];
    cbn [bind].
  2:{ split; [discriminate|]. intros [H _].
      apply andb_true_iff in H as [H _]. apply andb_true_iff in H as [_ H].
      apply Hr in H. discriminate. }
  destruct (directory_errors (templates_entries files) _) as [e3|x3];
    cbn [bind].
  2:{ split; [discriminate|]. intros [H _].
      apply andb_true_iff in H as [_ H]. apply Ht in H. discriminate. }
  destruct (e1 ++ e2 ++ e3) as [|err errs] eqn:E.
  - apply app_nil_3 in E as (-> & -> & ->). split.
    + intros H. injection H as <-. split; [|reflexivity].
      rewrite (proj1 Hmd eq_refl), (proj1 Hr eq_refl), (proj1 Ht eq_refl).
      reflexivity.
    + intros [_ ->]. reflexivity.
  - split; [discriminate|]. intros [H _]. exfalso.
    apply andb_true_iff in H as [H H3]. apply andb_true_iff in H as [H1 H2].
    apply Hmd in H1. apply Hr in H2. apply Ht in H3.
    injection H1 as ->. injection H2 as ->. injection H3 as ->.
    discriminate.
Qed.

(** X21: [_fallback_validation] gives the same result for
    a [SKILL.md] and for its first 500 characters. *)
Theorem fallback_reads_first_500_characters :
  forall (files : skill_files) (content : str),
    _fallback_validation (with_skill_md files content)
    = _fallback_validation (with_skill_md files (take 500 content)).
Proof.
  intros files content.
  unfold _fallback_validation, skill_md_errors, with_skill_md.
  cbn [skill_md references_entries templates_entries bind].
  unfold take at 3. rewrite (startswith_firstn 500 content "---")
    by (cbn [length String.list_ascii_of_string]; lia).
  unfold take. rewrite !firstn_firstn, !Nat.min_id. reflexivity.
Qed.

(** X22: when the validation script exists,
    [validate_skill] always returns, and validity exactly when the script
    ran and returned code 0; without the script, an error of reading
    [SKILL.md] is raised. *)
Theorem validate_skill_with_script_never_raises :
  forall (run : run_result) (files : skill_files),
    (exists is_valid message,
       validate_skill true run files = Ok (is_valid, message)
       /\ (is_valid = true <-> exists stdout stderr,
                                 run = Completed 0 stdout stderr))
    /\ (forall e, skill_md files = Some (Raise e) ->
                  validate_skill false run files = Raise e).
Proof.
  intros run files. split.
  - unfold validate_skill. cbn [negb].
    destruct run as [rc out err| |m].
    + destruct (rc =? 0)%Z eqn:E.
      * apply Z.eqb_eq in E. subst rc. eexists _, _. split; [reflexivity|].
        split; [eauto | reflexivity].
      * eexists _, _. split; [reflexivity|]. split; [discriminate|].
        intros (o & e & H). injection H as -> _ _. discriminate.
    + eexists _, _. split; [reflexivity|]. split; [discriminate|].
      intros (o & e & H). discriminate.
    + eexists _, _. split; [reflexivity|]. split; [discriminate|].
      intros (o & e & H). discriminate.
  - intros e H. unfold validate_skill, _fallback_validation, skill_md_errors.
    cbn [negb]. rewrite H. reflexivity.
Qed.

(* ----------------------------------------------------------------- *)
(** ** The builder *)

Import PyStrMore SkillBuilder BuilderExamples.

Module BuilderFacts.

Section Builder.

Variable output_dir : Path.
Variable yaml_dump : json -> res str.
Variable py_format : json -> str.
Variable number_is_zero : str -> bool.
Variable answer : list fs_op -> fs_op -> res unit.

Lemma extends_ret {A : Type} (a : A) : extends (ret a).
Proof. intros log. exists []. cbn. rewrite app_nil_r. reflexivity. Qed.

Lemma extends_lift {A : Type} (r : res A) : extends (lift r).
Proof. intros log. exists []. cbn. rewrite app_nil_r. reflexivity. Qed.

Lemma extends_request (op : fs_op) : extends (request answer op).
Proof. intros log. exists [op]. reflexivity. Qed.

Lemma extends_bind {A B : Type} (m : io A) (k : A -> io B) :
  extends m -> (forall a, extends (k a)) -> extends (io_bind m k).
Proof.
  intros Hm Hk log. unfold io_bind.
  destruct (Hm log) as [ops Hops].
  destruct (m log) as [[a|e] log'] eqn:E; cbn [snd] in Hops; subst log'.
  - destruct (Hk a (log ++ ops)) as [ops' H']. exists (ops ++ ops').
    rewrite H', app_assoc. reflexivity.
  - exists ops. reflexivity.
Qed.

Lemma keeps_ret {A : Type} (P : fs_op -> Prop) (a : A) : keeps P (ret a).
Proof. intros log H. exact H. Qed.

Lemma keeps_lift {A : Type} (P : fs_op -> Prop) (r : res A) :
  keeps P (lift r).
Proof. intros log H. exact H. Qed.

Lemma keeps_request (P : fs_op -> Prop) (op : fs_op) :
  P op -> keeps P (request answer op).
Proof.
  intros Hop log H. cbn [request snd]. apply Forall_app. split; [exact H|].
  constructor; [exact Hop | constructor].
Qed.

Lemma keeps_bind {A B : Type} (P : fs_op -> Prop) (m : io A)
    (k : A -> io B) :
  keeps P m -> (forall a log, fst (m log) = Ok a -> keeps P (k a)) ->
  keeps P (io_bind m k).
Proof.
  intros Hm Hk log H. unfold io_bind. specialize (Hm log H).
  destruct (m log) as [[a|e] log'] eqn:E; cbn [snd] in Hm.
  - apply (Hk a log); [rewrite E; reflexivity | exact Hm].
  - exact Hm.
Qed.

Lemma keeps_write_file (P : fs_op -> Prop) (path : Path) (content : json) :
  (forall op, op_path op = path -> P op) ->
  keeps P (write_file answer path content).
Proof.
  intros HP. unfold write_file. apply keeps_bind.
  - apply keeps_request. apply HP. reflexivity.
  - intros _ _ _. destruct content; try apply keeps_lift.
    apply keeps_request. apply HP. reflexivity.
Qed.

Lemma lookup_index (v : json) (k : str) (x : json) :
  lookup v k = x -> x <> JNull -> py_index v k = Ok x.
Proof.
  unfold lookup, py_index. destruct v; try congruence.
  destruct (dict_get d k); congruence.
Qed.

Lemma skill_name_index (doc : json) (name : str) :
  skill_name doc = JStr name ->
  exists sm fm,
    py_index doc "skill_md" = Ok sm
    /\ py_index sm "frontmatter" = Ok fm
    /\ py_index fm "name" = Ok (JStr name).
Proof.
  unfold skill_name. intros H.
  set (sm := lookup doc "skill_md") in *.
  set (fm := lookup sm "frontmatter") in *.
  assert (Hfm : fm <> JNull) by (intros E; rewrite E in H; discriminate).
  assert (Hsm : sm <> JNull).
  { intros E. apply Hfm. unfold fm. rewrite E. reflexivity. }
  exists sm, fm. split; [|split].
  - apply lookup_index; [reflexivity | exact Hsm].
  - apply lookup_index; [reflexivity | exact Hfm].
  - apply lookup_index; [exact H | discriminate].
Qed.

Lemma py_get_lookup (doc : json) (k : str) (v : json) :
  py_get doc k JNull = Ok v -> v = lookup doc k.
Proof.
  unfold py_get, lookup. destruct doc; try discriminate.
  intros H. injection H as <-. reflexivity.
Qed.

Lemma name_parts_plain (n : str) :
  plain_name n = true -> name_parts n = [n].
Proof.
  unfold plain_name. rewrite !andb_true_iff, !negb_true_iff.
  intros [[[H1 H2] H3] H4]. unfold name_parts.
  rewrite split_no_sep by exact H4.
  cbn [filter]. rewrite H1, H2. reflexivity.
Qed.

Lemma div_plain (p : Path) (n : str) :
  plain_name n = true -> div p n = p ++ [n].
Proof.
  intros H. unfold div. rewrite (name_parts_plain n H).
  destruct n as [|c n]; [discriminate H|].
  unfold plain_name in H. rewrite !andb_true_iff in H.
  destruct H as [_ H]. cbn [forallb] in H. apply andb_true_iff in H as [H _].
  apply negb_true_iff in H.
  change (startswith (c :: n) "/") with (Ascii.eqb "/" c && startswith n []).
  rewrite Ascii.eqb_sym, H. reflexivity.
Qed.

Lemma div_relative (p : Path) (f : str) :
  startswith f "/" = false -> div p f = p ++ name_parts f.
Proof. intros H. unfold div. rewrite H. reflexivity. Qed.

Lemma within_app (root tail : Path) :
  existsb (fun part => str_eqb part "..") tail = false ->
  within root (root ++ tail).
Proof. intros H. exists tail. auto. Qed.

Lemma keeps_create_files (P : fs_op -> Prop) (dir : Path)
    (items : list json) :
  (forall item f op,
     In item items -> py_index item "filename" = Ok (JStr f) ->
     op_path op = div dir f -> P op) ->
  keeps P (create_files answer dir items).
Proof.
  induction items as [|item items IH]; intros HP.
  - apply keeps_ret.
  - cbn [create_files].
    apply keeps_bind; [apply keeps_lift|]. intros filename log Hf.
    apply keeps_bind; [apply keeps_lift|]. intros content _ _.
    apply keeps_bind; [apply keeps_lift|]. intros path log' Hp.
    cbn [lift fst] in Hf, Hp.
    apply keeps_bind.
    + apply keeps_write_file. intros op Hop.
      destruct filename; try discriminate. cbn [path_join] in Hp.
      injection Hp as <-.
      apply (HP item s op); [left; reflexivity | exact Hf | exact Hop].
    + intros _ _ _. apply IH. intros it f op Hin. apply HP. right. exact Hin.
Qed.

Lemma io_bind_ok_inv {A B : Type} (m : io A) (k : A -> io B)
    (log log' : list fs_op) (b : B) :
  io_bind m k log = (Ok b, log') ->
  exists a log1, m log = (Ok a, log1) /\ k a log1 = (Ok b, log').
Proof.
  unfold io_bind. destruct (m log) as [[a|e] log1]; [eauto | discriminate].
Qed.

Lemma lift_ok_inv {A : Type} (r : res A) (log log' : list fs_op) (a : A) :
  lift r log = (Ok a, log') -> r = Ok a /\ log' = log.
Proof. unfold lift. intros H. injection H as -> ->. auto. Qed.

Lemma request_ok_inv (op : fs_op) (log log' : list fs_op) (u : unit) :
  request answer op log = (Ok u, log') ->
  answer log op = Ok tt /\ log' = log ++ [op].
Proof.
  unfold request. intros H. injection H as H ->. destruct u. auto.
Qed.

Lemma extends_write_file (path : Path) (content : json) :
  extends (write_file answer path content).
Proof.
  unfold write_file. apply extends_bind; [apply extends_request|].
  intros _. destruct content; try apply extends_lift. apply extends_request.
Qed.

Lemma extends_create_files (dir : Path) (items : list json) :
  extends (create_files answer dir items).
Proof.
  induction items as [|item items IH]; cbn [create_files].
  - apply extends_ret.
  - apply extends_bind; [apply extends_lift|]. intros filename.
    apply extends_bind; [apply extends_lift|]. intros content.
    apply extends_bind; [apply extends_lift|]. intros path.
    apply extends_bind; [apply extends_write_file|]. intros _. exact IH.
Qed.

Lemma extends_create_references (skill_dir : Path) (references : json) :
  extends (_create_references answer skill_dir references).
Proof.
  unfold _create_references. apply extends_bind; [apply extends_request|].
  intros _. apply extends_bind; [apply extends_lift|]. intros items.
  apply extends_create_files.
Qed.

Lemma extends_create_templates (skill_dir : Path) (templates : json) :
  extends (_create_templates answer skill_dir templates).
Proof.
  unfold _create_templates. apply extends_bind; [apply extends_request|].
  intros _. apply extends_bind; [apply extends_lift|]. intros items.
  apply extends_create_files.
Qed.

(** The statements of [build_skill] after [SKILL.md] is written. *)
Lemma build_tail_inv (skill_data : json) (skill_dir : Path)
    (log log' : list fs_op) (p : Path) :
  (references <~ lift (py_get skill_data "references" JNull) ;;
   _ <~ (if truthy number_is_zero references
         then _create_references answer skill_dir references
         else ret tt) ;;
   templates <~ lift (py_get skill_data "templates" JNull) ;;
   _ <~ (if truthy number_is_zero templates
         then _create_templates answer skill_dir templates
         else ret tt) ;;
   ret skill_dir) log = (Ok p, log') ->
  p = skill_dir /\ exists ops, log' = log ++ ops.
Proof.
  intros H.
  apply io_bind_ok_inv in H as (refs & l1 & H1 & H).
  apply lift_ok_inv in H1 as [_ ->].
  apply io_bind_ok_inv in H as (u & l2 & H2 & H).
  apply io_bind_ok_inv in H as (temps & l3 & H3 & H).
  apply lift_ok_inv in H3 as [_ ->].
  apply io_bind_ok_inv in H as (u' & l4 & H4 & H).
  unfold ret in H. injection H as <- <-.
  split; [reflexivity|].
  assert (E2 : exists ops, l2 = log ++ ops).
  { assert (Hx : extends (if truthy number_is_zero refs
                          then _create_references answer skill_dir refs
                          else ret tt))
      by (destruct (truthy number_is_zero refs);
          [apply extends_create_references | apply extends_ret]).
    destruct (Hx log) as [ops Hops]. rewrite H2 in Hops. eauto. }
  assert (E4 : exists ops, l4 = l2 ++ ops).
  { assert (Hx : extends (if truthy number_is_zero temps
                          then _create_templates answer skill_dir temps
                          else ret tt))
      by (destruct (truthy number_is_zero temps);
          [apply extends_create_templates | apply extends_ret]).
    destruct (Hx l2) as [ops Hops]. rewrite H4 in Hops. eauto. }
  destruct E2 as [o2 ->]. destruct E4 as [o4 ->].
  exists (o2 ++ o4). rewrite app_assoc. reflexivity.
Qed.

Lemma run_lift {A B : Type} (r : res A) (k : A -> io B)
    (log : list fs_op) :
  io_bind (lift r) k log
  = match r with Ok a => k a log | Raise e => (Raise e, log) end.
Proof. unfold io_bind, lift. destruct r; reflexivity. Qed.

Lemma run_request {B : Type} (op : fs_op) (k : unit -> io B)
    (log : list fs_op) :
  answer log op = Ok tt ->
  io_bind (request answer op) k log = k tt (log ++ [op]).
Proof. intros H. unfold io_bind, request. rewrite H. reflexivity. Qed.

Lemma run_bind_ok {A B : Type} (m : io A) (k : A -> io B)
    (log log1 : list fs_op) (a : A) :
  m log = (Ok a, log1) -> io_bind m k log = k a log1.
Proof. intros H. unfold io_bind. rewrite H. reflexivity. Qed.

Lemma lookup_str_index (v : json) (k s : str) :
  lookup v k = JStr s -> py_index v k = Ok (JStr s).
Proof. intros H. apply lookup_index; [exact H | discriminate]. Qed.

Lemma writable_item_index (item : json) :
  writable_item item = true ->
  exists f c, py_index item "filename" = Ok (JStr f)
              /\ py_index item "content" = Ok (JStr c).
Proof.
  unfold writable_item.
  destruct (lookup item "filename") eqn:Ef; try discriminate.
  destruct (lookup item "content") eqn:Ec; try discriminate.
  intros _. eexists _, _. split; apply lookup_str_index; eassumption.
Qed.



End Builder.

End BuilderFacts.
Import BuilderFacts.


Module BuilderInv.

(** What a build that returns has done. *)
Lemma build_skill_ok_inv :
  forall (output_dir : Path) (yaml_dump : json -> res str)
         (py_format : json -> str) (number_is_zero : str -> bool)
         (answer : list fs_op -> fs_op -> res unit)
         (doc : json) (log log' : list fs_op) (p : Path),
    build_skill output_dir yaml_dump py_format number_is_zero answer doc log
    = (Ok p, log') ->
    exists name yaml_content rest,
      skill_name doc = JStr name
      /\ p = div output_dir name
      /\ yaml_dump (lookup (lookup doc "skill_md") "frontmatter")
         = Ok yaml_content
      /\ has_key (lookup doc "skill_md") "content" = true
      /\ log' = log
                ++ [Mkdir p; OpenW (div p "SKILL.md");
                    WriteText (div p "SKILL.md")
                      (skill_md_text py_format yaml_content
                         (lookup (lookup doc "skill_md") "content"))]
                ++ rest.
Proof.
  intros out yd pf nz ans doc log log' p H.
  unfold build_skill in H.
  apply io_bind_ok_inv in H as (sm & l1 & H1 & H).
  apply lift_ok_inv in H1 as [Esm ->].
  apply io_bind_ok_inv in H as (fm & l1 & H1 & H).
  apply lift_ok_inv in H1 as [Efm ->].
  apply io_bind_ok_inv in H as (nm & l1 & H1 & H).
  apply lift_ok_inv in H1 as [Enm ->].
  apply io_bind_ok_inv in H as (sd & l1 & H1 & H).
  apply lift_ok_inv in H1 as [Esd ->].
  destruct nm as [| | |name| |]; cbn [path_join] in Esd; try discriminate.
  injection Esd as <-.
  apply io_bind_ok_inv in H as (u & l1 & H1 & H).
  apply (request_ok_inv ans) in H1 as [_ ->].
  apply io_bind_ok_inv in H as (u' & l2 & H2 & H).
  unfold _create_skill_md in H2.
  apply io_bind_ok_inv in H2 as (fm' & l3 & H3 & H2).
  apply lift_ok_inv in H3 as [Efm' ->].
  assert (fm' = fm) as -> by congruence.
  apply io_bind_ok_inv in H2 as (y & l3 & H3 & H2).
  apply lift_ok_inv in H3 as [Ey ->].
  apply io_bind_ok_inv in H2 as (c & l3 & H3 & H2).
  apply lift_ok_inv in H3 as [Ec ->].
  unfold write_file in H2.
  apply io_bind_ok_inv in H2 as (u2 & l3 & H3 & H2).
  apply (request_ok_inv ans) in H3 as [_ ->].
  apply (request_ok_inv ans) in H2 as [_ ->].
  apply (build_tail_inv nz ans) in H as [-> [ops ->]].
  assert (Hsm : lookup doc "skill_md" = sm).
  { unfold py_index in Esm. unfold lookup. destruct doc; try discriminate.
    destruct (dict_get d "skill_md"); congruence. }
  assert (Hfm : lookup sm "frontmatter" = fm).
  { unfold py_index in Efm. unfold lookup. destruct sm; try discriminate.
    destruct (dict_get d "frontmatter"); congruence. }
  assert (Hnm : lookup fm "name" = JStr name).
  { unfold py_index in Enm. unfold lookup. destruct fm; try discriminate.
    destruct (dict_get d "name"); congruence. }
  assert (Hc : lookup sm "content" = c /\ has_key sm "content" = true).
  { unfold py_index in Ec. unfold lookup, has_key, dict_has.
    destruct sm; try discriminate.
    destruct (dict_get d "content"); [|discriminate].
    split; congruence. }
  destruct Hc as [Hc Hk].
  exists name, y, ops.
  unfold skill_name. rewrite Hsm, Hfm, Hc.
  split; [exact Hnm|]. split; [reflexivity|]. split; [exact Ey|].
  split; [exact Hk|].
  rewrite <- !app_assoc. reflexivity.
Qed.

End BuilderInv.
Import BuilderInv.

(** X23: when [build_skill] returns a path, the name of the
    skill in the document is a string, the path is [output_dir / name],
    and the build began by creating that directory and writing in it
    [SKILL.md]: the marker line, the dumped frontmatter, the marker line,
    an empty line and the content. *)
Theorem built_skill_has_skill_md :
  forall (output_dir : Path) (yaml_dump : json -> res str)
         (py_format : json -> str) (number_is_zero : str -> bool)
         (answer : list fs_op -> fs_op -> res unit)
         (doc : json) (log log' : list fs_op) (p : Path),
    build_skill output_dir yaml_dump py_format number_is_zero answer doc log
    = (Ok p, log') ->
    exists name yaml_content rest,
      skill_name doc = JStr name
      /\ p = div output_dir name
      /\ yaml_dump (lookup (lookup doc "skill_md") "frontmatter")
         = Ok yaml_content
      /\ has_key (lookup doc "skill_md") "content" = true
      /\ log' = log
                ++ [Mkdir p; OpenW (div p "SKILL.md");
                    WriteText (div p "SKILL.md")
                      (skill_md_text py_format yaml_content
                         (lookup (lookup doc "skill_md") "content"))]
                ++ rest.
Proof. exact build_skill_ok_inv. Qed.

Lemma built_skill_has_skill_md_witness :
  exists name yaml_content rest,
    skill_name one_reference_doc = JStr name
    /\ div out_dir "x" = div out_dir name
    /\ fixed_yaml (lookup (lookup one_reference_doc "skill_md") "frontmatter")
       = Ok yaml_content
    /\ has_key (lookup one_reference_doc "skill_md") "content" = true
    /\ snd (build_skill out_dir fixed_yaml no_format zero_literal accepting
              one_reference_doc [])
       = []
         ++ [Mkdir (div out_dir "x"); OpenW (div (div out_dir "x") "SKILL.md");
             WriteText (div (div out_dir "x") "SKILL.md")
               (skill_md_text no_format yaml_content
                  (lookup (lookup one_reference_doc "skill_md") "content"))]
         ++ rest.
Proof.
  apply (built_skill_has_skill_md out_dir fixed_yaml no_format zero_literal
           accepting one_reference_doc []).
  vm_compute. reflexivity.
Defined.



(** X25: the name of the skill is joined to the output
    directory as it is: when it starts with a slash, what [build_skill]
    does and returns is the same for every output directory, and the
    directory of the skill is the one the name denotes. *)
Theorem absolute_name_replaces_output_dir :
  forall (out1 out2 : Path) (yaml_dump : json -> res str)
         (py_format : json -> str) (number_is_zero : str -> bool)
         (answer : list fs_op -> fs_op -> res unit)
         (doc : json) (log : list fs_op) (rest : str),
    skill_name doc = JStr ("/" ++ rest) ->
    startswith rest "/" = false ->
    build_skill out1 yaml_dump py_format number_is_zero answer doc log
    = build_skill out2 yaml_dump py_format number_is_zero answer doc log
    /\ forall p log',
         build_skill out1 yaml_dump py_format number_is_zero answer doc log
         = (Ok p, log') ->
         p = name_parts ("/" ++ rest).
Proof.
  intros out1 out2 yd pf nz ans doc log rest Hname _.
  destruct (skill_name_index doc _ Hname) as (sm & fm & Esm & Efm & Enm).
  assert (Hdiv : forall out, div out ("/" ++ rest) = name_parts ("/" ++ rest)).
  { intros out. unfold div.
    change (startswith (String.list_ascii_of_string "/" ++ rest) "/")
      with (Ascii.eqb "/" "/" && startswith rest []).
    rewrite Ascii.eqb_refl. destruct rest; reflexivity. }
  split.
  - unfold build_skill.
    rewrite !run_lift, Esm, !run_lift, Efm, !run_lift, Enm, !run_lift.
    cbn [path_join]. rewrite !Hdiv. reflexivity.
  - intros p log' H.
    apply build_skill_ok_inv in H
      as (name & y & r & Hn & Hp & _).
    rewrite Hname in Hn. injection Hn as <-. rewrite Hp. apply Hdiv.
Qed.

Lemma absolute_name_replaces_output_dir_witness :
  build_skill out_dir fixed_yaml no_format zero_literal accepting
    absolute_name_doc []
  = build_skill base_dir fixed_yaml no_format zero_literal accepting
      absolute_name_doc []
  /\ forall p log',
       build_skill out_dir fixed_yaml no_format zero_literal accepting
         absolute_name_doc []
       = (Ok p, log') ->
       p = name_parts ("/" ++ "tmp/x").
Proof.
  apply (absolute_name_replaces_output_dir out_dir base_dir fixed_yaml
           no_format zero_literal accepting absolute_name_doc [] "tmp/x");
    vm_compute; reflexivity.
Defined.

Module ContainmentFacts.

Section Builder.

Variable output_dir : Path.
Variable yaml_dump : json -> res str.
Variable py_format : json -> str.
Variable number_is_zero : str -> bool.
Variable answer : list fs_op -> fs_op -> res unit.

Lemma no_dotdot_app (a b : list str) :
  existsb (fun part => str_eqb part "..") (a ++ b)
  = existsb (fun part => str_eqb part "..") a
    || existsb (fun part => str_eqb part "..") b.
Proof. apply existsb_app. Qed.

(** The files of one directory of the skill stay below it. *)
Lemma keeps_safe_files (root : Path) (sub : list str) (v : json)
    (items : list json) :
  existsb (fun part => str_eqb part "..") sub = false ->
  safe_items v = true ->
  py_iter v = Ok items ->
  keeps (fun op => within root (op_path op))
        (create_files answer (root ++ sub) items).
Proof.
  intros Hsub Hsafe Hiter. apply keeps_create_files.
  intros item f op Hin Hf Hop. rewrite Hop.
  unfold safe_items in Hsafe. rewrite Hiter in Hsafe.
  rewrite forallb_forall in Hsafe. specialize (Hsafe item Hin).
  rewrite Hf in Hsafe. unfold relative_safe in Hsafe.
  apply andb_true_iff in Hsafe as [H1 H2].
  apply negb_true_iff in H1. apply negb_true_iff in H2.
  rewrite (div_relative _ _ H1), <- app_assoc.
  apply within_app. rewrite no_dotdot_app, Hsub, H2. reflexivity.
Qed.

End Builder.

End ContainmentFacts.
Import ContainmentFacts.

(** X26: when the name of the skill is one plain component
    and the file names of the references and templates are relative with
    no [..] component, every operation [build_skill] requests is on the
    skill directory [output_dir / name] or below it. *)
Theorem build_stays_in_skill_dir :
  forall (output_dir : Path) (yaml_dump : json -> res str)
         (py_format : json -> str) (number_is_zero : str -> bool)
         (answer : list fs_op -> fs_op -> res unit)
         (doc : json) (name : str),
    skill_name doc = JStr name ->
    plain_name name = true ->
    safe_items (lookup doc "references") = true ->
    safe_items (lookup doc "templates") = true ->
    Forall (fun op => within (output_dir ++ [name]) (op_path op))
      (snd (build_skill output_dir yaml_dump py_format number_is_zero answer
              doc [])).
Proof.
  intros out yd pf nz ans doc name Hname Hplain Hr Ht.
  set (root := out ++ [name]).
  set (P := fun op => within root (op_path op)).
  assert (Hroot : div out name = root) by (apply div_plain; exact Hplain).
  assert (Hsub : forall sub,
            existsb (fun part => str_eqb part "..") sub = false ->
            forall op, op_path op = root ++ sub -> P op).
  { intros sub H op Hop. unfold P. rewrite Hop. apply within_app. exact H. }
  assert (Hmd : div root "SKILL.md" = root ++ ["SKILL.md" : str])
    by (apply div_plain; reflexivity).
  assert (Href : div root "references" = root ++ ["references" : str])
    by (apply div_plain; reflexivity).
  assert (Htem : div (div root "assets") "templates"
                 = root ++ ["assets" : str; "templates" : str]).
  { rewrite (div_plain root "assets") by reflexivity.
    rewrite (div_plain _ "templates") by reflexivity.
    rewrite <- app_assoc. reflexivity. }
  destruct (skill_name_index doc name Hname) as (sm & fm & Esm & Efm & Enm).
  enough (K : keeps P (build_skill out yd pf nz ans doc))
    by (apply K; constructor).
  intros log Hlog. unfold build_skill.
  rewrite run_lift, Esm, run_lift, Efm, run_lift, Enm, run_lift.
  cbn [path_join]. rewrite Hroot.
  revert log Hlog. fold (keeps P
    (_ <~ request ans (Mkdir root) ;;
     _ <~ _create_skill_md yd pf ans root sm ;;
     references <~ lift (py_get doc "references" JNull) ;;
     _ <~ (if truthy nz references then _create_references ans root references
           else ret tt) ;;
     templates <~ lift (py_get doc "templates" JNull) ;;
     _ <~ (if truthy nz templates then _create_templates ans root templates
           else ret tt) ;;
     ret root)).
  apply keeps_bind.
  { apply keeps_request. apply (Hsub []); [reflexivity|].
    cbn [op_path]. rewrite app_nil_r. reflexivity. }
  intros _ _ _. apply keeps_bind.
  { unfold _create_skill_md.
    apply keeps_bind; [apply keeps_lift|]. intros ? _ _.
    apply keeps_bind; [apply keeps_lift|]. intros ? _ _.
    apply keeps_bind; [apply keeps_lift|]. intros ? _ _.
    apply keeps_write_file. intros op Hop. rewrite Hmd in Hop.
    apply (Hsub ["SKILL.md" : str]); [reflexivity | exact Hop]. }
  intros _ _ _. apply keeps_bind; [apply keeps_lift|].
  intros refs l Hrefs. cbn [lift fst] in Hrefs.
  apply py_get_lookup in Hrefs. subst refs.
  apply keeps_bind.
  { destruct (truthy nz (lookup doc "references")); [|apply keeps_ret].
    unfold _create_references. rewrite Href.
    apply keeps_bind.
    - apply keeps_request.
      apply (Hsub ["references" : str]); reflexivity.
    - intros _ _ _. apply keeps_bind; [apply keeps_lift|].
      intros items l' Hitems. cbn [lift fst] in Hitems.
      apply (keeps_safe_files ans root ["references" : str]
               (lookup doc "references")); [reflexivity | exact Hr | exact Hitems]. }
  intros _ _ _. apply keeps_bind; [apply keeps_lift|].
  intros temps l' Htemps. cbn [lift fst] in Htemps.
  apply py_get_lookup in Htemps. subst temps.
  apply keeps_bind; [|intros; apply keeps_ret].
  destruct (truthy nz (lookup doc "templates")); [|apply keeps_ret].
  unfold _create_templates. rewrite Htem.
  apply keeps_bind.
  - apply keeps_request.
    apply (Hsub ["assets" : str; "templates" : str]); reflexivity.
  - intros _ _ _. apply keeps_bind; [apply keeps_lift|].
    intros items l'' Hitems. cbn [lift fst] in Hitems.
    apply (keeps_safe_files ans root ["assets" : str; "templates" : str]
             (lookup doc "templates")); [reflexivity | exact Ht | exact Hitems].
Qed.

Lemma build_stays_in_skill_dir_witness :
  Forall (fun op => within (out_dir ++ ["x" : str]) (op_path op))
    (snd (build_skill out_dir fixed_yaml no_format zero_literal accepting
            one_reference_doc [])).
Proof.
  apply (build_stays_in_skill_dir out_dir fixed_yaml no_format zero_literal
           accepting one_reference_doc "x"); vm_compute; reflexivity.
Defined.

Module PartialFacts.

Section Builder.

Variable answer : list fs_op -> fs_op -> res unit.
Hypothesis accepts : forall l op, answer l op = Ok tt.

(** The loop stops at the first element without a file name, after it
    has written the elements before it. *)
Lemma create_files_stops (dir : Path) (good : list json) (bad : json)
    (rest : list json) (e : exn) (log : list fs_op) :
  forallb writable_item good = true ->
  py_index bad "filename" = Raise e ->
  exists ops,
    create_files answer dir (good ++ bad :: rest) log = (Raise e, log ++ ops)
    /\ length ops = 2 * length good.
Proof.
  intros Hgood Hbad. revert log.
  induction good as [|item good IH]; intros log.
  - exists []. cbn [app create_files]. rewrite run_lift, Hbad, app_nil_r.
    split; reflexivity.
  - cbn [forallb] in Hgood. apply andb_true_iff in Hgood as [Hi Hg].
    destruct (writable_item_index item Hi) as (f & c & Ef & Ec).
    cbn [app create_files].
    rewrite run_lift, Ef, run_lift, Ec, run_lift. cbn [path_join].
    unfold write_file.
    erewrite run_bind_ok;
      [|rewrite (run_request answer) by apply accepts; unfold request;
        rewrite accepts; reflexivity].
    destruct (IH Hg ((log ++ [OpenW (div dir f)])
                       ++ [WriteText (div dir f) c])) as (ops & H & Hlen).
    exists (OpenW (div dir f) :: WriteText (div dir f) c :: ops).
    rewrite H. split.
    + rewrite <- !app_assoc. reflexivity.
    + cbn [length]. lia.
Qed.

End Builder.

End PartialFacts.
Import PartialFacts.

(** X27: on a file system that accepts every request, a
    reference that cannot be indexed by [filename] makes [build_skill]
    raise after it has created the skill directory, written [SKILL.md],
    created [references] and written the references before that one. *)
Theorem unshaped_reference_stops_build :
  forall (output_dir : Path) (yaml_dump : json -> res str)
         (py_format : json -> str) (number_is_zero : str -> bool)
         (answer : list fs_op -> fs_op -> res unit)
         (doc : json) (log : list fs_op) (name yaml_content : str)
         (good : list json) (bad : json) (rest : list json) (e : exn),
    (forall l op, answer l op = Ok tt) ->
    skill_name doc = JStr name ->
    yaml_dump (lookup (lookup doc "skill_md") "frontmatter")
    = Ok yaml_content ->
    has_key (lookup doc "skill_md") "content" = true ->
    lookup doc "references" = JList (good ++ bad :: rest) ->
    forallb writable_item good = true ->
    py_index bad "filename" = Raise e ->
    exists ops,
      build_skill output_dir yaml_dump py_format number_is_zero answer doc log
      = (Raise e,
         log
         ++ [Mkdir (div output_dir name);
             OpenW (div (div output_dir name) "SKILL.md");
             WriteText (div (div output_dir name) "SKILL.md")
               (skill_md_text py_format yaml_content
                  (lookup (lookup doc "skill_md") "content"));
             Mkdir (div (div output_dir name) "references")]
         ++ ops)
      /\ length ops = 2 * length good.
Proof.
  intros out yd pf nz ans doc log name y good bad rest e
         Hans Hname Hy Hk Hrefs Hgood Hbad.
  destruct (skill_name_index doc name Hname) as (sm & fm & Esm & Efm & Enm).
  assert (Hsm : lookup doc "skill_md" = sm).
  { unfold py_index in Esm. unfold lookup. destruct doc; try discriminate.
    destruct (dict_get d "skill_md"); congruence. }
  assert (Hfm : lookup sm "frontmatter" = fm).
  { unfold py_index in Efm. unfold lookup. destruct sm; try discriminate.
    destruct (dict_get d "frontmatter"); congruence. }
  rewrite Hsm in Hy, Hk |- *. rewrite Hfm in Hy.
  assert (Ec : py_index sm "content" = Ok (lookup sm "content")).
  { unfold has_key, dict_has in Hk. unfold py_index, lookup.
    destruct sm; try discriminate.
    destruct (dict_get d "content"); [reflexivity | discriminate]. }
  assert (Hdoc : exists d, doc = JDict d).
  { unfold py_index in Esm. destruct doc; try discriminate. eauto. }
  destruct Hdoc as [d ->].
  set (sd := div out name).
  destruct (create_files_stops ans Hans (div sd "references") good bad rest e
              ((((log ++ [Mkdir sd]) ++ [OpenW (div sd "SKILL.md")])
                ++ [WriteText (div sd "SKILL.md")
                      (skill_md_text pf y (lookup sm "content"))])
               ++ [Mkdir (div sd "references")]) Hgood Hbad)
    as (ops & Hops & Hlen).
  exists ops. split; [|exact Hlen].
  unfold build_skill.
  rewrite run_lift, Esm, run_lift, Efm, run_lift, Enm, run_lift.
  cbn [path_join]. fold sd.
  rewrite (run_request ans) by apply Hans.
  erewrite run_bind_ok.
  2:{ unfold _create_skill_md.
      rewrite run_lift, Efm, run_lift, Hy, run_lift, Ec.
      unfold write_file. rewrite (run_request ans) by apply Hans.
      unfold request. rewrite Hans. reflexivity. }
  rewrite run_lift. cbn [py_get].
  change (match dict_get d "references" with Some x => x | None => JNull end)
    with (lookup (JDict d) "references").
  rewrite Hrefs.
  assert (Htr : truthy nz (JList (good ++ bad :: rest)) = true)
    by (cbn [truthy]; destruct good; reflexivity).
  rewrite Htr.
  unfold io_bind at 1. unfold _create_references.
  rewrite (run_request ans) by apply Hans.
  rewrite run_lift. cbn [py_iter]. rewrite Hops.
  rewrite <- !app_assoc. reflexivity.
Qed.

Lemma unshaped_reference_stops_build_witness :
  exists ops,
    build_skill out_dir fixed_yaml no_format zero_literal accepting
      unshaped_doc []
    = (Raise KeyError,
       []
       ++ [Mkdir (div out_dir "x");
           OpenW (div (div out_dir "x") "SKILL.md");
           WriteText (div (div out_dir "x") "SKILL.md")
             (skill_md_text no_format ("name: x" ++ [LF])
                (lookup (lookup unshaped_doc "skill_md") "content"));
           Mkdir (div (div out_dir "x") "references")]
       ++ ops)
    /\ length ops = 2 * length (@nil json).
Proof.
  apply (unshaped_reference_stops_build out_dir fixed_yaml no_format
           zero_literal accepting unshaped_doc [] "x" ("name: x" ++ [LF])
           [] (JDict [("title" : str, JStr "t")]) [] KeyError);
    vm_compute; reflexivity.
Defined.

Module InfoFacts.

Lemma split_from_first (m : nat) (sep cur pre post : str) :
  sep <> [] ->
  (forall k, k < length pre ->
     startswith (skipn k (pre ++ sep ++ post)) sep = false) ->
  split_from (S m) sep cur 0 (pre ++ sep ++ post)
  = (rev cur ++ pre) :: split_from m sep [] (length sep - 1) (tl (sep ++ post)).
Proof.
  intros Hne. revert cur. induction pre as [|c pre IH]; intros cur H.
  - cbn [app]. destruct sep as [|a sep]; [congruence|].
    cbn [app split_from tl].
    change (a :: sep ++ post) with ((a :: sep) ++ post).
    rewrite startswith_app, app_nil_r. reflexivity.
  - pose proof (H 0 ltac:(cbn [length]; lia)) as H0.
    cbn [skipn app] in H0. cbn [app split_from]. rewrite H0.
    rewrite IH.
    + cbn [rev]. rewrite <- app_assoc. reflexivity.
    + intros k Hk. apply (H (S k)). cbn [length]. lia.
Qed.

End InfoFacts.
Import InfoFacts.

(** X28: from the text [_create_skill_md] writes,
    [get_skill_info] loads the dumped frontmatter, blanks at its ends
    removed, whatever the content holds, provided the dump holds no run of
    three dashes. *)
Theorem skill_info_reads_dumped_frontmatter :
  forall (V : Type) (yaml_safe_load : str -> res V)
         (py_format : json -> str) (yaml_content : str) (content : json),
    contains "---" (yaml_content ++ "--") = false ->
    split_max (skill_md_text py_format yaml_content content) "---" 2
    = [[]; LF :: yaml_content; LF :: LF :: render py_format content]
    /\ get_skill_info V yaml_safe_load
         (Some (Ok (skill_md_text py_format yaml_content content)))
       = match yaml_safe_load (strip yaml_content) with
         | Ok frontmatter => Some frontmatter
         | Raise _ => None
         end.
Proof.
  intros V load pf y c Hy.
  assert (Hs : split_max (skill_md_text pf y c) "---" 2
               = [[]; LF :: y; LF :: LF :: render pf c]).
  { unfold split_max, skill_md_text.
    set (post := LF :: LF :: render pf c).
    change (split_from 2 "---" [] 0
              ("---" ++ [LF] ++ y ++ "---" ++ [LF; LF] ++ render pf c))
      with (split_from (S 1) "---" [] 0
              ([] ++ "---" ++ ((LF :: y) ++ "---" ++ post))).
    rewrite (split_from_first 1 "---" [] []);
      [|discriminate|intros k Hk; cbn in Hk; lia].
    change (split_from 1 "---" [] (length (String.list_ascii_of_string "---") - 1)
              (tl ("---" ++ (LF :: y) ++ "---" ++ post)))
      with (split_from (S 0) "---" [] 0 ((LF :: y) ++ "---" ++ post)).
    rewrite (split_from_first 0 "---" [] (LF :: y)); [|discriminate|].
    - change (split_from 0 "---" [] (length (String.list_ascii_of_string "---") - 1)
                (tl ("---" ++ post)))
        with [post].
      reflexivity.
    - intros k Hk. apply (triple_not_early "-" (LF :: y)); [|exact Hk].
      change ((LF :: y) ++ ["-"%char; "-"%char])
        with (LF :: (y ++ String.list_ascii_of_string "--")).
      cbn [contains]. apply orb_false_iff. split; [reflexivity | exact Hy]. }
  split; [exact Hs|].
  unfold get_skill_info.
  assert (Hst : startswith (skill_md_text pf y c) "---" = true)
    by (unfold skill_md_text; apply startswith_app).
  rewrite Hst. cbv zeta. rewrite Hs. cbn [length Nat.leb nth].
  change (LF :: y) with ([LF] ++ y).
  replace (strip ([LF] ++ y)) with (strip y).
  - reflexivity.
  - unfold strip. symmetry.
    rewrite <- (app_nil_r y) at 1.
    apply (strip_by_app isspace [LF] y []); reflexivity.
Qed.

Lemma skill_info_reads_dumped_frontmatter_witness :
  split_max (skill_md_text no_format ("name: x" ++ [LF]) (JStr "a --- b"))
    "---" 2
  = [[]; LF :: ("name: x" ++ [LF]);
     LF :: LF :: render no_format (JStr "a --- b")]
  /\ get_skill_info str text_load
       (Some (Ok (skill_md_text no_format ("name: x" ++ [LF])
                    (JStr "a --- b"))))
     = match text_load (strip ("name: x" ++ [LF])) with
       | Ok frontmatter => Some frontmatter
       | Raise _ => None
       end.
Proof.
  apply (skill_info_reads_dumped_frontmatter str text_load
           no_format ("name: x" ++ [LF]) (JStr "a --- b")).
  vm_compute. reflexivity.
Defined.

(* ----------------------------------------------------------------- *)
(** ** The packager *)

Import Packager PackagerExamples.

Module PackagerFacts.

Lemma strip_prefix_app (base rel : list str) :
  strip_prefix base (base ++ rel) = Some rel.
Proof.
  induction base as [|b base IH]; [reflexivity|].
  cbn [app strip_prefix]. rewrite str_eqb_refl. exact IH.
Qed.

Lemma parent_name (p : Path) : p <> [] -> p = parent p ++ [name p].
Proof. intros H. unfold parent, name. apply app_removelast_last. exact H. Qed.

(** The archive name of a file of the skill: the name of the skill
    directory, then the path below it. *)
Lemma relative_to_parent (skill_dir : Path) (rel : list str) :
  skill_dir <> [] ->
  relative_to (skill_dir ++ rel) (parent skill_dir)
  = Ok (name skill_dir :: rel).
Proof.
  intros H. unfold relative_to.
  replace (skill_dir ++ rel)
    with (parent skill_dir ++ (name skill_dir :: rel)).
  - rewrite strip_prefix_app. reflexivity.
  - rewrite (parent_name skill_dir H) at 3.
    rewrite <- app_assoc. reflexivity.
Qed.

Lemma members_app (a b : list zip_op) :
  members (a ++ b) = members a ++ members b.
Proof.
  induction a as [|op a IH]; [reflexivity|].
  destruct op; cbn [app members]; rewrite IH; reflexivity.
Qed.

Section Package.

Variable env : zip_env.

Lemma add_files_members (skill_dir : Path) (found : list (list str * bool))
    (error : option exn) (ops : list zip_op) :
  skill_dir <> [] ->
  exists written,
    members (snd (add_files env skill_dir found error ops))
    = members ops
      ++ map (fun rel => (skill_dir ++ rel, name skill_dir :: rel)) written
    /\ (exists more, regular_files found = written ++ more)
    /\ (fst (add_files env skill_dir found error ops) = Ok tt ->
        written = regular_files found /\ error = None).
Proof.
  intros Hne. revert ops.
  induction found as [|[rel is_file] found IH]; intros ops.
  - exists []. cbn [add_files fst snd map]. rewrite app_nil_r.
    split; [reflexivity|]. split; [exists []; reflexivity|].
    destruct error; [discriminate|]. intros _. split; reflexivity.
  - cbn [add_files]. destruct is_file.
    + rewrite (relative_to_parent skill_dir rel Hne).
      destruct (zip_write env (skill_dir ++ rel) (name skill_dir :: rel)).
      * destruct (IH (ops ++ [ZipWrite (skill_dir ++ rel)
                                (name skill_dir :: rel)]))
          as (w & H1 & [more H2] & H3).
        exists (rel :: w). rewrite H1, members_app. cbn [members map].
        rewrite <- app_assoc. split; [reflexivity|]. split.
        -- exists more. unfold regular_files in *. cbn [filter snd map].
           rewrite H2. reflexivity.
        -- intros H. destruct (H3 H) as [-> ->].
           split; reflexivity.
      * exists [rel]. cbn [snd fst]. rewrite members_app. cbn [members map].
        split; [reflexivity|]. split; [|discriminate].
        exists (regular_files found). reflexivity.
    + destruct (IH ops) as (w & H1 & H2 & H3). exists w.
      split; [exact H1|]. split; [exact H2 | exact H3].
Qed.

End Package.

End PackagerFacts.
Import PackagerFacts.

(** X29: the members [package_skill] writes to the archive
    are regular files found below the skill directory, in the order found,
    each stored under the name of the skill directory followed by its
    path below it; when the call succeeds every regular file found is a
    member and the archive is [output_dir / name.zip]; the call returns
    either success with that path or [(False, None)]. *)
Theorem archive_members_under_skill_name :
  forall (output_dir : Path) (env : zip_env) (skill_dir : Path),
    skill_dir <> [] ->
    exists written,
      members (snd (package_skill output_dir env skill_dir))
      = map (fun rel => (skill_dir ++ rel, name skill_dir :: rel)) written
      /\ (exists more,
            regular_files (fst (rglob env skill_dir)) = written ++ more)
      /\ (forall zip_path,
            fst (package_skill output_dir env skill_dir)
            = (true, Some zip_path) ->
            zip_path = div output_dir (name skill_dir ++ ".zip")
            /\ written = regular_files (fst (rglob env skill_dir))
            /\ snd (rglob env skill_dir) = None)
      /\ (fst (package_skill output_dir env skill_dir)
          = (true, Some (div output_dir (name skill_dir ++ ".zip")))
          \/ fst (package_skill output_dir env skill_dir) = (false, None)).
Proof.
  intros out env sd Hne.
  unfold package_skill. cbv zeta.
  set (z := div out (name sd ++ ".zip")).
  assert (Hw : forall ops0, members ops0 = [] ->
    exists written,
      members (snd (write_archive env sd z ops0))
      = map (fun rel => (sd ++ rel, name sd :: rel)) written
      /\ (exists more, regular_files (fst (rglob env sd)) = written ++ more)
      /\ (forall u, fst (write_archive env sd z ops0) = Ok u ->
            written = regular_files (fst (rglob env sd))
            /\ snd (rglob env sd) = None)).
  { intros ops0 H0. unfold write_archive.
    destruct (zip_open env z).
    - cbv zeta. destruct (rglob env sd) as [found error] eqn:Eg.
      destruct (add_files_members env sd found error (ops0 ++ [ZipOpen z]) Hne)
        as (w & H1 & H2 & H3).
      destruct (add_files env sd found error (ops0 ++ [ZipOpen z]))
        as [r ops2].
      cbn [fst snd] in *. exists w.
      rewrite members_app, H1, members_app, H0. cbn [members app].
      rewrite app_nil_r. split; [reflexivity|]. split; [exact H2|].
      intros u Hu. apply H3. destruct (zip_close env z); [|discriminate].
      destruct r as [[]|]; [reflexivity | discriminate].
    - exists []. cbn [fst snd]. rewrite members_app, H0.
      split; [reflexivity|]. split.
      + exists (regular_files (fst (rglob env sd))). reflexivity.
      + discriminate. }
  assert (Hfin : forall (r : res unit) (ops : list zip_op) (P : Prop),
            (forall u, r = Ok u -> P) ->
            (forall zip_path,
               fst (match r with
                    | Ok _ => ((true, Some z), ops)
                    | Raise _ => ((false, None), ops)
                    end) = (true, Some zip_path) -> zip_path = z /\ P)
            /\ (fst (match r with
                     | Ok _ => ((true, Some z), ops)
                     | Raise _ => ((false, None), ops)
                     end) = (true, Some z)
                \/ fst (match r with
                        | Ok _ => ((true, Some z), ops)
                        | Raise _ => ((false, None), ops)
                        end) = (false, None))).
  { intros r ops P HP. destruct r as [u|e]; cbn [fst]; split;
      try (left; reflexivity); try (right; reflexivity).
    - intros zp H. injection H as <-. split; [reflexivity | eapply HP; eauto].
    - discriminate. }
  destruct (zip_exists env z).
  - destruct (unlink env z).
    + destruct (Hw [Unlink z] eq_refl) as (w & H1 & H2 & H3).
      destruct (write_archive env sd z [Unlink z]) as [r ops].
      cbn [fst snd] in H1, H3. exists w.
      destruct (Hfin r ops _ H3) as [Ha Hb].
      split; [destruct r; exact H1|]. split; [exact H2|].
      split; [exact Ha | exact Hb].
    + exists []. cbn [fst snd members map].
      split; [reflexivity|]. split.
      * exists (regular_files (fst (rglob env sd))). reflexivity.
      * split; [discriminate | right; reflexivity].
  - destruct (Hw [] eq_refl) as (w & H1 & H2 & H3).
    destruct (write_archive env sd z []) as [r ops].
    cbn [fst snd] in H1, H3. exists w.
    destruct (Hfin r ops _ H3) as [Ha Hb].
    split; [destruct r; exact H1|]. split; [exact H2|].
    split; [exact Ha | exact Hb].
Qed.

Lemma archive_members_under_skill_name_witness :
  exists written,
    members (snd (package_skill out_dir quiet_zip_env built_dir))
    = map (fun rel => (built_dir ++ rel, name built_dir :: rel)) written
    /\ (exists more,
          regular_files (fst (rglob quiet_zip_env built_dir))
          = written ++ more)
    /\ (forall zip_path,
          fst (package_skill out_dir quiet_zip_env built_dir)
          = (true, Some zip_path) ->
          zip_path = div out_dir (name built_dir ++ ".zip")
          /\ written = regular_files (fst (rglob quiet_zip_env built_dir))
          /\ snd (rglob quiet_zip_env built_dir) = None)
    /\ (fst (package_skill out_dir quiet_zip_env built_dir)
        = (true, Some (div out_dir (name built_dir ++ ".zip")))
        \/ fst (package_skill out_dir quiet_zip_env built_dir)
           = (false, None)).
Proof.
  apply (archive_members_under_skill_name out_dir quiet_zip_env built_dir).
  discriminate.
Defined.
